(** * Puerto Rico migration scripts: a shallow embedding and its properties

    The repository is a set of independent Python scripts.  The download
    scripts fetch one JSON matrix per year from the Census API, turn it into
    a pandas data frame, add derived percentage columns and write one CSV
    per year; the IPUMS scripts aggregate microdata (weighted medians); the
    visualisation scripts read the CSV files back and write HTML charts.

    The development follows the scripts:

    - [Binary64]   IEEE 754 double arithmetic as pandas / numpy perform it
                   (on top of the Standard Library's [SpecFloat]), the
                   percentage of [download_*_data.py] and its range;
    - [WeightedMedian]  [weighted_median] of
                   [download_ipums_pr_specific_data.py], with the weights
                   and their running totals in binary64;
    - [Frame]      the part of the pandas data frame the scripts rely on;
    - [Py]         a state-and-exception monad for the scripts' effects
                   (printing, HTTP requests, the file system and what it
                   answers to [os.makedirs] and [to_csv]);
    - [Download]   the ten Census download scripts and their loops;
    - [Ipums]      the extract loop of [download_ipums_data.py];
    - [Viz]        the visualisation functions and [generate_map];
    - [Tables]     the tables the Census download scripts write: their
                   rows, columns and keys, from the JSON matrix;
    - [DownloadRuns]  whole runs of the ten Census download scripts: what
                   they raise, what they write, what they leave alone, and
                   the rates of the poverty table;
    - [IpumsRuns]  runs of [download_ipums_data.py] whose extracts stay
                   pending;
    - [VizRuns]    the inputs and outputs of [generate_map] and the main
                   program of [generate_improved_visualizations.py]. *)

From stdpp Require Import gmap strings pretty.
From Stdlib Require Import ZArith QArith Qpower Lia Lqa List Bool Ascii.
From Stdlib Require Import Permutation Sorted.
From Stdlib Require Import Floats.SpecFloat.
Import ListNotations.

(* ===================================================================== *)
(** * Binary64 arithmetic of the rate columns                             *)
(* ===================================================================== *)

Module Binary64.

Local Open Scope Z_scope.

(** pandas stores the coerced columns as float64 (an int64 column is cast
    to float64 by the true division); [prec] and [emax] are those of the
    IEEE 754 binary64 format. *)
Definition prec : Z := 53.
Definition emax : Z := 1024.

Abbreviation float := spec_float.

Definition fdiv : float -> float -> float := SFdiv prec emax.
Definition fmul : float -> float -> float := SFmul prec emax.
Definition fadd : float -> float -> float := SFadd prec emax.
Definition fsub : float -> float -> float := SFsub prec emax.

(** Conversion of an integer to the nearest double (what numpy does with an
    int64 operand of [/], and Python with the literal [100]). *)
Definition of_Z (z : Z) : float := binary_normalize prec emax z 0 false.

Definition c100 : float := Eval vm_compute in of_Z 100.

Definition nan : float := S754_nan.
Definition pos_zero : float := S754_zero false.

Definition is_nan (x : float) : bool :=
  match x with S754_nan => true | _ => false end.

Definition is_infinite (x : float) : bool :=
  match x with S754_infinity _ => true | _ => false end.

Definition is_finite (x : float) : bool :=
  match x with S754_zero _ | S754_finite _ _ _ => true | _ => false end.

Definition is_zero (x : float) : bool :=
  match x with S754_zero _ => true | _ => false end.

Definition sign_of (x : float) : bool :=
  match x with
  | S754_zero s | S754_infinity s | S754_finite s _ _ => s
  | S754_nan => false
  end.

(** [numpy.rint]: round to the nearest integer, ties to even, keeping the
    sign (so that [rint (-0.3)] is [-0.0]).  A double whose exponent is not
    negative is an integer already. *)
Definition rint (x : float) : float :=
  match x with
  | S754_finite s m e =>
      if 0 <=? e then x
      else
        let '(mrs, _) := shr (Build_shr_record (Zpos m) false false) e (- e) in
        match round_nearest_even (shr_m mrs) (loc_of_shr_record mrs) with
        | Zpos k => binary_round prec emax s k 0
        | _ => S754_zero s
        end
  | _ => x
  end.

(** [Series.round(2)] hands over to [ndarray.round], which numpy computes as
    [rint (x * 10**2) / 10**2]. *)
Definition round2 (x : float) : float := fdiv (rint (fmul x c100)) c100.

(** The expression every rate column is computed with:
    [(df[num] / df[den] * 100).round(2)], one row at a time. *)
Definition pct_rate (num den : float) : float :=
  round2 (fmul (fdiv num den) c100).

(** ** The rows of the scripts, after [pd.to_numeric(..., errors='coerce')] *)

(** [download_poverty_data.py] *)
Record poverty_row := {
  B17001_001E : float;   (* total, poverty status universe *)
  B17001_002E : float    (* income below poverty level *)
}.

Definition poverty_rate (r : poverty_row) : float :=
  pct_rate (B17001_002E r) (B17001_001E r).

(** [download_commuting_data.py] *)
Record commuting_row := {
  B08301I_001E : float;  (* total workers 16 years and over *)
  B08301I_003E : float;
  B08301I_004E : float;
  B08301I_010E : float;
  B08301I_016E : float;
  B08301I_017E : float;
  B08301I_018E : float
}.

Definition drove_alone (r : commuting_row) : float := B08301I_003E r.
Definition carpooled (r : commuting_row) : float := B08301I_004E r.
Definition public_transit (r : commuting_row) : float := B08301I_010E r.
Definition walked (r : commuting_row) : float := B08301I_016E r.
Definition other_means (r : commuting_row) : float := B08301I_017E r.
Definition worked_from_home (r : commuting_row) : float := B08301I_018E r.

Definition drove_alone_rate (r : commuting_row) : float :=
  pct_rate (drove_alone r) (B08301I_001E r).
Definition carpooled_rate (r : commuting_row) : float :=
  pct_rate (carpooled r) (B08301I_001E r).
Definition public_transit_rate (r : commuting_row) : float :=
  pct_rate (public_transit r) (B08301I_001E r).
Definition walked_rate (r : commuting_row) : float :=
  pct_rate (walked r) (B08301I_001E r).
Definition worked_from_home_rate (r : commuting_row) : float :=
  pct_rate (worked_from_home r) (B08301I_001E r).

(** [download_language_data.py] *)
Record language_row := {
  B16001I_001E : float;  (* total population 5 years and over *)
  B16001I_002E : float;
  B16001I_003E : float;
  B16001I_004E : float;
  B16001I_005E : float;
  B16001I_006E : float
}.

Definition speaks_spanish (r : language_row) : float :=
  fadd (fadd (fadd (B16001I_003E r) (B16001I_004E r)) (B16001I_005E r))
       (B16001I_006E r).
Definition limited_english_proficiency (r : language_row) : float :=
  fadd (B16001I_005E r) (B16001I_006E r).

Definition english_only_rate (r : language_row) : float :=
  pct_rate (B16001I_002E r) (B16001I_001E r).
Definition spanish_speaking_rate (r : language_row) : float :=
  pct_rate (speaks_spanish r) (B16001I_001E r).
Definition limited_english_rate (r : language_row) : float :=
  pct_rate (limited_english_proficiency r) (B16001I_001E r).

(** [download_year_of_arrival_data.py] *)
Record mobility_row := {
  B07001_001E : float;   (* total population 1 year and over *)
  B07001_002E : float;   (* same house 1 year ago *)
  B07001_005E : float;
  B07001_006E : float
}.

Definition moved_total (r : mobility_row) : float :=
  fsub (B07001_001E r) (B07001_002E r).
Definition migration_rate (r : mobility_row) : float :=
  pct_rate (moved_total r) (B07001_001E r).
Definition moved_from_different_state_rate (r : mobility_row) : float :=
  pct_rate (B07001_005E r) (B07001_001E r).
Definition moved_from_abroad_rate (r : mobility_row) : float :=
  pct_rate (B07001_006E r) (B07001_001E r).

(** The rate columns of the four scripts, each with the numerator and the
    denominator column it is computed from. *)
Inductive rate_column : float -> float -> float -> Prop :=
| RC_poverty (r : poverty_row) :
    rate_column (B17001_002E r) (B17001_001E r) (poverty_rate r)
| RC_drove_alone (r : commuting_row) :
    rate_column (drove_alone r) (B08301I_001E r) (drove_alone_rate r)
| RC_carpooled (r : commuting_row) :
    rate_column (carpooled r) (B08301I_001E r) (carpooled_rate r)
| RC_public_transit (r : commuting_row) :
    rate_column (public_transit r) (B08301I_001E r) (public_transit_rate r)
| RC_walked (r : commuting_row) :
    rate_column (walked r) (B08301I_001E r) (walked_rate r)
| RC_worked_from_home (r : commuting_row) :
    rate_column (worked_from_home r) (B08301I_001E r)
                (worked_from_home_rate r)
| RC_english_only (r : language_row) :
    rate_column (B16001I_002E r) (B16001I_001E r) (english_only_rate r)
| RC_spanish_speaking (r : language_row) :
    rate_column (speaks_spanish r) (B16001I_001E r) (spanish_speaking_rate r)
| RC_limited_english (r : language_row) :
    rate_column (limited_english_proficiency r) (B16001I_001E r)
                (limited_english_rate r)
| RC_migration (r : mobility_row) :
    rate_column (moved_total r) (B07001_001E r) (migration_rate r)
| RC_different_state (r : mobility_row) :
    rate_column (B07001_005E r) (B07001_001E r)
                (moved_from_different_state_rate r)
| RC_from_abroad (r : mobility_row) :
    rate_column (B07001_006E r) (B07001_001E r) (moved_from_abroad_rate r).

(** ** The value of a double *)

Definition bpow (e : Z) : Q := Qpower 2 e.

Definition F2Q (m e : Z) : Q := (inject_Z m * bpow e)%Q.

Definition SF2Q (x : float) : Q :=
  match x with
  | S754_finite s m e => if s then (- F2Q (Zpos m) e)%Q else F2Q (Zpos m) e
  | _ => 0%Q
  end.

(** Valid inputs of a rate: both columns hold numbers, the numerator lies
    between 0 and the denominator, and the denominator is positive. *)
Definition valid_inputs (num den : float) : Prop :=
  is_finite num = true /\ is_finite den = true /\
  (0 <= SF2Q num)%Q /\ (SF2Q num <= SF2Q den)%Q /\ (0 < SF2Q den)%Q.

Definition within_0_100 (x : float) : Prop :=
  is_finite x = true /\ (0 <= SF2Q x)%Q /\ (SF2Q x <= 100)%Q.

(** ** Powers of two and scaled integers *)

Lemma bpow_pos (e : Z) : (0 < bpow e)%Q.
Proof. apply Qpower_0_lt. reflexivity. Qed.

Lemma bpow_plus (a b : Z) : (bpow (a + b) == bpow a * bpow b)%Q.
Proof. apply Qpower_plus. discriminate. Qed.

Lemma bpow_inject (k : Z) : 0 <= k -> (bpow k == inject_Z (2 ^ k))%Q.
Proof.
  intros Hk. unfold bpow. rewrite Zpower_Qpower by assumption. reflexivity.
Qed.

Lemma bpow_lt (a b : Z) : a < b -> (bpow a < bpow b)%Q.
Proof. intros H. apply Qpower_lt_compat_l; [assumption | reflexivity]. Qed.

Lemma bpow_le (a b : Z) : a <= b -> (bpow a <= bpow b)%Q.
Proof. intros H. apply Qpower_le_compat_l; [assumption | discriminate]. Qed.

Lemma bpow_lt_inv (a b : Z) : (bpow a < bpow b)%Q -> a < b.
Proof. intros H. apply Qpower_lt_compat_l_inv with (q := 2%Q); [exact H | reflexivity]. Qed.

Lemma F2Q_shift (m e k : Z) : 0 <= k -> (F2Q m (e + k) == F2Q (m * 2 ^ k) e)%Q.
Proof.
  intros Hk. unfold F2Q.
  rewrite bpow_plus, inject_Z_mult, (bpow_inject k) by assumption. ring.
Qed.

Lemma F2Q_le_iff (a b e : Z) : (F2Q a e <= F2Q b e)%Q <-> a <= b.
Proof.
  unfold F2Q. pose proof (bpow_pos e) as He. rewrite Zle_Qle. split; intros H.
  - apply Qmult_le_r with (z := bpow e); assumption.
  - apply Qmult_le_r; assumption.
Qed.

Lemma F2Q_lt_iff (a b e : Z) : (F2Q a e < F2Q b e)%Q <-> a < b.
Proof.
  unfold F2Q. pose proof (bpow_pos e) as He. rewrite Zlt_Qlt. split; intros H.
  - apply Qmult_lt_r with (z := bpow e); assumption.
  - apply Qmult_lt_r; assumption.
Qed.

Lemma F2Q_nonneg (m e : Z) : 0 <= m -> (0 <= F2Q m e)%Q.
Proof.
  intros Hm. unfold F2Q. apply Qmult_le_0_compat.
  - rewrite Zle_Qle in Hm. exact Hm.
  - apply Qlt_le_weak, bpow_pos.
Qed.

Lemma F2Q_pos (m e : Z) : 0 < m -> (0 < F2Q m e)%Q.
Proof.
  intros Hm. unfold F2Q. apply Qmult_lt_0_compat.
  - rewrite Zlt_Qlt in Hm. exact Hm.
  - apply bpow_pos.
Qed.

Lemma F2Q_one (e : Z) : (F2Q 1 e == bpow e)%Q.
Proof. unfold F2Q. ring. Qed.

Lemma F2Q_mult (m1 e1 m2 e2 : Z) :
  (F2Q m1 e1 * F2Q m2 e2 == F2Q (m1 * m2) (e1 + e2))%Q.
Proof. unfold F2Q. rewrite bpow_plus, inject_Z_mult. ring. Qed.

(** ** Number of binary digits *)

Lemma digits2_pos_size (p : positive) : digits2_pos p = Pos.size p.
Proof. induction p; simpl; congruence. Qed.

Lemma digits2_pos_bounds (p : positive) :
  2 ^ (Zpos (digits2_pos p) - 1) <= Zpos p < 2 ^ Zpos (digits2_pos p).
Proof.
  rewrite digits2_pos_size. split.
  - pose proof (Pos.size_le p) as H.
    apply Pos2Z.pos_le_pos in H. rewrite Pos2Z.inj_pow in H.
    replace (Zpos (Pos.size p)) with (Z.succ (Zpos (Pos.size p) - 1)) in H by lia.
    rewrite Z.pow_succ_r in H by lia. lia.
  - pose proof (Pos.size_gt p) as H.
    apply Pos2Z.pos_lt_pos in H. rewrite Pos2Z.inj_pow in H. exact H.
Qed.

Lemma Zdigits2_nonneg (m : Z) : 0 <= Zdigits2 m.
Proof. destruct m; simpl; lia. Qed.

Lemma Zdigits2_bounds (m : Z) :
  0 < m -> 2 ^ (Zdigits2 m - 1) <= m < 2 ^ Zdigits2 m.
Proof. destruct m as [|p|p]; try lia. intros _. apply digits2_pos_bounds. Qed.

Lemma Zdigits2_le (m k : Z) : 0 <= k -> m < 2 ^ k -> 0 <= m -> Zdigits2 m <= k.
Proof.
  intros Hk Hm H0. destruct (Z.eq_dec m 0) as [->|Hne]; [simpl; lia|].
  destruct (Zdigits2_bounds m ltac:(lia)) as [Hlo _].
  destruct (Z_le_gt_dec (Zdigits2 m) k) as [|Hgt]; [assumption|exfalso].
  assert (2 ^ k <= 2 ^ (Zdigits2 m - 1)) by (apply Z.pow_le_mono_r; lia).
  lia.
Qed.

Lemma Zdigits2_ge (m k : Z) : 0 <= k -> 2 ^ k <= m -> k + 1 <= Zdigits2 m.
Proof.
  intros Hk Hm.
  assert (0 < m) by (pose proof (Z.pow_pos_nonneg 2 k); lia).
  destruct (Zdigits2_bounds m ltac:(lia)) as [_ Hhi].
  destruct (Z_le_gt_dec (k + 1) (Zdigits2 m)) as [|Hgt]; [assumption|exfalso].
  pose proof (Zdigits2_nonneg m).
  assert (2 ^ Zdigits2 m <= 2 ^ k) by (apply Z.pow_le_mono_r; lia).
  lia.
Qed.

(** A positive scaled integer below [2^k] has its digits below [k]. *)
Lemma Zdigits2_F2Q_lt (m e k : Z) :
  0 < m -> (F2Q m e < bpow k)%Q -> Zdigits2 m + e <= k.
Proof.
  intros Hm Hlt.
  destruct (Zdigits2_bounds m Hm) as [Hlo _].
  pose proof (Zdigits2_nonneg m) as Hd.
  assert (Hd1 : 1 <= Zdigits2 m).
  { destruct m; simpl in *; lia. }
  assert (H1 : (bpow (Zdigits2 m - 1 + e) <= F2Q m e)%Q).
  { rewrite Z.add_comm, <- F2Q_one, F2Q_shift by lia.
    apply F2Q_le_iff. lia. }
  assert (H2 : (bpow (Zdigits2 m - 1 + e) < bpow k)%Q) by (eapply Qle_lt_trans; eassumption).
  apply bpow_lt_inv in H2. lia.
Qed.

Lemma fexp_mono (a b : Z) : a <= b -> fexp prec emax a <= fexp prec emax b.
Proof. unfold fexp. lia. Qed.

Lemma fexp_ge_emin (a : Z) : emin prec emax <= fexp prec emax a.
Proof. unfold fexp. lia. Qed.

(** ** Shifting a mantissa to the right *)

Definition inexact (mrs : shr_record) : bool := shr_r mrs || shr_s mrs.

Lemma inexact_loc (mrs : shr_record) :
  inexact mrs = false <-> loc_of_shr_record mrs = loc_Exact.
Proof. destruct mrs as [m [|] [|]]; unfold inexact; simpl; split; congruence. Qed.

Lemma inexact_of_loc (m : Z) (l : location) :
  inexact (shr_record_of_loc m l) = true -> l <> loc_Exact.
Proof. destruct l as [|[| |]]; unfold inexact; simpl; congruence. Qed.

Lemma shr_m_of_loc (m : Z) (l : location) : shr_m (shr_record_of_loc m l) = m.
Proof. destruct l as [|[| |]]; reflexivity. Qed.

Lemma shr_1_m (mrs : shr_record) :
  0 <= shr_m mrs -> shr_m (shr_1 mrs) = shr_m mrs / 2.
Proof.
  destruct mrs as [m r s]; simpl. intros Hm.
  destruct m as [|[p|p|]|p]; simpl; try lia.
  - reflexivity.
  - apply Z.div_unique with (r := 1); lia.
  - apply Z.div_unique with (r := 0); lia.
  - reflexivity.
Qed.

Lemma shr_1_inexact (mrs : shr_record) :
  0 <= shr_m mrs -> inexact (shr_1 mrs) = true ->
  inexact mrs = true \/ 2 * (shr_m mrs / 2) < shr_m mrs.
Proof.
  destruct mrs as [m r s]; unfold inexact; simpl. intros Hm.
  destruct m as [|[p|p|]|p]; simpl; intros Hi; try lia.
  - left. exact Hi.
  - right. replace (Z.pos p~1 / 2) with (Z.pos p); [lia|].
    apply Z.div_unique with (r := 1); lia.
  - left. exact Hi.
  - right. reflexivity.
Qed.

Lemma iter_pos_invariant {A : Type} (f : A -> A) (P : Z -> A -> Prop) :
  (forall k x, 0 <= k -> P k x -> P (k + 1) (f x)) ->
  forall p k x, 0 <= k -> P k x -> P (k + Zpos p) (iter_pos f p x).
Proof.
  intros Hstep. induction p as [p IH|p IH|]; intros k x Hk Hx; simpl.
  - replace (k + Zpos p~1) with (k + 1 + Zpos p + Zpos p) by lia.
    apply IH; [lia|]. apply IH; [lia|]. apply Hstep; assumption.
  - replace (k + Zpos p~0) with (k + Zpos p + Zpos p) by lia.
    apply IH; [lia|]. apply IH; assumption.
  - apply Hstep; assumption.
Qed.

(** [shr] divides the mantissa by [2^n], rounding down, and its record is
    inexact only if the original one was or if bits were lost. *)
Lemma shr_spec (mrs : shr_record) (e n : Z) :
  0 <= shr_m mrs ->
  let k := Z.max n 0 in
  snd (shr mrs e n) = e + k /\
  shr_m (fst (shr mrs e n)) = shr_m mrs / 2 ^ k /\
  (inexact (fst (shr mrs e n)) = true ->
   inexact mrs = true \/ shr_m (fst (shr mrs e n)) * 2 ^ k < shr_m mrs).
Proof.
  intros Hm k. subst k. destruct n as [|p|p]; simpl.
  - rewrite Z.div_1_r. repeat split; [lia | auto].
  - set (P := fun (k : Z) (x : shr_record) =>
        shr_m x = shr_m mrs / 2 ^ k /\
        (inexact x = true ->
         inexact mrs = true \/ shr_m x * 2 ^ k < shr_m mrs)).
    assert (HP : P (0 + Zpos p) (iter_pos shr_1 p mrs)).
    { apply iter_pos_invariant; [|lia|].
      - intros k x Hk [Hx Hi]. unfold P.
        assert (Hpow : 0 < 2 ^ k) by (apply Z.pow_pos_nonneg; lia).
        assert (Hx0 : 0 <= shr_m x).
        { rewrite Hx. apply Z.div_pos; lia. }
        assert (Hxk : shr_m x * 2 ^ k <= shr_m mrs).
        { rewrite Hx. rewrite Z.mul_comm. apply Z.mul_div_le. lia. }
        assert (Hh : 2 * (shr_m x / 2) <= shr_m x)
          by (apply Z.mul_div_le; lia).
        rewrite Z.pow_add_r, Z.pow_1_r by lia.
        split.
        + rewrite shr_1_m, Hx, Z.div_div by lia. reflexivity.
        + intros Hi1. rewrite shr_1_m by assumption.
          destruct (shr_1_inexact x Hx0 Hi1) as [Hold|Hodd].
          * destruct (Hi Hold) as [?|Hlt]; [left; assumption|right]. nia.
          * right. nia.
      - unfold P. rewrite Z.pow_0_r, Z.div_1_r. split; [reflexivity|]. auto. }
    simpl in HP. destruct HP as [H1 H2]. repeat split; assumption.
  - rewrite Z.div_1_r. repeat split; [lia | auto].
Qed.

(** ** Rounding keeps a representable upper bound *)

(** [below s b x]: [x] is a zero, or a finite double of sign [s] whose
    magnitude is at most [b]. *)
Definition below (s : bool) (b : Q) (x : float) : Prop :=
  match x with
  | S754_zero _ => True
  | S754_finite s' m e => s' = s /\ (F2Q (Zpos m) e <= b)%Q
  | _ => False
  end.

Lemma below_weaken (s : bool) (b b' : Q) (x : float) :
  (b <= b')%Q -> below s b x -> below s b' x.
Proof.
  intros Hb. destruct x; simpl; auto.
  intros [Hs Hle]. split; [assumption|]. eapply Qle_trans; eassumption.
Qed.

Lemma round_nearest_even_cases (m : Z) (l : location) :
  round_nearest_even m l = m \/
  (round_nearest_even m l = m + 1 /\ l <> loc_Exact).
Proof.
  destruct l as [|[| |]]; simpl.
  - left; reflexivity.
  - destruct (Z.even m); [left; reflexivity | right; split; congruence].
  - left; reflexivity.
  - right. split; congruence.
Qed.

Lemma F2Q_lt_bpow (Mb Eb : Z) :
  Mb < 2 ^ 53 -> (F2Q Mb Eb < bpow (Eb + 53))%Q.
Proof.
  intros HM. rewrite <- F2Q_one, F2Q_shift by lia.
  apply F2Q_lt_iff. lia.
Qed.

Lemma fexp_le_bound (m e Mb Eb : Z) :
  0 < m -> (F2Q m e <= F2Q Mb Eb)%Q -> Mb < 2 ^ 53 ->
  emin prec emax <= Eb ->
  fexp prec emax (Zdigits2 m + e) <= Eb.
Proof.
  intros Hm Hle HM HE.
  assert (Hlt : (F2Q m e < bpow (Eb + 53))%Q).
  { eapply Qle_lt_trans; [exact Hle|]. apply F2Q_lt_bpow; assumption. }
  apply Zdigits2_F2Q_lt in Hlt; [|assumption].
  unfold fexp, emin, prec, emax in *. lia.
Qed.

Lemma binary_round_aux_le (sx : bool) (mx ex : Z) (lx : location)
      (v : Q) (Mb Eb : Z) :
  0 <= mx ->
  ex <= fexp prec emax (Zdigits2 mx + ex) ->
  (F2Q mx ex <= v)%Q ->
  (lx <> loc_Exact -> (F2Q mx ex < v)%Q) ->
  (v <= F2Q Mb Eb)%Q ->
  0 < Mb < 2 ^ 53 ->
  emin prec emax <= Eb <= emax - prec ->
  below sx (F2Q Mb Eb) (binary_round_aux prec emax sx mx ex lx).
Proof.
  intros Hmx Hcan Hlo Hstrict Hup [HMb0 HMb] [HEb1 HEb2].
  unfold binary_round_aux, shr_fexp.
  set (E := fexp prec emax (Zdigits2 mx + ex)) in *.
  (* first shift *)
  pose proof (shr_spec (shr_record_of_loc mx lx) ex (E - ex)) as H1.
  rewrite shr_m_of_loc in H1. specialize (H1 Hmx). cbv zeta in H1.
  replace (Z.max (E - ex) 0) with (E - ex) in H1 by lia.
  destruct (shr (shr_record_of_loc mx lx) ex (E - ex)) as [mrs1 e1].
  simpl in H1. destruct H1 as (He1 & Hm1 & Hi1).
  replace (ex + (E - ex)) with E in He1 by lia. subst e1.
  assert (Hpow : 0 < 2 ^ (E - ex)) by (apply Z.pow_pos_nonneg; lia).
  assert (Hm1pos : 0 <= shr_m mrs1).
  { rewrite Hm1. apply Z.div_pos; lia. }
  assert (Hm1le : shr_m mrs1 * 2 ^ (E - ex) <= mx).
  { rewrite Hm1, Z.mul_comm. apply Z.mul_div_le. lia. }
  assert (HEle : E <= Eb).
  { destruct (Z.eq_dec mx 0) as [->|Hne].
    - subst E. simpl in *. unfold fexp, emin, prec, emax in *. lia.
    - apply fexp_le_bound with (Mb := Mb); try assumption; try lia.
      eapply Qle_trans; eassumption. }
  set (K := Mb * 2 ^ (Eb - E)).
  assert (HK : (F2Q Mb Eb == F2Q K E)%Q).
  { unfold K. rewrite <- F2Q_shift by lia.
    replace (E + (Eb - E)) with Eb by lia. reflexivity. }
  assert (Hv1 : (F2Q (shr_m mrs1) E <= v)%Q).
  { eapply Qle_trans; [|exact Hlo].
    replace E with (ex + (E - ex)) at 1 by lia.
    rewrite F2Q_shift by lia. apply F2Q_le_iff. exact Hm1le. }
  (* rounding to nearest *)
  set (m2 := round_nearest_even (shr_m mrs1) (loc_of_shr_record mrs1)).
  assert (Hm2 : 0 <= m2 <= K).
  { assert (HleK : shr_m mrs1 <= K).
    { apply (F2Q_le_iff _ _ E). rewrite <- HK.
      eapply Qle_trans; eassumption. }
    destruct (round_nearest_even_cases (shr_m mrs1) (loc_of_shr_record mrs1))
      as [Heq|[Heq Hinex]]; fold m2 in Heq; rewrite Heq; [lia|].
    assert (Hin : inexact mrs1 = true).
    { destruct (inexact mrs1) eqn:Hq; [reflexivity|].
      apply inexact_loc in Hq. contradiction. }
    assert (Hlt : (F2Q (shr_m mrs1) E < v)%Q).
    { destruct (Hi1 Hin) as [Hold|Hlost].
      - eapply Qle_lt_trans; [|apply Hstrict, inexact_of_loc with (m := mx); exact Hold].
        replace E with (ex + (E - ex)) at 1 by lia.
        rewrite F2Q_shift by lia. apply F2Q_le_iff. exact Hm1le.
      - eapply Qlt_le_trans; [|exact Hlo].
        replace E with (ex + (E - ex)) at 1 by lia.
        rewrite F2Q_shift by lia. apply F2Q_lt_iff. exact Hlost. }
    assert (shr_m mrs1 < K).
    { apply (F2Q_lt_iff _ _ E). rewrite <- HK.
      eapply Qlt_le_trans; eassumption. }
    lia. }
  clearbody m2.
  (* second shift *)
  set (E2 := fexp prec emax (Zdigits2 m2 + E)).
  pose proof (shr_spec (shr_record_of_loc m2 loc_Exact) E (E2 - E)) as H2.
  rewrite shr_m_of_loc in H2. specialize (H2 (proj1 Hm2)). cbv zeta in H2.
  destruct (shr (shr_record_of_loc m2 loc_Exact) E (E2 - E)) as [mrs3 e3].
  simpl in H2. destruct H2 as (He3 & Hm3 & _).
  set (k := Z.max (E2 - E) 0) in *.
  assert (Hpow2 : 0 < 2 ^ k) by (apply Z.pow_pos_nonneg; lia).
  assert (Hm3pos : 0 <= shr_m mrs3).
  { rewrite Hm3. apply Z.div_pos; lia. }
  assert (Hm3le : shr_m mrs3 * 2 ^ k <= m2).
  { rewrite Hm3, Z.mul_comm. apply Z.mul_div_le. lia. }
  assert (He3le : e3 <= Eb).
  { destruct (Z.eq_dec m2 0) as [->|Hne].
    - subst e3 k E2 E. simpl. unfold fexp, emin, prec, emax in *. lia.
    - assert (E2 <= Eb); [|lia].
      apply fexp_le_bound with (Mb := Mb); try lia.
      rewrite HK. apply F2Q_le_iff. lia. }
  assert (Hfin : (F2Q (shr_m mrs3) e3 <= F2Q Mb Eb)%Q).
  { rewrite HK, He3, F2Q_shift by lia. apply F2Q_le_iff. lia. }
  destruct (shr_m mrs3) as [|p|p] eqn:Hm3eq; simpl.
  - exact I.
  - replace (e3 <=? emax - prec) with true by (symmetry; apply Z.leb_le; lia).
    simpl. split; [reflexivity | exact Hfin].
  - lia.
Qed.

(** ** Division *)

Lemma new_location_exact (nb k : Z) :
  new_location nb k <> loc_Exact -> k <> 0.
Proof.
  unfold new_location, new_location_even, new_location_odd.
  intros H ->. destruct (Z.even nb); simpl in H; congruence.
Qed.

Lemma SFdiv_core_binary_spec (mx my : positive) (ex ey : Z) :
  let '(q, e, l) := SFdiv_core_binary prec emax (Zpos mx) ex (Zpos my) ey in
  0 <= q /\
  e <= fexp prec emax (Zdigits2 q + e) /\
  (F2Q q e * F2Q (Zpos my) ey <= F2Q (Zpos mx) ex)%Q /\
  (l <> loc_Exact -> (F2Q q e * F2Q (Zpos my) ey < F2Q (Zpos mx) ex)%Q).
Proof.
  unfold SFdiv_core_binary.
  set (d1 := Zdigits2 (Zpos mx)). set (d2 := Zdigits2 (Zpos my)).
  set (e := Z.min (fexp prec emax (d1 + ex - (d2 + ey))) (ex - ey)).
  set (s := ex - ey - e).
  assert (Hs : 0 <= s) by (unfold s, e; lia).
  set (m := match s with Zpos _ => Z.shiftl (Zpos mx) s | 0 => Zpos mx | Zneg _ => 0 end).
  assert (Hm : m = Zpos mx * 2 ^ s).
  { unfold m. destruct s as [|p|p] eqn:Hseq; try lia.
    apply Z.shiftl_mul_pow2. lia. }
  clearbody m.
  pose proof (Z_div_mod m (Zpos my) ltac:(lia)) as Hdiv.
  destruct (Z.div_eucl m (Zpos my)) as [q r]. destruct Hdiv as [Hmq Hr].
  assert (Hpow : 0 < 2 ^ s) by (apply Z.pow_pos_nonneg; lia).
  assert (Hq : 0 <= q) by nia.
  destruct (Zdigits2_bounds (Zpos mx) ltac:(lia)) as [Hd1 _].
  destruct (Zdigits2_bounds (Zpos my) ltac:(lia)) as [_ Hd2].
  fold d1 in Hd1. fold d2 in Hd2.
  assert (Hd2pos : 1 <= d2) by (unfold d2; simpl; lia).
  assert (Hd1pos : 1 <= d1) by (unfold d1; simpl; lia).
  assert (Hscale : (F2Q (Zpos mx) ex == F2Q m (e + ey))%Q).
  { rewrite Hm, <- F2Q_shift by assumption.
    replace (e + ey + s) with ex by (unfold s; lia). reflexivity. }
  repeat split.
  - exact Hq.
  - assert (Hdig : d1 + s - d2 <= Zdigits2 q).
    { destruct (Z_lt_le_dec (d1 + s - d2 - 1) 0) as [Hneg|Hpos].
      - pose proof (Zdigits2_nonneg q). lia.
      - assert (2 ^ (d1 + s - d2 - 1) <= q); [|apply Zdigits2_ge in H; lia].
        assert (Hp : 2 ^ d2 * 2 ^ (d1 + s - d2 - 1) = 2 ^ (d1 - 1) * 2 ^ s).
        { rewrite <- !Z.pow_add_r by lia. f_equal. lia. }
        assert (0 < 2 ^ (d1 + s - d2 - 1)) by (apply Z.pow_pos_nonneg; lia).
        nia. }
    transitivity (fexp prec emax (d1 + ex - (d2 + ey))).
    + unfold e. lia.
    + apply fexp_mono. unfold s in Hdig. lia.
  - rewrite F2Q_mult, Hscale. apply F2Q_le_iff. nia.
  - intros Hl. apply new_location_exact in Hl.
    rewrite F2Q_mult, Hscale. apply F2Q_lt_iff. nia.
Qed.

Lemma fdiv_le (sx sy : bool) (mx my : positive) (ex ey : Z) (Mb Eb : Z) :
  (F2Q (Zpos mx) ex <= F2Q Mb Eb * F2Q (Zpos my) ey)%Q ->
  0 < Mb < 2 ^ 53 ->
  emin prec emax <= Eb <= emax - prec ->
  below (xorb sx sy) (F2Q Mb Eb)
        (fdiv (S754_finite sx mx ex) (S754_finite sy my ey)).
Proof.
  intros Hle HMb HEb. unfold fdiv, SFdiv.
  pose proof (SFdiv_core_binary_spec mx my ex ey) as Hcore.
  destruct (SFdiv_core_binary prec emax (Zpos mx) ex (Zpos my) ey)
    as [[q e] l].
  destruct Hcore as (Hq & Hcan & Hlo & Hstrict).
  assert (Hy : (0 < F2Q (Zpos my) ey)%Q) by (apply F2Q_pos; lia).
  apply binary_round_aux_le
    with (v := (F2Q (Zpos mx) ex / F2Q (Zpos my) ey)%Q); try assumption.
  - apply Qle_shift_div_l; assumption.
  - intros Hl. apply Qlt_shift_div_l; auto.
  - apply Qle_shift_div_r; assumption.
Qed.

(** ** Multiplication by 100 *)

Definition m100 : positive := 7036874417766400.

Lemma F2Q_c100 : (F2Q (Zpos m100) (-46) == 100)%Q.
Proof. vm_compute. reflexivity. Qed.

Lemma F2Q_0 (m : Z) : (F2Q m 0 == inject_Z m)%Q.
Proof. unfold F2Q, bpow. simpl. ring. Qed.

Lemma fmul_c100_le (x : float) (K : Z) :
  below false (F2Q K 0) x ->
  0 < K -> K * 100 < 2 ^ 53 ->
  below false (F2Q (K * 100) 0) (fmul x c100).
Proof.
  intros Hx HK0 HK. destruct x as [s| | |s m e]; simpl in Hx; try contradiction.
  - exact I.
  - destruct Hx as [-> Hle]. unfold fmul, c100, SFmul.
    change (xorb false false) with false.
    fold m100.
    assert (Hv : (F2Q (Zpos (m * m100)) (e + -46) <= F2Q (K * 100) 0)%Q).
    { rewrite Pos2Z.inj_mul, <- F2Q_mult, F2Q_c100.
      rewrite (F2Q_0 (K * 100)), inject_Z_mult, <- (F2Q_0 K).
      change (inject_Z 100) with 100%Q.
      apply Qmult_le_compat_r; [exact Hle | discriminate]. }
    apply binary_round_aux_le with (v := F2Q (Zpos (m * m100)) (e + -46)).
    + lia.
    + assert (Hd : 52 + 1 <= Zdigits2 (Zpos (m * m100))).
      { apply Zdigits2_ge; [lia|]. rewrite Pos2Z.inj_mul.
        change (2 ^ 52) with (1 * 4503599627370496).
        apply Z.mul_le_mono_nonneg; unfold m100; lia. }
      unfold fexp, emin, prec, emax. lia.
    + apply Qle_refl.
    + intros H. contradiction.
    + exact Hv.
    + lia.
    + unfold emin, prec, emax. lia.
Qed.

(** ** Conversion of an integer, and rounding to an integer *)

Lemma Pos_iter_xO (m d : positive) :
  Zpos (Pos.iter xO m d) = Zpos m * 2 ^ Zpos d.
Proof.
  induction d as [|d IH] using Pos.peano_ind.
  - simpl. lia.
  - rewrite Pos.iter_succ, Pos2Z.inj_xO, IH, Pos2Z.inj_succ.
    rewrite Z.pow_succ_r by lia. ring.
Qed.

Lemma binary_round_le (s : bool) (m : positive) (e : Z) (Mb Eb : Z) :
  (F2Q (Zpos m) e <= F2Q Mb Eb)%Q ->
  0 < Mb < 2 ^ 53 ->
  emin prec emax <= Eb <= emax - prec ->
  below s (F2Q Mb Eb) (binary_round prec emax s m e).
Proof.
  intros Hle HMb HEb. unfold binary_round, shl_align.
  set (E := fexp prec emax (Zpos (digits2_pos m) + e)).
  destruct (E - e) as [|d|d] eqn:Hd.
  - apply binary_round_aux_le with (v := F2Q (Zpos m) e); try assumption;
      try lia.
    + simpl. fold E. lia.
    + apply Qle_refl.
    + intros H; contradiction.
  - apply binary_round_aux_le with (v := F2Q (Zpos m) e); try assumption;
      try lia.
    + simpl. fold E. lia.
    + apply Qle_refl.
    + intros H; contradiction.
  - assert (Hval : (F2Q (Zpos (Pos.iter xO m d)) E == F2Q (Zpos m) e)%Q).
    { rewrite Pos_iter_xO, <- F2Q_shift by lia.
      replace (E + Zpos d) with e by lia. reflexivity. }
    apply binary_round_aux_le with (v := F2Q (Zpos m) e); try assumption;
      try lia.
    + assert (Hdig : Zpos (digits2_pos m) + Zpos d
                     <= Zdigits2 (Zpos (Pos.iter xO m d))).
      { destruct (digits2_pos_bounds m) as [Hlo _].
        assert (H : 2 ^ (Zpos (digits2_pos m) - 1 + Zpos d)
                    <= Zpos (Pos.iter xO m d)).
        { rewrite Pos_iter_xO, Z.pow_add_r by lia.
          apply Z.mul_le_mono_nonneg_r; [|exact Hlo].
          apply Z.pow_nonneg; lia. }
        apply Zdigits2_ge in H; lia. }
      transitivity (fexp prec emax (Zpos (digits2_pos m) + e)).
      * fold E. lia.
      * apply fexp_mono. lia.
    + rewrite Hval. apply Qle_refl.
    + intros H; contradiction.
Qed.

Lemma rint_le (x : float) (K : Z) :
  below false (F2Q K 0) x -> 0 < K < 2 ^ 53 ->
  below false (F2Q K 0) (rint x).
Proof.
  intros Hx HK. destruct x as [s| | |s m e]; simpl in Hx; try contradiction.
  - exact I.
  - destruct Hx as [-> Hle]. unfold rint.
    destruct (0 <=? e) eqn:He; [simpl; auto|].
    apply Z.leb_gt in He.
    pose proof (shr_spec (Build_shr_record (Zpos m) false false) e (- e))
      as Hshr.
    simpl shr_m in Hshr. specialize (Hshr ltac:(lia)). cbv zeta in Hshr.
    replace (Z.max (- e) 0) with (- e) in Hshr by lia.
    destruct (shr (Build_shr_record (Zpos m) false false) e (- e))
      as [mrs e1].
    simpl in Hshr. destruct Hshr as (_ & Hm & Hi).
    assert (Hpow : 0 < 2 ^ (- e)) by (apply Z.pow_pos_nonneg; lia).
    assert (Hm0 : 0 <= shr_m mrs) by (rewrite Hm; apply Z.div_pos; lia).
    assert (Hmle : shr_m mrs * 2 ^ (- e) <= Zpos m).
    { rewrite Hm, Z.mul_comm. apply Z.mul_div_le. lia. }
    assert (Hsh : forall a, (F2Q a 0 == F2Q (a * 2 ^ (- e)) e)%Q).
    { intros a. rewrite <- F2Q_shift by lia.
      replace (e + - e) with 0 by lia. reflexivity. }
    assert (HleK : shr_m mrs <= K).
    { apply (F2Q_le_iff _ _ 0). rewrite (Hsh (shr_m mrs)).
      eapply Qle_trans; [|exact Hle]. apply F2Q_le_iff. exact Hmle. }
    assert (Hr : round_nearest_even (shr_m mrs) (loc_of_shr_record mrs) <= K).
    { destruct (round_nearest_even_cases (shr_m mrs) (loc_of_shr_record mrs))
        as [->|[-> Hinex]]; [assumption|].
      assert (Hin : inexact mrs = true).
      { destruct (inexact mrs) eqn:Hq; [reflexivity|].
        apply inexact_loc in Hq. contradiction. }
      destruct (Hi Hin) as [Hold|Hlost]; [discriminate Hold|].
      assert (shr_m mrs < K); [|lia].
      apply (F2Q_lt_iff _ _ 0). rewrite (Hsh (shr_m mrs)).
      eapply Qlt_le_trans; [|exact Hle]. apply F2Q_lt_iff. exact Hlost. }
    destruct (round_nearest_even (shr_m mrs) (loc_of_shr_record mrs))
      as [|k|k]; try exact I.
    apply binary_round_le; [|assumption|unfold emin, prec, emax; lia].
    apply F2Q_le_iff. exact Hr.
Qed.

(** ** The rate lies between 0 and 100 *)

Lemma below_within (x : float) :
  below false (F2Q 100 0) x -> within_0_100 x.
Proof.
  destruct x as [s| | |s m e]; simpl; try contradiction.
  - intros _. repeat split; simpl; discriminate.
  - intros [-> Hle]. repeat split; simpl.
    + apply F2Q_nonneg. lia.
    + rewrite F2Q_0 in Hle. exact Hle.
Qed.

Lemma fdiv_c100_le (x : float) :
  below false (F2Q 10000 0) x -> below false (F2Q 100 0) (fdiv x c100).
Proof.
  destruct x as [s| | |s m e]; simpl; try contradiction.
  - intros _. exact I.
  - intros [-> Hle]. unfold c100. fold m100.
    change false with (xorb false false) at 1.
    apply fdiv_le.
    + rewrite F2Q_c100. rewrite !F2Q_0 in *. exact Hle.
    + lia.
    + unfold emin, prec, emax. lia.
Qed.

Lemma pct_rate_within (num den : float) :
  valid_inputs num den -> within_0_100 (pct_rate num den).
Proof.
  intros (Hfn & Hfd & Hn0 & Hnd & Hd0).
  apply below_within. unfold pct_rate, round2.
  apply fdiv_c100_le.
  apply (rint_le _ 10000); [|lia].
  apply (fmul_c100_le _ 100); [|lia|lia].
  apply (fmul_c100_le _ 1); [|lia|lia].
  destruct den as [sd| | |sd md ed]; simpl in *; try discriminate;
    try (exfalso; apply (Qlt_irrefl 0); exact Hd0).
  destruct sd.
  { exfalso. pose proof (F2Q_pos (Zpos md) ed ltac:(lia)). lra. }
  destruct num as [sn| | |sn mn en]; simpl in *; try discriminate.
  - exact I.
  - destruct sn.
    { exfalso. pose proof (F2Q_pos (Zpos mn) en ltac:(lia)). lra. }
    change false with (xorb false false) at 1.
    apply fdiv_le.
    + rewrite F2Q_0. change (inject_Z 1) with 1%Q. lra.
    + lia.
    + unfold emin, prec, emax. lia.
Qed.

(** ** The claims about the rate columns *)

Lemma rate_column_pct (num den rate : float) :
  rate_column num den rate -> rate = pct_rate num den.
Proof. intros H. destruct H; reflexivity. Qed.

(** C1.  For a row with valid inputs (both columns are numbers,
    0 <= numerator <= denominator and denominator > 0), every rate column
    computed as [(numerator / denominator * 100).round(2)] is a number
    between 0 and 100 inclusive. *)
Theorem rate_columns_between_0_and_100 (num den rate : float) :
  rate_column num den rate ->
  valid_inputs num den ->
  within_0_100 rate.
Proof.
  intros Hcol Hvalid. rewrite (rate_column_pct _ _ _ Hcol).
  apply pct_rate_within. exact Hvalid.
Qed.

Lemma rate_columns_between_0_and_100_witness :
  within_0_100 (poverty_rate {| B17001_001E := of_Z 3; B17001_002E := of_Z 1 |}).
Proof.
  apply (rate_columns_between_0_and_100 (of_Z 1) (of_Z 3)).
  - exact (RC_poverty {| B17001_001E := of_Z 3; B17001_002E := of_Z 1 |}).
  - unfold valid_inputs. vm_compute. repeat split; discriminate.
Defined.

(** C2, as the code has it.  With a zero denominator no rate computation
    raises: the stored rate is NaN when the numerator is zero or NaN as
    well, and an infinity (with the sign of the quotient) for every other
    numerator. *)
Theorem zero_denominator_rate (num den rate : float) :
  rate_column num den rate ->
  is_zero den = true ->
  rate = if is_nan num || is_zero num then nan
         else S754_infinity (xorb (sign_of num) (sign_of den)).
Proof.
  intros Hcol Hden. rewrite (rate_column_pct _ _ _ Hcol).
  destruct den as [sd| | |sd md ed]; try discriminate Hden.
  destruct num as [sn|sn| |sn mn en]; simpl; try reflexivity;
    destruct sn, sd; reflexivity.
Qed.

Lemma zero_denominator_rate_witness :
  poverty_rate {| B17001_001E := of_Z 0; B17001_002E := of_Z 0 |} = nan.
Proof.
  apply (zero_denominator_rate (of_Z 0) (of_Z 0)).
  - exact (RC_poverty {| B17001_001E := of_Z 0; B17001_002E := of_Z 0 |}).
  - vm_compute. reflexivity.
Defined.

(** C2, as stated, fails: a row of [download_poverty_data.py] with 5 people
    below the poverty level in a universe of 0 gets the rate [+inf]. *)
Lemma zero_denominator_rate_not_nan :
  ~ (forall r : poverty_row,
       is_zero (B17001_001E r) = true -> is_nan (poverty_rate r) = true).
Proof.
  intros H.
  specialize (H {| B17001_001E := of_Z 0; B17001_002E := of_Z 5 |} eq_refl).
  vm_compute in H. discriminate H.
Qed.

Example zero_denominator_rate_is_infinite :
  poverty_rate {| B17001_001E := of_Z 0; B17001_002E := of_Z 5 |}
  = S754_infinity false.
Proof. vm_compute. reflexivity. Qed.

Example migration_rate_zero_total :
  migration_rate {| B07001_001E := of_Z 0; B07001_002E := of_Z 7;
                    B07001_005E := of_Z 0; B07001_006E := of_Z 0 |}
  = S754_infinity true.
Proof. vm_compute. reflexivity. Qed.

Example poverty_rate_one_third :
  poverty_rate {| B17001_001E := of_Z 3; B17001_002E := of_Z 1 |}
  = S754_finite false 4690780486883082 (-47).   (* 33.33 *)
Proof. vm_compute. reflexivity. Qed.

End Binary64.

(* ===================================================================== *)
(** * The weighted median of the IPUMS aggregation                        *)
(* ===================================================================== *)

Module WeightedMedian.

Import Binary64.
Local Open Scope Z_scope.

(** A pandas [Series]: the index labels with their values, in positional
    order.  Labels may repeat. *)
Definition Series (A : Type) : Type := list (Z * A).

Definition index {A : Type} (s : Series A) : list Z := List.map fst s.

(** The two exceptions the lookups of [weighted_median] can raise. *)
Inductive error :=
| KeyError (label : Z)
| IndexError.

Definition result (A : Type) : Type := (error + A)%type.

(** The entries of [s] that carry [label], in the order of [s]. *)
Definition entries {A : Type} (s : Series A) (label : Z) : Series A :=
  List.filter (fun e => fst e =? label) s.

(** [s.loc[labels]] with a list of labels: for each label in turn, every
    entry of [s] that carries it; a label that no entry carries is a
    [KeyError]. *)
Fixpoint loc_all {A : Type} (s : Series A) (labels : list Z)
  : result (Series A) :=
  match labels with
  | [] => inr []
  | l :: ls =>
      match entries s l with
      | [] => inl (KeyError l)
      | found =>
          match loc_all s ls with
          | inr rest => inr (found ++ rest)
          | inl e => inl e
          end
      end
  end.

(** What [s.loc[label]] gives for one label: the value, when one entry
    carries the label, and the [Series] of the entries when several do. *)
Inductive located (A : Type) :=
| One (x : A)
| Many (s : Series A).

Arguments One {A} x.
Arguments Many {A} s.

Definition loc {A : Type} (s : Series A) (label : Z) : result (located A) :=
  match entries s label with
  | [] => inl (KeyError label)
  | [(_, x)] => inr (One x)
  | found => inr (Many found)
  end.

(** [Series.cumsum()] of a float64 series: the running totals, added from
    left to right in binary64; a NaN is skipped (the total goes on without
    it) and stays NaN in the result. *)
Fixpoint running (acc : float) (s : Series float) : Series float :=
  match s with
  | [] => []
  | (l, w) :: s' =>
      if is_nan w then (l, nan) :: running acc s'
      else (l, fadd acc w) :: running (fadd acc w) s'
  end.

Definition cumsum (s : Series float) : Series float := running pos_zero s.

Definition two : float := Eval vm_compute in of_Z 2.

(** [a >= b] on float64: false when either is NaN. *)
Definition fge (a b : float) : bool := SFleb b a.

Definition value_le (a b : Z * Z) : Prop := snd a <= snd b.

Section Median.

(** [values.sort_values()]: pandas sorts with numpy's quicksort, which
    fixes no order among equal values; the median is proved for every
    sorting function. *)
Variable sort_values : Series Z -> Series Z.

(** [Series.sum()]: numpy adds the float64 values in blocks and pairs, in
    an order that depends on their number, so that the total need not be
    the last running total; the median is proved for every total. *)
Variable sum : Series float -> float.

Definition weighted_median (values : Series Z) (weights : Series float)
  : result (located Z) :=
  let sorted_indices := index (sort_values values) in
  match loc_all values sorted_indices with
  | inl e => inl e
  | inr sorted_values =>
      match loc_all weights sorted_indices with
      | inl e => inl e
      | inr sorted_weights =>
          let cum_weights := cumsum sorted_weights in
          let total_weight := sum sorted_weights in
          match List.filter (fun lc => fge (snd lc) (fdiv total_weight two))
                            cum_weights with
          | [] => inl IndexError
          | (median_index, _) :: _ => loc sorted_values median_index
          end
      end
  end.

End Median.

(** The weight of a label. *)
Definition weight_at (weights : Series float) (l : Z) : float :=
  match entries weights l with
  | (_, w) :: _ => w
  | [] => nan
  end.

(** The weights in the order of [sorted]. *)
Definition weights_of (weights : Series float) (sorted : Series Z)
  : Series float :=
  List.map (fun lx => (fst lx, weight_at weights (fst lx))) sorted.

(** Insertion sort by value, a sorting function to run the median with. *)
Fixpoint insert_by_value (a : Z * Z) (s : Series Z) : Series Z :=
  match s with
  | [] => [a]
  | b :: s' => if snd a <=? snd b then a :: b :: s'
               else b :: insert_by_value a s'
  end.

Fixpoint insertion_sort (s : Series Z) : Series Z :=
  match s with
  | [] => []
  | a :: s' => insert_by_value a (insertion_sort s')
  end.

(** The total as the plain loop adds it, which is what numpy does with
    fewer than eight values. *)
Definition sum_in_order (s : Series float) : float :=
  List.fold_left (fun acc lw => fadd acc (snd lw)) s pos_zero.

(** ** Lookups in a series with unique labels *)

Lemma entries_absent {A : Type} (s : Series A) (l : Z) :
  ~ In l (index s) -> entries s l = [].
Proof.
  induction s as [|[l' x] s IH]; simpl; intros Hnot; [reflexivity|].
  destruct (Z.eqb_spec l' l) as [->|Hne].
  - exfalso. apply Hnot. left. reflexivity.
  - apply IH. intros Hin. apply Hnot. right. exact Hin.
Qed.

Lemma entries_unique {A : Type} (s : Series A) (l : Z) (x : A) :
  NoDup (index s) -> In (l, x) s -> entries s l = [(l, x)].
Proof.
  induction s as [|[l' x'] s IH]; simpl; intros Hnd Hin; [contradiction|].
  inversion Hnd as [|? ? Hnotin Hnd']; subst.
  destruct Hin as [Heq|Hin].
  - inversion Heq; subst. rewrite Z.eqb_refl.
    rewrite (entries_absent s l Hnotin). reflexivity.
  - destruct (Z.eqb_spec l' l) as [->|Hne].
    + exfalso. apply Hnotin. unfold index.
      change l with (fst (l, x)). apply in_map. exact Hin.
    + apply IH; assumption.
Qed.

Lemma loc_all_self {A : Type} (s t : Series A) :
  (forall l x, In (l, x) t -> entries s l = [(l, x)]) ->
  loc_all s (index t) = inr t.
Proof.
  induction t as [|[l y] t IH]; simpl; intros H; [reflexivity|].
  rewrite (H l y) by (left; reflexivity).
  rewrite IH by (intros l' x' Hl'; apply H; right; exact Hl').
  reflexivity.
Qed.

Lemma loc_all_weights (weights : Series float) (t : Series Z) :
  (forall l, In l (index t) -> exists w, entries weights l = [(l, w)]) ->
  loc_all weights (index t) = inr (weights_of weights t).
Proof.
  induction t as [|[l y] t IH]; simpl; intros H; [reflexivity|].
  destruct (H l (or_introl eq_refl)) as [w Hw].
  unfold weight_at. rewrite Hw.
  rewrite IH by (intros l' Hl'; apply H; right; exact Hl').
  reflexivity.
Qed.

Lemma loc_unique {A : Type} (s : Series A) (l : Z) (x : A) :
  NoDup (index s) -> In (l, x) s -> loc s l = inr (One x).
Proof.
  intros Hnd Hin. unfold loc. rewrite (entries_unique s l x Hnd Hin).
  reflexivity.
Qed.

(** ** The running totals *)

Lemma running_index (acc : float) (s : Series float) :
  index (running acc s) = index s.
Proof.
  revert acc. induction s as [|[l w] s IH]; intros acc; simpl; [reflexivity|].
  destruct (is_nan w); simpl; rewrite IH; reflexivity.
Qed.

Lemma weights_of_index (weights : Series float) (t : Series Z) :
  index (weights_of weights t) = index t.
Proof.
  unfold weights_of, index. rewrite List.map_map. reflexivity.
Qed.

(** The first entry that satisfies a test, if there is one. *)
Lemma filter_first {A : Type} (p : A -> bool) (l : list A) :
  (List.filter p l = [] /\ Forall (fun x => p x = false) l) \/
  (exists pre x post,
     l = pre ++ x :: post /\ Forall (fun y => p y = false) pre /\
     p x = true /\ List.filter p l = x :: List.filter p post).
Proof.
  induction l as [|a l IH]; simpl.
  - left. split; [reflexivity | constructor].
  - destruct (p a) eqn:Ha.
    + right. exists [], a, l. repeat split; [constructor | exact Ha].
    + destruct IH as [[Hnil Hall]|(pre & x & post & -> & Hpre & Hx & Hf)].
      * left. split; [exact Hnil | constructor; assumption].
      * right. exists (a :: pre), x, post.
        repeat split; [constructor; assumption | exact Hx | exact Hf].
Qed.

(** Two series with the same labels split at the same place. *)
Lemma split_alike {A B : Type} (s : Series A) (pre : Series B) (l : Z)
      (c : B) (post : Series B) :
  index s = index (pre ++ (l, c) :: post) ->
  exists pre' x post',
    s = pre' ++ (l, x) :: post' /\ length pre' = length pre.
Proof.
  revert s. induction pre as [|[l0 c0] pre IH]; intros s Hidx.
  - destruct s as [|[l' x] s]; [discriminate|].
    simpl in Hidx. inversion Hidx; subst. exists [], x, s. split; reflexivity.
  - destruct s as [|[l' x] s]; [discriminate|].
    simpl in Hidx. inversion Hidx as [[Hl Hrest]].
    destruct (IH s Hrest) as (pre' & y & post' & Hs & Hlen).
    exists ((l0, x) :: pre'), y, post'. split; [rewrite Hs; reflexivity|].
    simpl. rewrite Hlen. reflexivity.
Qed.

(** ** Sorted series *)

Lemma sorted_split (pre post : Series Z) (a : Z * Z) :
  StronglySorted value_le (pre ++ a :: post) ->
  Forall (fun b => snd b <= snd a) pre /\ Forall (fun b => snd a <= snd b) post.
Proof.
  induction pre as [|b pre IH]; simpl; intros Hs.
  - inversion Hs as [|? ? _ Hall]; subst. split; [constructor | exact Hall].
  - inversion Hs as [|? ? Hs' Hall]; subst.
    destruct (IH Hs') as [Hpre Hpost]. split; [|exact Hpost].
    constructor; [|exact Hpre].
    rewrite Forall_forall in Hall. apply (Hall a).
    apply in_or_app. right. left. reflexivity.
Qed.

(** ** The weighted median *)

Section MedianSpec.

Variable sort_values : Series Z -> Series Z.
Hypothesis sort_values_perm :
  forall s, Permutation (sort_values s) s.
Hypothesis sort_values_sorted :
  forall s, StronglySorted value_le (sort_values s).

Variable sum : Series float -> float.

(** C8, as the code has it.  The values carry distinct labels and every
    label has one weight.  [weighted_median] puts the entries in ascending
    order of value, adds their weights from left to right in binary64 and
    returns the value of the first entry whose running total is at least
    half of the total that [Series.sum()] gives: the entries before it have
    no greater value and a running total below that half, the entries
    after it have no smaller value, and the value returned is a value of
    the series.  If no running total reaches the half, the call raises
    [IndexError]. *)
Theorem weighted_median_least (values : Series Z) (weights : Series float) :
  NoDup (index values) ->
  (forall l, In l (index values) -> exists w, entries weights l = [(l, w)]) ->
  let sorted := sort_values values in
  let cum_weights := cumsum (weights_of weights sorted) in
  let half := fdiv (sum (weights_of weights sorted)) two in
  (exists pre l v post cpre c cpost,
     sorted = pre ++ (l, v) :: post /\
     cum_weights = cpre ++ (l, c) :: cpost /\
     length cpre = length pre /\
     Forall (fun lc => fge (snd lc) half = false) cpre /\
     fge c half = true /\
     weighted_median sort_values sum values weights = inr (One v) /\
     In (l, v) values /\
     Forall (fun e => snd e <= v) pre /\
     Forall (fun e => v <= snd e) post) \/
  (Forall (fun lc => fge (snd lc) half = false) cum_weights /\
   weighted_median sort_values sum values weights = inl IndexError).
Proof.
  intros Hnd Hw sorted cum_weights half.
  assert (Hperm : Permutation sorted values) by apply sort_values_perm.
  assert (Hsorted : StronglySorted value_le sorted)
    by apply sort_values_sorted.
  assert (Hnds : NoDup (index sorted)).
  { apply (Permutation_NoDup (l := index values)); [|exact Hnd].
    symmetry. unfold index. apply Permutation_map. exact Hperm. }
  assert (Hvalues : loc_all values (index sorted) = inr sorted).
  { apply loc_all_self. intros l x Hin. apply entries_unique; [exact Hnd|].
    eapply Permutation_in; eassumption. }
  assert (Hweights : loc_all weights (index sorted)
                     = inr (weights_of weights sorted)).
  { apply loc_all_weights. intros l Hl. apply Hw.
    unfold index in *. eapply Permutation_in; [|exact Hl].
    apply Permutation_map. exact Hperm. }
  unfold weighted_median. fold sorted. rewrite Hvalues, Hweights.
  cbv zeta. fold cum_weights. fold half.
  destruct (filter_first (fun lc => fge (snd lc) half) cum_weights)
    as [[Hnone Hall]|(cpre & [l c] & cpost & Hsplit & Hbefore & Hc & Hfilter)].
  - right. rewrite Hnone. split; [exact Hall | reflexivity].
  - left. rewrite Hfilter.
    assert (Hidx : index sorted = index (cpre ++ (l, c) :: cpost)).
    { rewrite <- Hsplit. unfold cum_weights, cumsum.
      rewrite running_index, weights_of_index. reflexivity. }
    destruct (split_alike sorted cpre l c cpost Hidx)
      as (pre & v & post & Hs & Hlen).
    assert (Hin : In (l, v) sorted).
    { rewrite Hs. apply in_or_app. right. left. reflexivity. }
    pose proof Hsorted as Hsorted'. rewrite Hs in Hsorted'.
    destruct (sorted_split _ _ _ Hsorted') as [Hle Hge].
    exists pre, l, v, post, cpre, c, cpost.
    repeat split; try assumption.
    + symmetry. exact Hlen.
    + apply loc_unique; assumption.
    + eapply Permutation_in; eassumption.
Qed.

End MedianSpec.

(** ** Insertion sort is a sorting function *)

Lemma insert_by_value_perm (a : Z * Z) (s : Series Z) :
  Permutation (insert_by_value a s) (a :: s).
Proof.
  induction s as [|b s IH]; simpl; [reflexivity|].
  destruct (snd a <=? snd b); [reflexivity|].
  rewrite IH. apply perm_swap.
Qed.

Lemma insertion_sort_perm (s : Series Z) : Permutation (insertion_sort s) s.
Proof.
  induction s as [|a s IH]; simpl; [reflexivity|].
  rewrite insert_by_value_perm. constructor. exact IH.
Qed.

Lemma insert_by_value_sorted (a : Z * Z) (s : Series Z) :
  StronglySorted value_le s -> StronglySorted value_le (insert_by_value a s).
Proof.
  induction 1 as [|b s Hs IH Hall]; simpl.
  - constructor; constructor.
  - destruct (Z.leb_spec (snd a) (snd b)) as [Hle|Hgt].
    + constructor; [constructor; assumption|].
      constructor; [exact Hle|].
      eapply Forall_impl; [|exact Hall].
      intros c Hc. unfold value_le in *. lia.
    + constructor; [exact IH|].
      eapply Permutation_Forall.
      * symmetry. apply insert_by_value_perm.
      * constructor; [unfold value_le; lia | exact Hall].
Qed.

Lemma insertion_sort_sorted (s : Series Z) :
  StronglySorted value_le (insertion_sort s).
Proof.
  induction s as [|a s IH]; simpl; [constructor|].
  apply insert_by_value_sorted. exact IH.
Qed.

(** ** Sample series *)

(** Three renters with rents 900, 500 and 700 and household weights
    1, 2 and 1: half of the total weight 4 is reached at rent 500. *)
Definition sample_rent : Series Z := [(7, 900); (3, 500); (5, 700)].
Definition sample_hhwt : Series float :=
  [(7, of_Z 1); (3, of_Z 2); (5, of_Z 1)].

Example weighted_median_sample :
  weighted_median insertion_sort sum_in_order sample_rent sample_hhwt
  = inr (One 500).
Proof. vm_compute. reflexivity. Qed.

Lemma weighted_median_least_witness :
  let sorted := insertion_sort sample_rent in
  let cum_weights := cumsum (weights_of sample_hhwt sorted) in
  let half := fdiv (sum_in_order (weights_of sample_hhwt sorted)) two in
  (exists pre l v post cpre c cpost,
     sorted = pre ++ (l, v) :: post /\
     cum_weights = cpre ++ (l, c) :: cpost /\
     length cpre = length pre /\
     Forall (fun lc => fge (snd lc) half = false) cpre /\
     fge c half = true /\
     weighted_median insertion_sort sum_in_order sample_rent sample_hhwt
     = inr (One v) /\
     In (l, v) sample_rent /\
     Forall (fun e => snd e <= v) pre /\
     Forall (fun e => v <= snd e) post) \/
  (Forall (fun lc => fge (snd lc) half = false) cum_weights /\
   weighted_median insertion_sort sum_in_order sample_rent sample_hhwt
   = inl IndexError).
Proof.
  apply (weighted_median_least insertion_sort insertion_sort_perm
           insertion_sort_sorted sum_in_order sample_rent sample_hhwt).
  - repeat constructor; simpl; lia.
  - intros l Hl. simpl in Hl.
    destruct Hl as [<-|[<-|[<-|[]]]]; eexists; reflexivity.
Defined.

(** ** The claim read with exact sums *)

(** The weight of the entries up to a value and the total weight, added as
    real numbers. *)
Definition weight_up_to (values : Series Z) (weights : Series float) (u : Z)
  : Q :=
  List.fold_right Qplus 0%Q
    (List.map (fun lx => if snd lx <=? u
                         then SF2Q (weight_at weights (fst lx)) else 0%Q)
              values).

Definition total_weight (values : Series Z) (weights : Series float) : Q :=
  List.fold_right Qplus 0%Q
    (List.map (fun lx => SF2Q (weight_at weights (fst lx))) values).

(** "The smallest value whose cumulative weight is at least half the total
    weight". *)
Definition least_at_half (values : Series Z) (weights : Series float)
           (v : Z) : Prop :=
  In v (List.map snd values) /\
  (total_weight values weights / 2 <= weight_up_to values weights v)%Q /\
  (forall u, u < v ->
     (weight_up_to values weights u < total_weight values weights / 2)%Q).

(** Three persons of age 1, 2 and 3 with the weights 1.82, 0.79 and 1.03,
    as binary64 has them. *)
Definition sample_age : Series Z := [(0, 1); (1, 2); (2, 3)].
Definition sample_perwt : Series float :=
  [(0, S754_finite false 8196551321814303 (-52));
   (1, S754_finite false 7115687411245384 (-53));
   (2, S754_finite false 4638707616191611 (-52))].

(** C8, as stated, fails.  The first weight is exactly half of the sum of
    the three, so that age 1 is the smallest value whose cumulative weight
    is at least half the total; but binary64 rounds the total up, the first
    running total stays below half of it, and the code returns age 2. *)
Lemma rounding_moves_the_median :
  least_at_half sample_age sample_perwt 1 /\
  weighted_median insertion_sort sum_in_order sample_age sample_perwt
  = inr (One 2).
Proof.
  split; [|vm_compute; reflexivity].
  split; [simpl; tauto|]. split.
  - vm_compute. discriminate.
  - intros u Hu.
    assert (E : weight_up_to sample_age sample_perwt u = (0 + (0 + (0 + 0)))%Q).
    { unfold weight_up_to, sample_age. cbn [List.map List.fold_right fst snd].
      replace (1 <=? u) with false by (symmetry; apply Z.leb_gt; lia).
      replace (2 <=? u) with false by (symmetry; apply Z.leb_gt; lia).
      replace (3 <=? u) with false by (symmetry; apply Z.leb_gt; lia).
      reflexivity. }
    rewrite E. vm_compute. reflexivity.
Qed.

(** Two entries under one label.  [values.loc[sorted_indices]] then takes
    each of them twice, and [sorted_values.loc[median_index]] is a series
    of four entries, not a value. *)
Definition twin_rent : Series Z := [(0, 500); (0, 700)].
Definition twin_hhwt : Series float := [(0, of_Z 1); (0, of_Z 1)].

Example repeated_labels_give_a_series :
  weighted_median insertion_sort sum_in_order twin_rent twin_hhwt
  = inr (Many [(0, 500); (0, 700); (0, 500); (0, 700)]).
Proof. vm_compute. reflexivity. Qed.

End WeightedMedian.

(* ===================================================================== *)
(** * Python values, exceptions and the data frame                        *)
(* ===================================================================== *)

Module Frame.

Import Binary64.
Local Open Scope Z_scope.

(** A cell of a JSON matrix or of a data frame: [None] / NaN-as-missing,
    a string, an integer or a double. *)
Inductive scalar :=
| SNull
| SStr (s : string)
| SInt (z : Z)
| SFloat (f : float).

(** The exceptions the scripts can meet.  All of them derive from
    [Exception]; [HTTPError] is the one [raise_for_status] raises, and the
    last three are the [OSError]s of the file system. *)
Inductive exn :=
| HTTPError (status_code : Z)
| RequestException
| JSONDecodeError
| IndexError
| KeyError (key : scalar)
| ValueError
| TypeError
| FileNotFoundError (path : string)
| FileExistsError (path : string)
| OSError (strerror : string).

(** A pure computation that may raise. *)
Definition result (A : Type) : Type := (exn + A)%type.

#[global] Instance result_ret : MRet result := fun A x => inr x.

#[global] Instance result_bind : MBind result := fun A B f m =>
  match m with
  | inr a => f a
  | inl e => inl e
  end.

#[global] Instance float_eq_dec : EqDecision float.
Proof. solve_decision. Defined.

#[global] Instance scalar_eq_dec : EqDecision scalar.
Proof. solve_decision. Defined.

Definition scalar_eqb (a b : scalar) : bool := bool_decide (a = b).

(** A data frame with a default [RangeIndex]: the column labels and the
    rows, each row holding one cell per column. *)
Record DataFrame := mkFrame {
  columns : list scalar;
  rows : list (list scalar)
}.

Definition width (data : list (list scalar)) : nat :=
  List.fold_right (fun r n => Nat.max (length r) n) 0%nat data.

Definition pad (n : nat) (row : list scalar) : list scalar :=
  row ++ List.repeat SNull (n - length row).

(** [pd.DataFrame(rows, columns=headers)] for a list of lists: short rows
    are filled with [None]; a width that differs from the number of
    headers is a [ValueError]. *)
Definition new_frame (data : list (list scalar)) (headers : list scalar)
  : result DataFrame :=
  match data with
  | [] => inr (mkFrame headers [])
  | _ :: _ =>
      if Nat.eqb (width data) (length headers)
      then inr (mkFrame headers (List.map (pad (width data)) data))
      else inl ValueError
  end.

Definition map2 {A B C : Type} (f : A -> B -> C) (l1 : list A) (l2 : list B)
  : list C :=
  List.map (fun ab => f (fst ab) (snd ab)) (List.combine l1 l2).

Definition has_column (df : DataFrame) (label : scalar) : bool :=
  List.existsb (scalar_eqb label) (columns df).

(** [df[label] = values]: every column carrying the label is overwritten;
    a new label is appended as the last column. *)
Definition setitem (df : DataFrame) (label : scalar) (values : list scalar)
  : DataFrame :=
  if has_column df label
  then mkFrame (columns df)
         (map2 (fun row v =>
                  map2 (fun c x => if scalar_eqb c label then v else x)
                       (columns df) row)
               (rows df) values)
  else mkFrame (columns df ++ [label])
         (map2 (fun row v => row ++ [v]) (rows df) values).

(** [df[label] = value] with a scalar, broadcast to every row. *)
Definition setitem_scalar (df : DataFrame) (label v : scalar) : DataFrame :=
  setitem df label (List.repeat v (length (rows df))).

Fixpoint positions (label : scalar) (cols : list scalar) (i : nat)
  : list nat :=
  match cols with
  | [] => []
  | c :: cs => if scalar_eqb c label then i :: positions label cs (S i)
               else positions label cs (S i)
  end.

(** [df[label]] used as a [Series]: a missing label is a [KeyError]; a
    label carried by several columns selects a frame, which the callers
    ([pd.to_numeric], the arithmetic) reject. *)
Definition getitem (df : DataFrame) (label : scalar) : result (list scalar) :=
  match positions label (columns df) 0 with
  | [] => inl (KeyError label)
  | [i] => inr (List.map (fun row => List.nth i row SNull) (rows df))
  | _ => inl TypeError
  end.

Fixpoint assoc (c : scalar) (mapping : list (string * string))
  : option string :=
  match mapping with
  | [] => None
  | (k, v) :: m => if scalar_eqb c (SStr k) then Some v else assoc c m
  end.

(** [df.rename(columns=mapping)] *)
Definition rename (df : DataFrame) (mapping : list (string * string))
  : DataFrame :=
  mkFrame (List.map (fun c => match assoc c mapping with
                              | Some c' => SStr c'
                              | None => c
                              end) (columns df))
          (rows df).

(** [pd.to_numeric(series, errors='coerce')], given Python's reading of a
    string as a number: what cannot be read becomes NaN. *)
Definition to_numeric (float_of_string : string -> option float)
           (series : list scalar) : list scalar :=
  List.map (fun x => SFloat
              match x with
              | SFloat f => f
              | SInt z => of_Z z
              | SStr s => match float_of_string s with
                          | Some f => f
                          | None => nan
                          end
              | SNull => nan
              end) series.

Definition as_float (x : scalar) : float :=
  match x with
  | SFloat f => f
  | SInt z => of_Z z
  | _ => nan
  end.

(** Element-wise arithmetic of two aligned numeric series. *)
Definition series_add (a b : list scalar) : list scalar :=
  map2 (fun x y => SFloat (fadd (as_float x) (as_float y))) a b.

Definition series_sub (a b : list scalar) : list scalar :=
  map2 (fun x y => SFloat (fsub (as_float x) (as_float y))) a b.

(** [(num / den * 100).round(2)] *)
Definition series_pct_rate (num den : list scalar) : list scalar :=
  map2 (fun x y => SFloat (pct_rate (as_float x) (as_float y))) num den.

(** [data[0]] *)
Definition item0 {A : Type} (data : list A) : result A :=
  match data with
  | x :: _ => inr x
  | [] => inl IndexError
  end.

(** The cell of a row under the first column that carries a label. *)
Definition cell (df : DataFrame) (label : scalar) (row : list scalar)
  : option scalar :=
  match positions label (columns df) 0 with
  | i :: _ => List.nth_error row i
  | [] => None
  end.

End Frame.

(* ===================================================================== *)
(** * The effects of a script                                             *)
(* ===================================================================== *)

Module Py.

Import Frame.
Local Open Scope string_scope.

(** What an HTML chart is made of. *)
Record figure := mkFigure {
  fig_title : string;
  fig_data : DataFrame
}.

Inductive file :=
| CsvFile (df : DataFrame)
| HtmlFile (fig : figure).

(** The part of the outside world a script touches: the files, what was
    printed, and the URLs requested so far (oldest first). *)
Record world := mkWorld {
  files : gmap string file;
  stdout : list string;
  requests : list string
}.

(** A computation either returns a value or raises, and changes the world. *)
Definition M (A : Type) : Type := world -> (exn + A) * world.

#[global] Instance M_ret : MRet M := fun A x w => (inr x, w).

#[global] Instance M_bind : MBind M := fun A B f m w =>
  match m w with
  | (inr a, w') => f a w'
  | (inl e, w') => (inl e, w')
  end.

Definition raise {A : Type} (e : exn) : M A := fun w => (inl e, w).

Definition lift {A : Type} (r : result A) : M A := fun w => (r, w).

(** [try: body except Exception as e: handler e] *)
Definition try_except {A : Type} (body : M A) (handler : exn -> M A) : M A :=
  fun w =>
    match body w with
    | (inr a, w') => (inr a, w')
    | (inl e, w') => handler e w'
    end.

Definition print (line : string) : M unit := fun w =>
  (inr tt, mkWorld (files w) (stdout w ++ [line])%list (requests w)).

Definition sleep (seconds : Z) : M unit := mret tt.

Definition exists_file (path : string) : M bool := fun w =>
  (inr (bool_decide (is_Some (files w !! path))), w).

Definition write_file (path : string) (f : file) : M unit := fun w =>
  (inr tt, mkWorld (<[path := f]> (files w)) (stdout w) (requests w)).

(** ** The file system under the download scripts *)

(** What becomes of [df.to_csv(path, index=False)]: the file is written, or
    the call raises.  A call that raises leaves the path as it was when the
    file could not be opened, and otherwise with what had been written
    until then. *)
Inductive written :=
| Written
| NotWritten (e : exn) (left : option file).

(** The answers of the file system: to [os.makedirs(path, exist_ok=True)],
    which raises when the directory cannot be made (a regular file of that
    name, a missing permission), and to [df.to_csv(path, index=False)]. *)
Record disk := mkDisk {
  makedirs_answer : string -> result unit;
  to_csv_answer : string -> DataFrame -> written
}.

(** [os.makedirs(path, exist_ok=True)] *)
Definition makedirs (os : disk) (path : string) : M unit :=
  lift (makedirs_answer os path).

(** The files once [df.to_csv(path, index=False)] has returned or raised.
    [CsvFile df] is the file whose text is the one pandas writes for
    [df]. *)
Definition after_to_csv (os : disk) (path : string) (df : DataFrame)
           (fs : gmap string file) : gmap string file :=
  match to_csv_answer os path df with
  | Written => <[path := CsvFile df]> fs
  | NotWritten _ (Some f) => <[path := f]> fs
  | NotWritten _ None => fs
  end.

(** [df.to_csv(path, index=False)] *)
Definition to_csv (os : disk) (df : DataFrame) (path : string) : M unit :=
  fun w =>
    (match to_csv_answer os path df with
     | Written => inr tt
     | NotWritten e _ => inl e
     end,
     mkWorld (after_to_csv os path df (files w)) (stdout w) (requests w)).

(** [for x in xs: body x] *)
Fixpoint for_each {A : Type} (xs : list A) (body : A -> M unit) : M unit :=
  match xs with
  | [] => mret tt
  | x :: xs' => body x ;; for_each xs' body
  end.

Arguments for_each : simpl never.

Lemma for_each_nil {A : Type} (body : A -> M unit) :
  for_each [] body = mret tt.
Proof. reflexivity. Qed.

Lemma for_each_cons {A : Type} (x : A) (xs : list A) (body : A -> M unit) :
  for_each (x :: xs) body = (body x ;; for_each xs body).
Proof. reflexivity. Qed.

(** [range(a, b)] *)
Definition range (a b : Z) : list Z :=
  List.map (fun i => (a + Z.of_nat i)%Z) (List.seq 0 (Z.to_nat (b - a))).

(** ** HTTP *)

(** What [response.json()] returns: a matrix, that is a list of lists of
    strings, numbers and nulls, as the Census API sends it, or any other
    JSON value, given by its text. *)
Inductive json_value :=
| JMatrix (data : list (list scalar))
| JOther (text : string).

(** The answer of the server to one URL: none at all, or a status code and
    a body, which is a JSON value or is none. *)
Inductive response :=
| Unreachable
| Response (status_code : Z) (body : option json_value).

Section Http.

Variable net : string -> response.

(** [requests.get(url)] *)
Definition requests_get (url : string) : M response := fun w =>
  let w' := mkWorld (files w) (stdout w) (requests w ++ [url])%list in
  match net url with
  | Unreachable => (inl RequestException, w')
  | r => (inr r, w')
  end.

End Http.

(** [response.raise_for_status()] *)
Definition raise_for_status (r : response) : M unit :=
  match r with
  | Response code _ =>
      if ((400 <=? code) && (code <? 600))%Z then raise (HTTPError code)
      else mret tt
  | Unreachable => mret tt
  end.

(** [response.json()] *)
Definition json (r : response) : M json_value :=
  match r with
  | Response _ (Some data) => mret data
  | _ => raise JSONDecodeError
  end.


(** The text of an exception inside an f-string. *)
Definition str_exn (e : exn) : string :=
  match e with
  | HTTPError code => pretty code ++ " Error"
  | RequestException => "RequestException"
  | JSONDecodeError => "Expecting value"
  | IndexError => "list index out of range"
  | KeyError _ => "KeyError"
  | ValueError => "ValueError"
  | TypeError => "TypeError"
  | FileNotFoundError p => "No such file or directory: '" ++ p ++ "'"
  | FileExistsError p => "File exists: '" ++ p ++ "'"
  | OSError strerror => strerror
  end.

End Py.

(* ===================================================================== *)
(** * The Census download scripts                                         *)
(* ===================================================================== *)

Module Download.

Import Binary64 Frame Py.
Local Open Scope Z_scope.
Local Open Scope string_scope.

Definition nl : string := String (Ascii.ascii_of_nat 10) EmptyString.

(** [range(2010, 2024)], the years of every Census script. *)
Definition years : list Z := range 2010 2024.

Arguments years : simpl never.

(** The URL of the ACS 5-year estimates of [year] for the given variables
    and geography ([state:*] or [county:*]). *)
Definition acs5_url (year : Z) (variables geography : string) : string :=
  "https://api.census.gov/data/" ++ pretty year ++ "/acs/acs5?get=NAME,"
  ++ variables ++ "&for=" ++ geography.

(** The lines every script repeats after [data = response.json()]:
    [headers = data[0]], [rows = data[1:]],
    [df = pd.DataFrame(rows, columns=headers)] and [df['year'] = year]. *)
Definition parse_table (year : Z) (data : list (list scalar))
  : result DataFrame :=
  headers ← item0 data;
  let rows := List.tl data in
  df ← new_frame rows headers;
  mret (setitem_scalar df (SStr "year") (SInt year)).

Section Scripts.

(** The server and the file system. *)
Variable net : string -> response.
Variable os : disk.

(** What the lines between [data = response.json()] and [df.to_csv] make of
    the answer to a URL when it is a JSON value other than a matrix:
    [data[0]], [data[1:]] and [pd.DataFrame] decide whether they raise or
    build a table. *)
Variable irregular : string -> string -> result DataFrame.

(** Python's reading of a string as a number. *)
Variable float_of_string : string -> option float.

(** The lines between [data = response.json()] and [df.to_csv]: [table] is
    what they do with a matrix. *)
Definition process (url : string)
           (table : list (list scalar) -> result DataFrame)
           (data : json_value) : result DataFrame :=
  match data with
  | JMatrix matrix => table matrix
  | JOther text => irregular url text
  end.

(** [df[col] = pd.to_numeric(df[col], errors='coerce')] *)
Definition numeric_column (df : DataFrame) (col : scalar)
  : result DataFrame :=
  series ← getitem df col;
  mret (setitem df col (to_numeric float_of_string series)).

(** [for col in headers: if col not in ['NAME', 'state']: ...] *)
Fixpoint numeric_columns (headers : list scalar) (df : DataFrame)
  : result DataFrame :=
  match headers with
  | [] => mret df
  | col :: rest =>
      if scalar_eqb col (SStr "NAME") || scalar_eqb col (SStr "state")
      then numeric_columns rest df
      else df' ← numeric_column df col; numeric_columns rest df'
  end.

(** [df[new] = df[old]] *)
Definition copy_column (df : DataFrame) (new old : string)
  : result DataFrame :=
  series ← getitem df (SStr old);
  mret (setitem df (SStr new) series).

(** [df[rate] = (df[num] / df[den] * 100).round(2)] *)
Definition rate_column (df : DataFrame) (rate num den : string)
  : result DataFrame :=
  n ← getitem df (SStr num);
  d ← getitem df (SStr den);
  mret (setitem df (SStr rate) (series_pct_rate n d)).

(** ** [download_census_data.py] *)

Definition census_table (year : Z) (data : list (list scalar))
  : result DataFrame :=
  parse_table year data.

Definition census_url (year : Z) : string :=
  acs5_url year "B03001_005E" "state:*".

Definition census_dir : string := "data/census_acs5".

Definition census_file (year : Z) : string :=
  census_dir ++ "/acs5_puerto_rican_pop_" ++ pretty year ++ ".csv".

Definition download_census_data : M unit :=
  makedirs os census_dir;;
  for_each years (fun year =>
    print ("Fetching data for " ++ pretty year ++ "...");;
    let url := census_url year in
    try_except
      (response ← requests_get net url;
       raise_for_status response;;
       data ← json response;
       df ← lift (process url (census_table year) data);
       let output_file := census_file year in
       to_csv os df output_file;;
       print ("Saved " ++ output_file))
      (fun e =>
         match e with
         | HTTPError _ =>
             print ("HTTP Error for " ++ pretty year ++ ": " ++ str_exn e);;
             if (year =? 2020)%Z
             then print "Note: 2020 data might have different handling or availability issues due to COVID-19, though ACS5 should be fine."
             else mret tt
         | _ => print ("Error for " ++ pretty year ++ ": " ++ str_exn e)
         end);;
    sleep 1).

(** ** [download_poverty_data.py] *)

Definition poverty_table (year : Z) (data : list (list scalar))
  : result DataFrame :=
  df ← parse_table year data;
  df ← numeric_column df (SStr "B17001_001E");
  df ← numeric_column df (SStr "B17001_002E");
  df ← rate_column df "poverty_rate" "B17001_002E" "B17001_001E";
  mret (rename df [("B17001_001E", "total_population");
                   ("B17001_002E", "below_poverty_level")]).

Definition poverty_url (year : Z) : string :=
  acs5_url year "B17001_001E,B17001_002E" "state:*".

Definition poverty_dir : string := "data/census_acs5_poverty".

Definition poverty_file (year : Z) : string :=
  poverty_dir ++ "/acs5_poverty_" ++ pretty year ++ ".csv".

Definition download_poverty_data : M unit :=
  makedirs os poverty_dir;;
  for_each years (fun year =>
    print ("Fetching poverty data for " ++ pretty year ++ "...");;
    let url := poverty_url year in
    try_except
      (response ← requests_get net url;
       raise_for_status response;;
       data ← json response;
       df ← lift (process url (poverty_table year) data);
       let output_file := poverty_file year in
       to_csv os df output_file;;
       print ("Saved " ++ output_file))
      (fun e =>
         match e with
         | HTTPError _ =>
             print ("HTTP Error for " ++ pretty year ++ ": " ++ str_exn e)
         | _ => print ("Error for " ++ pretty year ++ ": " ++ str_exn e)
         end);;
    sleep 1).

(** ** [download_housing_data.py] *)

Definition housing_table (year : Z) (data : list (list scalar))
  : result DataFrame :=
  df ← parse_table year data;
  df ← numeric_column df (SStr "B25064_001E");
  df ← numeric_column df (SStr "B25077_001E");
  mret (rename df [("B25064_001E", "median_gross_rent");
                   ("B25077_001E", "median_home_value")]).

Definition housing_url (year : Z) : string :=
  acs5_url year "B25064_001E,B25077_001E" "state:*".

Definition housing_dir : string := "data/census_acs5_housing".

Definition housing_file (year : Z) : string :=
  housing_dir ++ "/acs5_housing_" ++ pretty year ++ ".csv".

Definition download_housing_data : M unit :=
  makedirs os housing_dir;;
  for_each years (fun year =>
    print ("Fetching housing data for " ++ pretty year ++ "...");;
    let url := housing_url year in
    try_except
      (response ← requests_get net url;
       raise_for_status response;;
       data ← json response;
       df ← lift (process url (housing_table year) data);
       let output_file := housing_file year in
       to_csv os df output_file;;
       print ("Saved " ++ output_file))
      (fun e =>
         match e with
         | HTTPError _ =>
             print ("HTTP Error for " ++ pretty year ++ ": " ++ str_exn e)
         | _ => print ("Error for " ++ pretty year ++ ": " ++ str_exn e)
         end);;
    sleep 1).

(** ** [download_year_of_arrival_data.py] *)

Definition arrival_table (year : Z) (data : list (list scalar))
  : result DataFrame :=
  df ← parse_table year data;
  df ← numeric_column df (SStr "B07001_001E");
  df ← numeric_column df (SStr "B07001_002E");
  df ← numeric_column df (SStr "B07001_003E");
  df ← numeric_column df (SStr "B07001_004E");
  df ← numeric_column df (SStr "B07001_005E");
  df ← numeric_column df (SStr "B07001_006E");
  total ← getitem df (SStr "B07001_001E");
  same_house ← getitem df (SStr "B07001_002E");
  let df := setitem df (SStr "moved_total") (series_sub total same_house) in
  df ← rate_column df "migration_rate" "moved_total" "B07001_001E";
  df ← rate_column df "moved_from_different_state_rate"
                   "B07001_005E" "B07001_001E";
  df ← rate_column df "moved_from_abroad_rate" "B07001_006E" "B07001_001E";
  mret (rename df [("B07001_001E", "total_population");
                   ("B07001_002E", "same_house_1yr_ago");
                   ("B07001_003E", "moved_same_county");
                   ("B07001_004E", "moved_different_county_same_state");
                   ("B07001_005E", "moved_different_state");
                   ("B07001_006E", "moved_from_abroad")]).

Definition arrival_url (year : Z) : string :=
  acs5_url year
    "B07001_001E,B07001_002E,B07001_003E,B07001_004E,B07001_005E,B07001_006E"
    "state:*".

Definition arrival_dir : string := "data/census_acs5_migration".

Definition arrival_file (year : Z) : string :=
  arrival_dir ++ "/acs5_migration_" ++ pretty year ++ ".csv".

Definition download_year_of_arrival_data : M unit :=
  makedirs os arrival_dir;;
  for_each years (fun year =>
    print ("Fetching migration/mobility data for " ++ pretty year ++ "...");;
    let url := arrival_url year in
    try_except
      (response ← requests_get net url;
       raise_for_status response;;
       data ← json response;
       df ← lift (process url (arrival_table year) data);
       let output_file := arrival_file year in
       to_csv os df output_file;;
       print ("Saved " ++ output_file))
      (fun e =>
         match e with
         | HTTPError _ =>
             print ("HTTP Error for " ++ pretty year ++ ": " ++ str_exn e)
         | _ => print ("Error for " ++ pretty year ++ ": " ++ str_exn e)
         end);;
    sleep 1);;
  print (nl ++ "Note: For detailed year-of-arrival cohort analysis for Puerto Ricans,");;
  print "consider using IPUMS microdata which has MIGRATE variables that can";;
  print "track when Puerto Rican-born individuals moved to the mainland.".

(** ** [download_county_data.py] *)

Definition county_table (year : Z) (data : list (list scalar))
  : result DataFrame :=
  parse_table year data.

Definition county_url (year : Z) : string :=
  acs5_url year "B03001_005E" "county:*".

Definition county_dir : string := "data/census_acs5_county".

Definition county_file (year : Z) : string :=
  county_dir ++ "/acs5_puerto_rican_pop_county_"
  ++ pretty year ++ ".csv".

Definition download_county_data : M unit :=
  makedirs os county_dir;;
  for_each years (fun year =>
    let output_file := county_file year in
    exists_file output_file ≫= fun skip : bool =>
    if skip
    then print ("Data for " ++ pretty year ++ " already exists. Skipping download.")
    else
      print ("Fetching county level data for " ++ pretty year ++ "...");;
      let url := county_url year in
      try_except
        (response ← requests_get net url;
         raise_for_status response;;
         data ← json response;
         df ← lift (process url (county_table year) data);
         to_csv os df output_file;;
         print ("Saved " ++ output_file))
        (fun e => print ("Error for " ++ pretty year ++ ": " ++ str_exn e));;
      sleep 1).

(** The handler of the scripts that mention a missing table. *)
Definition report_http_error (year : Z) (e : exn) : M unit :=
  match e with
  | HTTPError status_code =>
      print ("HTTP Error for " ++ pretty year ++ ": " ++ str_exn e);;
      if (status_code =? 404)%Z
      then print ("  Note: This table may not be available for " ++ pretty year)
      else mret tt
  | _ => print ("Error for " ++ pretty year ++ ": " ++ str_exn e)
  end.

(** ** [download_commuting_data.py] *)

Definition commuting_table (year : Z) (data : list (list scalar))
  : result DataFrame :=
  headers ← item0 data;
  df ← parse_table year data;
  df ← numeric_columns headers df;
  df ← copy_column df "drove_alone" "B08301I_003E";
  df ← copy_column df "carpooled" "B08301I_004E";
  df ← copy_column df "public_transit" "B08301I_010E";
  df ← copy_column df "walked" "B08301I_016E";
  df ← copy_column df "other_means" "B08301I_017E";
  df ← copy_column df "worked_from_home" "B08301I_018E";
  df ← rate_column df "drove_alone_rate" "drove_alone" "B08301I_001E";
  df ← rate_column df "carpooled_rate" "carpooled" "B08301I_001E";
  df ← rate_column df "public_transit_rate" "public_transit" "B08301I_001E";
  df ← rate_column df "walked_rate" "walked" "B08301I_001E";
  df ← rate_column df "worked_from_home_rate" "worked_from_home"
                   "B08301I_001E";
  mret (rename df [("B08301I_001E", "total_workers_16plus")]).

Definition commuting_url (year : Z) : string :=
  acs5_url year
    "B08301I_001E,B08301I_003E,B08301I_004E,B08301I_010E,B08301I_016E,B08301I_017E,B08301I_018E"
    "state:*".

Definition commuting_dir : string := "data/census_acs5_commuting".

Definition commuting_file (year : Z) : string :=
  commuting_dir ++ "/acs5_commuting_" ++ pretty year ++ ".csv".

Definition hispanic_note : M unit :=
  print "Note: This is for ALL Hispanic/Latino populations, not Puerto Rican-specific.";;
  print "For Puerto Rican-specific data, use IPUMS microdata (download_ipums_pr_specific_data.py)".

Definition download_commuting_data : M unit :=
  makedirs os commuting_dir;;
  for_each years (fun year =>
    let output_file := commuting_file year in
    exists_file output_file ≫= fun skip : bool =>
    if skip
    then print ("Data for " ++ pretty year ++ " already exists. Skipping.")
    else
      print ("Fetching commuting data for " ++ pretty year ++ "...");;
      let url := commuting_url year in
      try_except
        (response ← requests_get net url;
         raise_for_status response;;
         data ← json response;
         df ← lift (process url (commuting_table year) data);
         to_csv os df output_file;;
         print ("Saved " ++ output_file))
        (report_http_error year);;
      sleep 1);;
  print (nl ++ "Download complete! Data saved to: data/census_acs5_commuting");;
  hispanic_note.

(** ** [download_language_data.py] *)

Definition language_table (year : Z) (data : list (list scalar))
  : result DataFrame :=
  headers ← item0 data;
  df ← parse_table year data;
  df ← numeric_columns headers df;
  c3 ← getitem df (SStr "B16001I_003E");
  c4 ← getitem df (SStr "B16001I_004E");
  c5 ← getitem df (SStr "B16001I_005E");
  c6 ← getitem df (SStr "B16001I_006E");
  let df := setitem df (SStr "speaks_spanish")
              (series_add (series_add (series_add c3 c4) c5) c6) in
  c5 ← getitem df (SStr "B16001I_005E");
  c6 ← getitem df (SStr "B16001I_006E");
  let df := setitem df (SStr "limited_english_proficiency")
              (series_add c5 c6) in
  df ← rate_column df "english_only_rate" "B16001I_002E" "B16001I_001E";
  df ← rate_column df "spanish_speaking_rate" "speaks_spanish"
                   "B16001I_001E";
  df ← rate_column df "limited_english_rate" "limited_english_proficiency"
                   "B16001I_001E";
  mret (rename df [("B16001I_001E", "total_population_5plus");
                   ("B16001I_002E", "speaks_english_only");
                   ("B16001I_003E", "spanish_english_very_well");
                   ("B16001I_004E", "spanish_english_well");
                   ("B16001I_005E", "spanish_english_not_well");
                   ("B16001I_006E", "spanish_english_not_at_all")]).

Definition language_url (year : Z) : string :=
  acs5_url year
    "B16001I_001E,B16001I_002E,B16001I_003E,B16001I_004E,B16001I_005E,B16001I_006E"
    "state:*".

Definition language_dir : string := "data/census_acs5_language".

Definition language_file (year : Z) : string :=
  language_dir ++ "/acs5_language_" ++ pretty year ++ ".csv".

Definition download_language_data : M unit :=
  makedirs os language_dir;;
  for_each years (fun year =>
    let output_file := language_file year in
    exists_file output_file ≫= fun skip : bool =>
    if skip
    then print ("Data for " ++ pretty year ++ " already exists. Skipping.")
    else
      print ("Fetching language data for " ++ pretty year ++ "...");;
      let url := language_url year in
      try_except
        (response ← requests_get net url;
         raise_for_status response;;
         data ← json response;
         df ← lift (process url (language_table year) data);
         to_csv os df output_file;;
         print ("Saved " ++ output_file))
        (report_http_error year);;
      sleep 1);;
  print (nl ++ "Download complete! Data saved to: data/census_acs5_language");;
  hispanic_note.

(** ** [download_health_insurance_data.py] *)

Definition health_insurance_table (year : Z) (data : list (list scalar))
  : result DataFrame :=
  df ← parse_table year data;
  df ← numeric_column df (SStr "B27001I_001E");
  df ← numeric_column df (SStr "B27001I_003E");
  df ← numeric_column df (SStr "B27001I_009E");
  df ← rate_column df "insurance_coverage_rate" "B27001I_003E"
                   "B27001I_001E";
  df ← rate_column df "uninsured_rate" "B27001I_009E" "B27001I_001E";
  mret (rename df [("B27001I_001E", "total_population");
                   ("B27001I_003E", "with_insurance");
                   ("B27001I_009E", "without_insurance")]).

Definition health_insurance_url (year : Z) : string :=
  acs5_url year "B27001I_001E,B27001I_003E,B27001I_009E" "state:*".

Definition health_insurance_dir : string := "data/census_acs5_health_insurance".

Definition health_insurance_file (year : Z) : string :=
  health_insurance_dir ++ "/acs5_health_insurance_"
  ++ pretty year ++ ".csv".

Definition download_health_insurance_data : M unit :=
  makedirs os health_insurance_dir;;
  for_each years (fun year =>
    let output_file := health_insurance_file year in
    exists_file output_file ≫= fun skip : bool =>
    if skip
    then print ("Data for " ++ pretty year ++ " already exists. Skipping.")
    else
      print ("Fetching health insurance data for " ++ pretty year ++ "...");;
      let url := health_insurance_url year in
      try_except
        (response ← requests_get net url;
         raise_for_status response;;
         data ← json response;
         df ← lift (process url (health_insurance_table year) data);
         to_csv os df output_file;;
         print ("Saved " ++ output_file))
        (report_http_error year);;
      sleep 1);;
  print (nl ++ "Download complete! Data saved to: data/census_acs5_health_insurance");;
  hispanic_note.

(** ** [download_occupation_industry_data.py] *)

Definition occupation_table (year : Z) (occ_data : list (list scalar))
  : result DataFrame :=
  occ_df ← parse_table year occ_data;
  occ_df ← numeric_column occ_df (SStr "B24010_001E");
  mret (rename occ_df [("B24010_001E", "total_employed")]).

Definition industry_table (year : Z) (ind_data : list (list scalar))
  : result DataFrame :=
  ind_df ← parse_table year ind_data;
  ind_df ← numeric_column ind_df (SStr "B24030_001E");
  mret (rename ind_df [("B24030_001E", "total_employed")]).

Definition occupation_url (year : Z) : string :=
  acs5_url year "B24010_001E" "state:*".

Definition industry_url (year : Z) : string :=
  acs5_url year "B24030_001E" "state:*".

Definition occupation_industry_dir : string :=
  "data/census_acs5_occupation_industry".

Definition occupation_file (year : Z) : string :=
  occupation_industry_dir ++ "/acs5_occupation_"
  ++ pretty year ++ ".csv".

Definition industry_file (year : Z) : string :=
  occupation_industry_dir ++ "/acs5_industry_"
  ++ pretty year ++ ".csv".

Definition download_occupation_industry_data : M unit :=
  makedirs os occupation_industry_dir;;
  for_each years (fun year =>
    print ("Fetching occupation and industry data for " ++ pretty year ++ "...");;
    let occ_url := occupation_url year in
    let ind_url := industry_url year in
    try_except
      (occ_response ← requests_get net occ_url;
       raise_for_status occ_response;;
       occ_data ← json occ_response;
       ind_response ← requests_get net ind_url;
       raise_for_status ind_response;;
       ind_data ← json ind_response;
       occ_df ← lift (process occ_url (occupation_table year) occ_data);
       ind_df ← lift (process ind_url (industry_table year) ind_data);
       let occ_output := occupation_file year in
       let ind_output := industry_file year in
       to_csv os occ_df occ_output;;
       to_csv os ind_df ind_output;;
       print ("Saved " ++ occ_output);;
       print ("Saved " ++ ind_output))
      (fun e =>
         match e with
         | HTTPError _ =>
             print ("HTTP Error for " ++ pretty year ++ ": " ++ str_exn e)
         | _ => print ("Error for " ++ pretty year ++ ": " ++ str_exn e)
         end);;
    sleep 1).

(** ** [download_hispanic_comparison_data.py] *)

Record table_info := mkTable {
  table_key : string;
  table_name : string;
  table_variables : string;
  table_description : string
}.

Definition tables : list table_info :=
  [ mkTable "poverty" "Poverty Status" "B17001I_001E,B17001I_002E"
      "Poverty Status in the Past 12 Months by Sex by Age (Hispanic or Latino)";
    mkTable "housing_rent" "Median Gross Rent" "B25064I_001E"
      "Median Gross Rent (Dollars) (Hispanic or Latino)";
    mkTable "housing_value" "Median Home Value" "B25077I_001E"
      "Median Value (Dollars) for Owner-Occupied Housing Units (Hispanic or Latino)";
    mkTable "health_insurance" "Health Insurance Coverage"
      "B27001I_001E,B27001I_003E,B27001I_009E"
      "Health Insurance Coverage Status by Age (Hispanic or Latino)" ].

Definition hispanic_table (key : string) (year : Z)
           (data : list (list scalar)) : result DataFrame :=
  headers ← item0 data;
  df ← parse_table year data;
  df ← numeric_columns headers df;
  if String.eqb key "poverty" then
    df ← rate_column df "poverty_rate" "B17001I_002E" "B17001I_001E";
    mret (rename df [("B17001I_001E", "total_population");
                     ("B17001I_002E", "below_poverty_level")])
  else if String.eqb key "health_insurance" then
    df ← rate_column df "insurance_coverage_rate" "B27001I_003E"
                     "B27001I_001E";
    df ← rate_column df "uninsured_rate" "B27001I_009E" "B27001I_001E";
    mret (rename df [("B27001I_001E", "total_population");
                     ("B27001I_003E", "with_insurance");
                     ("B27001I_009E", "without_insurance")])
  else if String.eqb key "housing_rent" then
    mret (rename df [("B25064I_001E", "median_gross_rent")])
  else if String.eqb key "housing_value" then
    mret (rename df [("B25077I_001E", "median_home_value")])
  else mret df.

Definition hispanic_url (t : table_info) (year : Z) : string :=
  acs5_url year (table_variables t) "state:*".

Definition hispanic_dir : string :=
  "data/census_acs5_hispanic_comparison".

Definition hispanic_file (t : table_info) (year : Z) : string :=
  hispanic_dir ++ "/acs5_hispanic_"
  ++ table_key t ++ "_" ++ pretty year ++ ".csv".

Definition rule : string :=
  "============================================================".

Definition download_hispanic_comparison_data : M unit :=
  makedirs os hispanic_dir;;
  for_each tables (fun t =>
    print (nl ++ rule);;
    print ("Downloading " ++ table_name t ++ " data");;
    print ("Table: " ++ table_description t);;
    print rule;;
    for_each years (fun year =>
      let output_file := hispanic_file t year in
      exists_file output_file ≫= fun skip : bool =>
      if skip
      then print ("Data for " ++ table_key t ++ " " ++ pretty year
                  ++ " already exists. Skipping.")
      else
        print ("Fetching " ++ table_key t ++ " data for " ++ pretty year ++ "...");;
        let url := hispanic_url t year in
        try_except
          (response ← requests_get net url;
           raise_for_status response;;
           data ← json response;
           df ← lift (process url (hispanic_table (table_key t) year) data);
           to_csv os df output_file;;
           print ("Saved " ++ output_file))
          (report_http_error year);;
        sleep 1));;
  print (nl ++ rule);;
  print "Download complete!";;
  print "Data saved to: data/census_acs5_hispanic_comparison";;
  print rule;;
  print (nl ++ "Note: This data is for ALL Hispanic/Latino populations, not Puerto Rican-specific.");;
  print "Use IPUMS microdata (download_ipums_pr_specific_data.py) for Puerto Rican-specific data.".

End Scripts.


(** ** One iteration of a per-year loop *)

Lemma after_to_csv_other (os : disk) (path : string) (df : DataFrame)
      (fs : gmap string file) (p : string) :
  path <> p -> after_to_csv os path df fs !! p = fs !! p.
Proof.
  intros Hne. unfold after_to_csv.
  destruct (to_csv_answer os path df) as [|e [f|]];
    rewrite ?lookup_insert_ne by exact Hne; reflexivity.
Qed.

Lemma after_to_csv_written (os : disk) (path : string) (df : DataFrame)
      (fs : gmap string file) :
  to_csv_answer os path df = Written ->
  after_to_csv os path df fs = <[path := CsvFile df]> fs.
Proof. intros H. unfold after_to_csv. rewrite H. reflexivity. Qed.

Lemma insert_agree (m1 m2 : gmap string file) (k p : string) (v : file) :
  m1 !! p = m2 !! p -> <[k := v]> m1 !! p = <[k := v]> m2 !! p.
Proof.
  intros H. destruct (decide (k = p)) as [->|Hne].
  - rewrite !lookup_insert_eq. reflexivity.
  - rewrite !lookup_insert_ne by exact Hne. exact H.
Qed.

Section Iteration.

Variable net : string -> response.
Variable os : disk.

(** What a request yields once it has gone through [raise_for_status],
    [response.json()] and the script's processing. *)
Definition fetch_result (url : string)
           (process : json_value -> result DataFrame)
  : result DataFrame :=
  match net url with
  | Unreachable => inl RequestException
  | Response code body =>
      if ((400 <=? code) && (code <? 600))%Z then inl (HTTPError code)
      else match body with
           | Some data => process data
           | None => inl JSONDecodeError
           end
  end.

(** The shape of a loop: its directory, its URL, its output file and its
    processing for each year, and whether years with an output file are
    skipped. *)
Record per_year := mkPerYear {
  py_dir : string;
  py_url : Z -> string;
  py_file : Z -> string;
  py_table : Z -> json_value -> result DataFrame;
  py_skip : bool
}.

Definition skipped (P : per_year) (year : Z) (fs : gmap string file) : bool :=
  py_skip P && bool_decide (is_Some (fs !! py_file P year)).

Definition year_files (P : per_year) (year : Z) (fs : gmap string file)
  : gmap string file :=
  if skipped P year fs then fs
  else match fetch_result (py_url P year) (py_table P year) with
       | inr df => after_to_csv os (py_file P year) df fs
       | inl _ => fs
       end.

Definition year_requests (P : per_year) (year : Z) (fs : gmap string file)
  : list string :=
  if skipped P year fs then [] else [py_url P year].

(** [body] behaves as [P] says: it never raises, and changes the files and
    the request log as [year_files] and [year_requests] do. *)
Definition follows (P : per_year) (body : Z -> M unit) : Prop :=
  forall year w, exists out,
    body year w
    = (inr tt, mkWorld (year_files P year (files w)) out
                       (requests w ++ year_requests P year (files w))%list).

Fixpoint run_years (P : per_year) (ys : list Z) (fs : gmap string file)
  : gmap string file * list string :=
  match ys with
  | [] => (fs, [])
  | y :: ys' =>
      let r := run_years P ys' (year_files P y fs) in
      (fst r, (year_requests P y fs ++ snd r)%list)
  end.

Lemma for_each_follows (P : per_year) (body : Z -> M unit) (ys : list Z) :
  follows P body ->
  forall w, exists out,
    for_each ys body w
    = (inr tt, mkWorld (fst (run_years P ys (files w))) out
                       (requests w ++ snd (run_years P ys (files w)))%list).
Proof.
  intros Hbody. induction ys as [|y ys IH]; intros w;
    rewrite ?for_each_nil, ?for_each_cons; simpl.
  - exists (stdout w). unfold mret, M_ret. rewrite app_nil_r.
    destruct w; reflexivity.
  - destruct (Hbody y w) as [out Hy].
    unfold mbind, M_bind. rewrite Hy.
    destruct (IH (mkWorld (year_files P y (files w)) out
                    (requests w ++ year_requests P y (files w))%list))
      as [out' Hrest].
    rewrite Hrest. simpl. exists out'. rewrite <- app_assoc. reflexivity.
Qed.

(** ** A script: [os.makedirs], then the loop *)

(** [script] raises what [os.makedirs] raises, before it prints or requests
    anything; when the directory is there it does not raise, and leaves the
    files and the requests of [loop]. *)
Definition runs_as (dir : string)
           (loop : gmap string file -> gmap string file * list string)
           (script : M unit) : Prop :=
  forall w,
    match makedirs_answer os dir with
    | inl e => script w = (inl e, w)
    | inr _ =>
        exists out,
          script w
          = (inr tt, mkWorld (fst (loop (files w))) out
                       (requests w ++ snd (loop (files w)))%list)
    end.

Lemma makedirs_runs (dir : string)
      (loop : gmap string file -> gmap string file * list string)
      (m : M unit) :
  (forall w, exists out,
     m w = (inr tt, mkWorld (fst (loop (files w))) out
                      (requests w ++ snd (loop (files w)))%list)) ->
  runs_as dir loop (makedirs os dir ;; m).
Proof.
  intros Hm w. unfold mbind, M_bind, makedirs, lift.
  destruct (makedirs_answer os dir) as [e|u]; [reflexivity|]. apply Hm.
Qed.

(** The scripts that run one loop over the years. *)
Definition runs (P : per_year) (script : M unit) : Prop :=
  runs_as (py_dir P) (run_years P years) script.

(** *** Properties of [run_years] *)

Lemma run_years_not_skipping (P : per_year) (ys : list Z)
      (fs : gmap string file) :
  py_skip P = false -> snd (run_years P ys fs) = List.map (py_url P) ys.
Proof.
  intros Hskip. revert fs. induction ys as [|y ys IH]; intros fs; simpl.
  - reflexivity.
  - unfold year_requests, skipped. rewrite Hskip. simpl. rewrite IH.
    reflexivity.
Qed.

Lemma year_files_other (P : per_year) (y : Z) (fs : gmap string file)
      (p : string) :
  py_file P y <> p -> year_files P y fs !! p = fs !! p.
Proof.
  intros Hne. unfold year_files. destruct (skipped P y fs); [reflexivity|].
  destruct (fetch_result (py_url P y) (py_table P y)); [reflexivity|].
  apply after_to_csv_other. exact Hne.
Qed.

(** A file that exists is kept by a loop that skips existing files. *)
Lemma run_years_keeps (P : per_year) (ys : list Z) (fs : gmap string file)
      (y : Z) (c : file) :
  py_skip P = true ->
  fs !! py_file P y = Some c ->
  fst (run_years P ys fs) !! py_file P y = Some c.
Proof.
  intros Hskip. revert fs. induction ys as [|y' ys IH]; intros fs Hc; simpl.
  - exact Hc.
  - apply IH.
    destruct (decide (py_file P y' = py_file P y)) as [Heq|Hne].
    + unfold year_files, skipped. rewrite Hskip. simpl.
      rewrite Heq. rewrite bool_decide_eq_true_2 by (rewrite Hc; eauto).
      exact Hc.
    + rewrite year_files_other by exact Hne. exact Hc.
Qed.

(** ... and no request is made for its year. *)
Lemma run_years_no_request (P : per_year) (ys : list Z)
      (fs : gmap string file) (y : Z) (c : file) :
  py_skip P = true ->
  fs !! py_file P y = Some c ->
  (forall y', In y' ys -> py_url P y' = py_url P y -> y' = y) ->
  ~ In (py_url P y) (snd (run_years P ys fs)).
Proof.
  intros Hskip. revert fs. induction ys as [|y' ys IH]; intros fs Hc Hinj; simpl.
  - intros [].
  - intros Hin. apply in_app_or in Hin. destruct Hin as [Hin|Hin].
    + unfold year_requests, skipped in Hin. rewrite Hskip in Hin. simpl in Hin.
      destruct (bool_decide (is_Some (fs !! py_file P y'))) eqn:Hex;
        [destruct Hin|].
      destruct Hin as [Heq|[]].
      assert (y' = y) by (apply Hinj; [left; reflexivity | exact Heq]).
      subst y'. rewrite bool_decide_eq_true_2 in Hex by (rewrite Hc; eauto).
      discriminate.
    + revert Hin. apply IH.
      * pose proof (run_years_keeps P [y'] fs y c Hskip Hc) as Hk.
        simpl in Hk. exact Hk.
      * intros y'' Hy''. apply Hinj. right. exact Hy''.
Qed.

(** Files outside the loop's outputs are never touched. *)
Lemma run_years_other (P : per_year) (ys : list Z) (fs : gmap string file)
      (p : string) :
  (forall y, In y ys -> py_file P y <> p) ->
  fst (run_years P ys fs) !! p = fs !! p.
Proof.
  revert fs. induction ys as [|y ys IH]; intros fs Hp; simpl.
  - reflexivity.
  - rewrite IH by (intros y' Hy'; apply Hp; right; exact Hy').
    apply year_files_other. apply Hp. left. reflexivity.
Qed.

(** What a year makes of its file depends on that file alone. *)
Lemma year_files_agree (P : per_year) (y : Z) (fs fs' : gmap string file) :
  fs !! py_file P y = fs' !! py_file P y ->
  year_files P y fs !! py_file P y = year_files P y fs' !! py_file P y.
Proof.
  intros H. unfold year_files, skipped. rewrite H.
  destruct (py_skip P && bool_decide (is_Some (fs' !! py_file P y)));
    [exact H|].
  destruct (fetch_result (py_url P y) (py_table P y)) as [e|df]; [exact H|].
  unfold after_to_csv.
  destruct (to_csv_answer os (py_file P y) df) as [|e [f|]];
    rewrite ?lookup_insert_eq; [reflexivity | reflexivity | exact H].
Qed.

(** At the end of a loop, the file of a year holds what the iteration of
    that year alone makes of the file the loop started with. *)
Lemma run_years_at (P : per_year) (ys : list Z) (fs : gmap string file)
      (y : Z) :
  In y ys ->
  NoDup (List.map (py_file P) ys) ->
  fst (run_years P ys fs) !! py_file P y
  = year_files P y fs !! py_file P y.
Proof.
  revert fs. induction ys as [|y' ys IH]; intros fs Hin Hnd; [destruct Hin|].
  inversion Hnd as [|? ? Hnotin Hnd']; subst. cbn [run_years fst].
  destruct (decide (y' = y)) as [->|Hne].
  - apply run_years_other. intros y'' Hy'' Heq. apply Hnotin. rewrite <- Heq.
    apply in_map. exact Hy''.
  - destruct Hin as [Heq|Hin]; [contradiction|].
    rewrite (IH _ Hin Hnd').
    assert (Hfile : py_file P y' <> py_file P y).
    { intros Heq. apply Hnotin. rewrite Heq. apply in_map. exact Hin. }
    apply year_files_agree. apply year_files_other. exact Hfile.
Qed.

(** The table of a year that is fetched, processed and written is in its
    file at the end of the loop. *)
Lemma run_years_written (P : per_year) (ys : list Z) (fs : gmap string file)
      (y : Z) (df : DataFrame) :
  In y ys ->
  NoDup (List.map (py_file P) ys) ->
  skipped P y fs = false ->
  fetch_result (py_url P y) (py_table P y) = inr df ->
  to_csv_answer os (py_file P y) df = Written ->
  fst (run_years P ys fs) !! py_file P y = Some (CsvFile df).
Proof.
  intros Hin Hnd Hsk Hf Hw. rewrite (run_years_at P ys fs y Hin Hnd).
  unfold year_files. rewrite Hsk, Hf, (after_to_csv_written _ _ _ _ Hw).
  apply lookup_insert_eq.
Qed.

(** A year that fails leaves every file as it was. *)
Lemma year_files_failed (P : per_year) (y : Z) (fs : gmap string file)
      (e : exn) :
  fetch_result (py_url P y) (py_table P y) = inl e ->
  year_files P y fs = fs.
Proof.
  intros Hf. unfold year_files. rewrite Hf.
  destruct (skipped P y fs); reflexivity.
Qed.

End Iteration.

(** ** The loops of the scripts *)

Section Loops.

Variable irregular : string -> string -> result DataFrame.
Variable fos : string -> option float.

Definition census_loop : per_year :=
  mkPerYear census_dir census_url census_file
            (fun year => process irregular (census_url year)
                                 (census_table year))
            false.
Definition poverty_loop : per_year :=
  mkPerYear poverty_dir poverty_url poverty_file
            (fun year => process irregular (poverty_url year)
                                 (poverty_table fos year))
            false.
Definition housing_loop : per_year :=
  mkPerYear housing_dir housing_url housing_file
            (fun year => process irregular (housing_url year)
                                 (housing_table fos year))
            false.
Definition arrival_loop : per_year :=
  mkPerYear arrival_dir arrival_url arrival_file
            (fun year => process irregular (arrival_url year)
                                 (arrival_table fos year))
            false.
Definition county_loop : per_year :=
  mkPerYear county_dir county_url county_file
            (fun year => process irregular (county_url year)
                                 (county_table year))
            true.
Definition commuting_loop : per_year :=
  mkPerYear commuting_dir commuting_url commuting_file
            (fun year => process irregular (commuting_url year)
                                 (commuting_table fos year))
            true.
Definition language_loop : per_year :=
  mkPerYear language_dir language_url language_file
            (fun year => process irregular (language_url year)
                                 (language_table fos year))
            true.
Definition health_insurance_loop : per_year :=
  mkPerYear health_insurance_dir health_insurance_url health_insurance_file
            (fun year => process irregular (health_insurance_url year)
                                 (health_insurance_table fos year))
            true.
Definition hispanic_loop (t : table_info) : per_year :=
  mkPerYear hispanic_dir (hispanic_url t) (hispanic_file t)
            (fun year => process irregular (hispanic_url t year)
                                 (hispanic_table fos (table_key t) year))
            true.

End Loops.

Ltac unfold_py :=
  unfold mbind, M_bind, mret, M_ret, print, try_except, sleep, exists_file,
    to_csv, write_file, lift, requests_get, raise_for_status, json, raise,
    report_http_error, hispanic_note; simpl.

Ltac run_step :=
  match goal with
  | |- context [bool_decide ?P] => destruct (bool_decide P); simpl
  | |- context [match ?net ?u with Unreachable => _ | Response _ _ => _ end] =>
      destruct (net u) as [|? [[?|?]|]]; simpl
  | |- context [((?a <=? ?c) && (?c <? ?b))%Z] =>
      destruct ((a <=? c) && (c <? b))%Z; simpl
  | |- context [to_csv_answer ?o ?p ?d] =>
      destruct (to_csv_answer o p d) as [|? [?|]]; simpl
  | |- context [match ?t with inl _ => _ | inr _ => _ end] =>
      destruct t; simpl
  | |- context [if ?c then _ else _] => destruct c; simpl
  | e : exn |- _ => destruct e; simpl
  end.

Ltac run_body :=
  let year := fresh "year" in
  let w := fresh "w" in
  intros year w;
  unfold year_files, year_requests, skipped, fetch_result, process; simpl;
  unfold_py;
  repeat run_step;
  rewrite ?app_nil_r; eexists; reflexivity.

Section Runs.

Variable net : string -> response.
Variable os : disk.
Variable irregular : string -> string -> result DataFrame.
Variable fos : string -> option float.

Lemma download_census_data_run :
  runs net os (census_loop irregular) (download_census_data net os irregular).
Proof.
  unfold download_census_data. apply makedirs_runs.
  intros w. apply for_each_follows. run_body.
Qed.

Lemma download_poverty_data_run :
  runs net os (poverty_loop irregular fos)
       (download_poverty_data net os irregular fos).
Proof.
  unfold download_poverty_data. apply makedirs_runs.
  intros w. apply for_each_follows. run_body.
Qed.

Lemma download_housing_data_run :
  runs net os (housing_loop irregular fos)
       (download_housing_data net os irregular fos).
Proof.
  unfold download_housing_data. apply makedirs_runs.
  intros w. apply for_each_follows. run_body.
Qed.

Lemma download_county_data_run :
  runs net os (county_loop irregular) (download_county_data net os irregular).
Proof.
  unfold download_county_data. apply makedirs_runs.
  intros w. apply for_each_follows. run_body.
Qed.

(** A loop followed by the closing prints of the script. *)
Lemma then_prints (P : per_year) (loop tail : M unit) (w : world) :
  (forall w, exists out,
     loop w = (inr tt, mkWorld (fst (run_years net os P years (files w))) out
                 (requests w ++ snd (run_years net os P years (files w)))%list)) ->
  (forall w, exists out,
     tail w = (inr tt, mkWorld (files w) out (requests w))) ->
  exists out,
    (loop ;; tail) w
    = (inr tt, mkWorld (fst (run_years net os P years (files w))) out
         (requests w ++ snd (run_years net os P years (files w)))%list).
Proof.
  intros Hloop Htail. destruct (Hloop w) as [out Hl].
  unfold mbind, M_bind. rewrite Hl.
  destruct (Htail (mkWorld (fst (run_years net os P years (files w))) out
              (requests w ++ snd (run_years net os P years (files w)))%list))
    as [out' Ht].
  rewrite Ht. simpl. exists out'. reflexivity.
Qed.

Lemma download_year_of_arrival_data_run :
  runs net os (arrival_loop irregular fos)
       (download_year_of_arrival_data net os irregular fos).
Proof.
  unfold download_year_of_arrival_data. apply makedirs_runs. intros w.
  apply (then_prints (arrival_loop irregular fos)).
  - intros w'. apply for_each_follows. run_body.
  - intros w'. unfold_py. eexists. reflexivity.
Qed.

Lemma download_commuting_data_run :
  runs net os (commuting_loop irregular fos)
       (download_commuting_data net os irregular fos).
Proof.
  unfold download_commuting_data. apply makedirs_runs. intros w.
  apply (then_prints (commuting_loop irregular fos)).
  - intros w'. apply for_each_follows. run_body.
  - intros w'. unfold_py. eexists. reflexivity.
Qed.

Lemma download_language_data_run :
  runs net os (language_loop irregular fos)
       (download_language_data net os irregular fos).
Proof.
  unfold download_language_data. apply makedirs_runs. intros w.
  apply (then_prints (language_loop irregular fos)).
  - intros w'. apply for_each_follows. run_body.
  - intros w'. unfold_py. eexists. reflexivity.
Qed.

Lemma download_health_insurance_data_run :
  runs net os (health_insurance_loop irregular fos)
       (download_health_insurance_data net os irregular fos).
Proof.
  unfold download_health_insurance_data. apply makedirs_runs. intros w.
  apply (then_prints (health_insurance_loop irregular fos)).
  - intros w'. apply for_each_follows. run_body.
  - intros w'. unfold_py. eexists. reflexivity.
Qed.

End Runs.

(** ** The two-request loop and the nested loop *)

Section MoreRuns.

Variable net : string -> response.
Variable os : disk.
Variable irregular : string -> string -> result DataFrame.
Variable fos : string -> option float.

(** The requests of one year of [download_occupation_industry_data]: the
    industry table is requested when the occupation request went through
    [raise_for_status] and [json], whatever JSON value that returned. *)
Definition occupation_requests (year : Z) : list string :=
  occupation_url year ::
  match net (occupation_url year) with
  | Response code (Some _) =>
      if ((400 <=? code) && (code <? 600))%Z then [] else [industry_url year]
  | _ => []
  end.

(** The two tables of a year, once fetched and processed. *)
Definition occupation_fetched (year : Z) : result DataFrame :=
  fetch_result net (occupation_url year)
    (process irregular (occupation_url year) (occupation_table fos year)).

Definition industry_fetched (year : Z) : result DataFrame :=
  fetch_result net (industry_url year)
    (process irregular (industry_url year) (industry_table fos year)).

(** The files after one year: the two tables are written, the occupation
    table first, once both have been fetched and processed; the industry
    table is not written when the first [to_csv] raises. *)
Definition occupation_year_files (year : Z) (fs : gmap string file)
  : gmap string file :=
  match occupation_fetched year, industry_fetched year with
  | inr occ_df, inr ind_df =>
      match to_csv_answer os (occupation_file year) occ_df with
      | Written =>
          after_to_csv os (industry_file year) ind_df
            (<[occupation_file year := CsvFile occ_df]> fs)
      | NotWritten _ (Some f) => <[occupation_file year := f]> fs
      | NotWritten _ None => fs
      end
  | _, _ => fs
  end.

Fixpoint run_occupation (ys : list Z) (fs : gmap string file)
  : gmap string file * list string :=
  match ys with
  | [] => (fs, [])
  | y :: ys' =>
      let r := run_occupation ys' (occupation_year_files y fs) in
      (fst r, (occupation_requests y ++ snd r)%list)
  end.

Lemma run_occupation_requests (ys : list Z) (fs : gmap string file) :
  snd (run_occupation ys fs) = List.flat_map occupation_requests ys.
Proof.
  revert fs. induction ys as [|y ys IH]; intros fs; simpl; [reflexivity|].
  rewrite IH. reflexivity.
Qed.

Lemma download_occupation_industry_data_run :
  runs_as os occupation_industry_dir (run_occupation years)
          (download_occupation_industry_data net os irregular fos).
Proof.
  unfold download_occupation_industry_data. apply makedirs_runs.
  generalize years. intros ys.
  induction ys as [|year ys IH]; intros w;
    rewrite ?for_each_nil, ?for_each_cons; cbn [run_occupation fst snd].
  - exists (stdout w). unfold mret, M_ret. rewrite app_nil_r.
    destruct w; reflexivity.
  - match goal with
    | |- exists out, (?body ;; ?rest) w = _ =>
        assert (Hbody : exists out,
                  body w
                  = (inr tt,
                     mkWorld (occupation_year_files year (files w)) out
                       (requests w ++ occupation_requests year)%list))
    end.
    { unfold occupation_year_files, occupation_fetched, industry_fetched,
        occupation_requests, fetch_result, process.
      unfold_py. unfold after_to_csv.
      destruct (net (occupation_url year)) as [|code [[data|text]|]]; simpl;
        try (destruct ((400 <=? code) && (code <? 600))%Z; simpl);
        try (eexists; reflexivity);
        (destruct (net (industry_url year)) as [|code' [[data'|text']|]];
         simpl;
         try (destruct ((400 <=? code') && (code' <? 600))%Z; simpl);
         rewrite <- ?(app_assoc (requests w)); simpl;
         repeat run_step;
         eexists; reflexivity). }
    destruct Hbody as (out & Hb).
    unfold mbind at 1, M_bind at 1. rewrite Hb.
    destruct (IH (mkWorld (occupation_year_files year (files w)) out
                    (requests w ++ occupation_requests year)%list))
      as (out' & Hrest).
    rewrite Hrest. exists out'. cbn [files requests].
    rewrite <- app_assoc. reflexivity.
Qed.

Fixpoint run_tables (ts : list table_info) (fs : gmap string file)
  : gmap string file * list string :=
  match ts with
  | [] => (fs, [])
  | t :: ts' =>
      let r := run_years net os (hispanic_loop irregular fos t) years fs in
      let r' := run_tables ts' (fst r) in
      (fst r', (snd r ++ snd r')%list)
  end.

(** Printing before a computation changes neither the files nor the
    requests it makes. *)
Lemma print_then (msg : string) (m : M unit)
      (F : gmap string file -> gmap string file)
      (R : gmap string file -> list string) :
  (forall w, exists out,
     m w = (inr tt, mkWorld (F (files w)) out (requests w ++ R (files w))%list)) ->
  forall w, exists out,
    (print msg ;; m) w
    = (inr tt, mkWorld (F (files w)) out (requests w ++ R (files w))%list).
Proof.
  intros Hm w. unfold mbind, M_bind, print.
  destruct (Hm (mkWorld (files w) (stdout w ++ [msg])%list (requests w)))
    as [out Ho].
  rewrite Ho. exists out. reflexivity.
Qed.

Lemma download_hispanic_comparison_data_run :
  runs_as os hispanic_dir (run_tables tables)
          (download_hispanic_comparison_data net os irregular fos).
Proof.
  unfold download_hispanic_comparison_data. apply makedirs_runs. intros w.
  generalize tables. intros ts.
  match goal with
  | |- exists out, (for_each ts ?b ;; ?tail) w = _ =>
      assert (Hloop : forall ts w, exists out,
        for_each ts b w
        = (inr tt, mkWorld (fst (run_tables ts (files w))) out
             (requests w ++ snd (run_tables ts (files w)))%list))
  end.
  { clear. induction ts as [|t ts IH]; intros w;
      rewrite ?for_each_nil, ?for_each_cons; cbn [run_tables].
    - exists (stdout w). unfold mret, M_ret. cbn [fst snd].
      rewrite app_nil_r. destruct w; reflexivity.
    - match goal with
      | |- exists out, (?block ;; ?rest) w = _ =>
          assert (Hblock : forall w, exists out,
            block w
            = (inr tt,
               mkWorld (fst (run_years net os (hispanic_loop irregular fos t)
                                       years (files w)))
                 out
                 (requests w
                  ++ snd (run_years net os (hispanic_loop irregular fos t)
                                    years (files w)))%list))
      end.
      { do 4 apply (print_then _ _
               (fun fs => fst (run_years net os (hispanic_loop irregular fos t)
                                         years fs))
               (fun fs => snd (run_years net os (hispanic_loop irregular fos t)
                                         years fs))).
        intros w0. apply for_each_follows. run_body. }
      destruct (Hblock w) as [out Hb].
      unfold mbind at 1, M_bind at 1. rewrite Hb.
      match goal with
      | |- context [for_each ts ?b ?w0] =>
          destruct (IH w0) as [out' Hrest]; rewrite Hrest
      end.
      cbn [fst snd files requests]. exists out'.
      rewrite <- app_assoc. reflexivity. }
  destruct (Hloop ts w) as [out Hl].
  unfold mbind at 1, M_bind at 1. rewrite Hl.
  unfold_py. eexists. reflexivity.
Qed.

End MoreRuns.

(** ** The shape of a parsed table *)

(** Every row has one cell per column. *)
Definition well_formed (df : DataFrame) : Prop :=
  Forall (fun row => length row = length (columns df)) (rows df).

Definition cell_at (cols : list scalar) (label : scalar) (row : list scalar)
  : option scalar :=
  match positions label cols 0 with
  | i :: _ => List.nth_error row i
  | [] => None
  end.

Lemma cell_cell_at (df : DataFrame) (label : scalar) (row : list scalar) :
  cell df label row = cell_at (columns df) label row.
Proof. reflexivity. Qed.

Lemma map2_length {A B C : Type} (f : A -> B -> C) (l1 : list A)
      (l2 : list B) :
  length (map2 f l1 l2) = Nat.min (length l1) (length l2).
Proof. unfold map2. rewrite length_map. apply length_combine. Qed.

Lemma map2_repeat {A B C : Type} (f : A -> B -> C) (l : list A) (v : B) :
  map2 f l (List.repeat v (length l)) = List.map (fun x => f x v) l.
Proof.
  unfold map2. induction l as [|x l IH]; simpl; [reflexivity|].
  rewrite IH. reflexivity.
Qed.

Lemma map2_map_l {A B C : Type} (f : A -> B -> C) (l1 : list A)
      (l2 : list B) (R : A -> C -> Prop) :
  (forall a b, R a (f a b)) ->
  length l1 = length l2 ->
  Forall2 R l1 (map2 f l1 l2).
Proof.
  intros HR. unfold map2. revert l2.
  induction l1 as [|a l1 IH]; intros [|b l2] Hlen; simpl in *;
    try discriminate; constructor; auto.
Qed.

Lemma width_ge (data : list (list scalar)) (r : list scalar) :
  In r data -> (length r <= width data)%nat.
Proof.
  induction data as [|r' data IH]; simpl; intros Hin; [contradiction|].
  destruct Hin as [->|Hin]; [lia|]. specialize (IH Hin). lia.
Qed.

Lemma pad_length (n : nat) (row : list scalar) :
  (length row <= n)%nat -> length (pad n row) = n.
Proof.
  intros H. unfold pad. rewrite length_app, repeat_length. lia.
Qed.

Lemma new_frame_inv (data : list (list scalar)) (headers : list scalar)
      (df : DataFrame) :
  new_frame data headers = inr df ->
  columns df = headers /\
  rows df = List.map (pad (length headers)) data /\
  well_formed df.
Proof.
  unfold new_frame. destruct data as [|r data].
  - intros H. inversion H; subst. repeat split. constructor.
  - remember (r :: data) as d eqn:Hd.
    destruct (Nat.eqb_spec (width d) (length headers)) as [Hw|Hw];
      [|discriminate].
    intros H. inversion H; subst df; clear H. rewrite Hw.
    repeat split. unfold well_formed. cbn [rows columns].
    rewrite Forall_map. rewrite Forall_forall. intros r' Hin.
    apply pad_length. rewrite <- Hw. apply width_ge. exact Hin.
Qed.

(** *** Positions of a label *)

Lemma positions_shift (label : scalar) (cols : list scalar) (i : nat) :
  positions label cols (S i) = List.map S (positions label cols i).
Proof.
  revert i. induction cols as [|c cols IH]; intros i; simpl; [reflexivity|].
  destruct (scalar_eqb c label); simpl; rewrite IH; reflexivity.
Qed.

Lemma positions_nil (label : scalar) (cols : list scalar) (i : nat) :
  positions label cols i = [] <-> ~ In label cols.
Proof.
  revert i. induction cols as [|c cols IH]; intros i; simpl.
  - tauto.
  - unfold scalar_eqb. destruct (bool_decide_reflect (c = label)) as [->|Hne].
    + split; [discriminate | intros H; exfalso; apply H; left; reflexivity].
    + rewrite IH. split; [intros H [?|?]; congruence | tauto].
Qed.

Lemma has_column_In (df : DataFrame) (label : scalar) :
  has_column df label = true <-> In label (columns df).
Proof.
  unfold has_column. rewrite existsb_exists. split.
  - intros (c & Hin & Heq). unfold scalar_eqb in Heq.
    apply bool_decide_eq_true in Heq. subst. exact Hin.
  - intros Hin. exists label. split; [exact Hin|].
    apply bool_decide_eq_true. reflexivity.
Qed.

(** The first position of a label that occurs: it is inside the columns,
    the column there carries the label, and no earlier one does. *)
Lemma positions_first (label : scalar) (cols : list scalar) (i : nat)
      (rest : list nat) :
  positions label cols 0 = i :: rest ->
  (i < length cols)%nat /\ List.nth_error cols i = Some label /\
  ~ In label (List.firstn i cols).
Proof.
  revert i rest. induction cols as [|c cols IH]; intros i rest; simpl;
    [discriminate|].
  unfold scalar_eqb. destruct (bool_decide_reflect (c = label)) as [->|Hne].
  - intros H. inversion H; subst. simpl. repeat split; [lia | tauto].
  - rewrite positions_shift.
    destruct (positions label cols 0) as [|j rest'] eqn:Hpos; [discriminate|].
    simpl. intros H. inversion H; subst.
    destruct (IH j rest' eq_refl) as (Hlt & Hnth & Hnot).
    simpl. repeat split; [lia | exact Hnth |].
    intros [?|?]; [congruence | contradiction].
Qed.

Lemma positions_app_absent (label : scalar) (cols : list scalar) :
  ~ In label cols ->
  positions label (cols ++ [label]) 0 = [length cols].
Proof.
  intros Hnot.
  assert (H : forall i, positions label (cols ++ [label]) i
                        = [(i + length cols)%nat]).
  { induction cols as [|c cols IH]; intros i; simpl.
    - unfold scalar_eqb. rewrite bool_decide_eq_true_2 by reflexivity.
      f_equal. lia.
    - unfold scalar_eqb.
      rewrite bool_decide_eq_false_2
        by (intros ->; apply Hnot; left; reflexivity).
      rewrite IH by (intros Hin; apply Hnot; right; exact Hin).
      f_equal. lia. }
  apply (H 0%nat).
Qed.

Lemma positions_app_present (label other : scalar) (cols : list scalar) :
  In label cols ->
  exists i rest, positions label cols 0 = i :: rest /\
                 exists rest', positions label (cols ++ [other]) 0 = i :: rest'.
Proof.
  assert (H : forall k, In label cols ->
    exists i rest, positions label cols k = i :: rest /\
      exists rest', positions label (cols ++ [other]) k = i :: rest').
  { induction cols as [|c cols IH]; intros k Hin; [destruct Hin|].
    simpl. destruct (scalar_eqb c label) eqn:Hc.
    - eauto.
    - destruct Hin as [->|Hin].
      + unfold scalar_eqb in Hc. rewrite bool_decide_eq_true_2 in Hc
          by reflexivity. discriminate.
      + apply IH. exact Hin. }
  apply (H 0%nat).
Qed.

(** *** Assigning a column *)

Lemma nth_error_map2 {A B C : Type} (f : A -> B -> C) (l1 : list A)
      (l2 : list B) (i : nat) :
  List.nth_error (map2 f l1 l2) i
  = match List.nth_error l1 i, List.nth_error l2 i with
    | Some a, Some b => Some (f a b)
    | _, _ => None
    end.
Proof.
  unfold map2. revert l2 i.
  induction l1 as [|a l1 IH]; intros [|b l2] [|i]; simpl; try reflexivity.
  - destruct (List.nth_error l1 i); reflexivity.
  - apply IH.
Qed.

Lemma Forall2_map2_l {A B C : Type} (f : A -> B -> C) (l1 : list A)
      (l2 : list B) (R : A -> C -> Prop) :
  (forall a b, In a l1 -> R a (f a b)) ->
  length l2 = length l1 ->
  Forall2 R l1 (map2 f l1 l2).
Proof.
  unfold map2. revert l2.
  induction l1 as [|a l1 IH]; intros [|b l2] HR Hlen; simpl in *;
    try discriminate; constructor.
  - apply HR. left. reflexivity.
  - apply IH; [|lia]. intros a' b' Hin. apply HR. right. exact Hin.
Qed.

Lemma Forall2_map2_r {A B C : Type} (f : A -> B -> C) (l1 : list A)
      (l2 : list B) (R : B -> C -> Prop) :
  (forall a b, In a l1 -> R b (f a b)) ->
  length l2 = length l1 ->
  Forall2 R l2 (map2 f l1 l2).
Proof.
  unfold map2. revert l2.
  induction l1 as [|a l1 IH]; intros [|b l2] HR Hlen; simpl in *;
    try discriminate; constructor.
  - apply HR. left. reflexivity.
  - apply IH; [|lia]. intros a' b' Hin. apply HR. right. exact Hin.
Qed.

Lemma positions_app_other (label other : scalar) (cols : list scalar)
      (i : nat) :
  other <> label ->
  positions label (cols ++ [other]) i = positions label cols i.
Proof.
  intros Hne. revert i. induction cols as [|c cols IH]; intros i; simpl.
  - unfold scalar_eqb. rewrite bool_decide_eq_false_2 by exact Hne.
    reflexivity.
  - rewrite IH. reflexivity.
Qed.

(** The columns after [df[label] = values]. *)
Lemma setitem_columns (df : DataFrame) (label : scalar)
      (values : list scalar) :
  columns (setitem df label values)
  = if has_column df label then columns df else (columns df ++ [label])%list.
Proof. unfold setitem. destruct (has_column df label); reflexivity. Qed.

Lemma setitem_length (df : DataFrame) (label : scalar)
      (values : list scalar) :
  length values = length (rows df) ->
  length (rows (setitem df label values)) = length (rows df).
Proof.
  intros Hlen. unfold setitem.
  destruct (has_column df label); cbn [rows]; rewrite map2_length; lia.
Qed.

(** Row by row, the assignment keeps the cells under every other label and
    keeps the rows as wide as the columns. *)
Lemma setitem_others (df : DataFrame) (label : scalar)
      (values : list scalar) :
  well_formed df ->
  length values = length (rows df) ->
  Forall2 (fun row row' =>
             length row' = length (columns (setitem df label values)) /\
             forall other, other <> label ->
               cell_at (columns (setitem df label values)) other row'
               = cell_at (columns df) other row)
          (rows df) (rows (setitem df label values)).
Proof.
  intros Hwf Hlen. unfold well_formed in Hwf. rewrite Forall_forall in Hwf.
  unfold setitem. destruct (has_column df label) eqn:Hhas; cbn [rows columns].
  - apply Forall2_map2_l; [|exact Hlen].
    intros row v Hin. specialize (Hwf row Hin). split.
    + rewrite map2_length. lia.
    + intros other Hne. unfold cell_at.
      destruct (positions other (columns df) 0) as [|i rest] eqn:Hpos;
        [reflexivity|].
      destruct (positions_first _ _ _ _ Hpos) as (Hlt & Hnth & _).
      rewrite nth_error_map2, Hnth.
      destruct (List.nth_error row i); [|reflexivity].
      unfold scalar_eqb. rewrite bool_decide_eq_false_2 by exact Hne.
      reflexivity.
  - apply Forall2_map2_l; [|exact Hlen].
    intros row v Hin. specialize (Hwf row Hin). split.
    + rewrite !length_app. simpl. lia.
    + intros other Hne. unfold cell_at.
      rewrite positions_app_other by congruence.
      destruct (positions other (columns df) 0) as [|i rest] eqn:Hpos;
        [reflexivity|].
      destruct (positions_first _ _ _ _ Hpos) as (Hlt & _ & _).
      apply nth_error_app1. lia.
Qed.

(** ... and puts the values under the label. *)
Lemma setitem_label (df : DataFrame) (label : scalar)
      (values : list scalar) :
  well_formed df ->
  length values = length (rows df) ->
  Forall2 (fun v row' =>
             cell_at (columns (setitem df label values)) label row' = Some v)
          values (rows (setitem df label values)).
Proof.
  intros Hwf Hlen. unfold well_formed in Hwf. rewrite Forall_forall in Hwf.
  unfold setitem. destruct (has_column df label) eqn:Hhas; cbn [rows columns].
  - apply Forall2_map2_r; [|exact Hlen].
    intros row v Hin. specialize (Hwf row Hin). unfold cell_at.
    apply has_column_In in Hhas.
    destruct (positions label (columns df) 0) as [|i rest] eqn:Hpos.
    { apply positions_nil in Hpos. contradiction. }
    destruct (positions_first _ _ _ _ Hpos) as (Hlt & Hnth & _).
    rewrite nth_error_map2, Hnth.
    destruct (List.nth_error row i) eqn:Hrow.
    + unfold scalar_eqb. rewrite bool_decide_eq_true_2 by reflexivity.
      reflexivity.
    + apply nth_error_None in Hrow. lia.
  - apply Forall2_map2_r; [|exact Hlen].
    intros row v Hin. specialize (Hwf row Hin). unfold cell_at.
    assert (Hnot : ~ In label (columns df)).
    { intros Hc. apply has_column_In in Hc. congruence. }
    rewrite positions_app_absent by exact Hnot.
    rewrite nth_error_app2 by lia.
    replace (length (columns df) - length row)%nat with 0%nat by lia.
    reflexivity.
Qed.

Lemma Forall2_transfer {A B : Type} (R : A -> B -> Prop) (Q : A -> Prop)
      (P : B -> Prop) (l : list A) (l' : list B) :
  Forall2 R l l' -> Forall Q l ->
  (forall a b, R a b -> Q a -> P b) ->
  Forall P l'.
Proof.
  intros H HQ HP. induction H as [|a b l l' Hab _ IH]; constructor.
  - apply (HP a b Hab). inversion HQ; assumption.
  - apply IH. inversion HQ; assumption.
Qed.

Lemma Forall2_right {A B : Type} (R : A -> B -> Prop) (P : B -> Prop)
      (l : list A) (l' : list B) :
  Forall2 R l l' -> (forall a b, R a b -> P b) -> Forall P l'.
Proof.
  intros H HP. apply (Forall2_transfer R (fun _ => True) P l l' H).
  - rewrite Forall_forall. auto.
  - intros a b Hab _. apply (HP a b Hab).
Qed.

Lemma setitem_well_formed (df : DataFrame) (label : scalar)
      (values : list scalar) :
  well_formed df ->
  length values = length (rows df) ->
  well_formed (setitem df label values).
Proof.
  intros Hwf Hlen. pose proof (setitem_others df label values Hwf Hlen) as H.
  unfold well_formed. eapply Forall2_right; [exact H|].
  intros row row' [Hl _]. exact Hl.
Qed.

(** *** The lines every script repeats *)

Definition with_year (headers : list scalar) : list scalar :=
  if List.existsb (scalar_eqb (SStr "year")) headers then headers
  else (headers ++ [SStr "year"])%list.

Lemma parse_table_inv (year : Z) (data : list (list scalar))
      (df : DataFrame) :
  parse_table year data = inr df ->
  exists headers rws,
    data = headers :: rws /\
    columns df = with_year headers /\
    well_formed df /\
    length (rows df) = length rws /\
    Forall (fun row => cell df (SStr "year") row = Some (SInt year))
           (rows df) /\
    Forall2 (fun r row =>
               forall other, other <> SStr "year" ->
                 cell df other row
                 = cell_at headers other (pad (length headers) r))
            rws (rows df).
Proof.
  unfold parse_table. destruct data as [|headers rws]; [discriminate|].
  simpl. unfold mbind, result_bind.
  destruct (new_frame rws headers) as [e|df0] eqn:Hnew; [discriminate|].
  unfold mret, result_ret. intros H. inversion H; subst df; clear H.
  destruct (new_frame_inv _ _ _ Hnew) as (Hcols & Hrows & Hwf).
  exists headers, rws. unfold setitem_scalar.
  assert (Hlen : length (List.repeat (SInt year) (length (rows df0)))
                 = length (rows df0)) by apply repeat_length.
  repeat split.
  - rewrite setitem_columns. unfold with_year, has_column. rewrite Hcols.
    reflexivity.
  - apply setitem_well_formed; assumption.
  - rewrite setitem_length by exact Hlen. rewrite Hrows. apply length_map.
  - pose proof (setitem_label df0 (SStr "year") _ Hwf Hlen) as Hl.
    eapply Forall2_transfer; [exact Hl | |].
    + rewrite Forall_forall. intros v Hv. apply repeat_spec in Hv. exact Hv.
    + intros v row Hc Hv. simpl in Hv. subst v. exact Hc.
  - pose proof (setitem_others df0 (SStr "year") _ Hwf Hlen) as Ho.
    rewrite Hrows in Ho at 1. rewrite Hcols in Ho.
    apply Forall2_fmap_l in Ho.
    eapply List.Forall2_impl; [|exact Ho].
    intros r row [_ Hc] other Hne. apply Hc. exact Hne.
Qed.


(** ** The year of a request *)

Fixpoint strip_prefix (p s : string) : option string :=
  match p, s with
  | EmptyString, _ => Some s
  | String a p', String b s' =>
      if Ascii.eqb a b then strip_prefix p' s' else None
  | String _ _, EmptyString => None
  end.

Definition digit_of (c : Ascii.ascii) : option Z :=
  let n := Z.of_nat (Ascii.nat_of_ascii c) in
  if ((48 <=? n) && (n <=? 57))%Z then Some (n - 48) else None.

Fixpoint read_year (s : string) (acc : Z) : option Z :=
  match s with
  | EmptyString => None
  | String c s' =>
      if Ascii.eqb c "/"%char then Some acc
      else match digit_of c with
           | Some d => read_year s' (10 * acc + d)
           | None => None
           end
  end.

(** The year in [https://api.census.gov/data/{year}/...]. *)
Definition url_year (url : string) : option Z :=
  match strip_prefix "https://api.census.gov/data/" url with
  | Some rest => read_year rest 0
  | None => None
  end.

Definition request_years (urls : list string) : list Z :=
  omap url_year urls.

Lemma years_eq :
  years = [2010; 2011; 2012; 2013; 2014; 2015; 2016; 2017; 2018; 2019;
           2020; 2021; 2022; 2023].
Proof. reflexivity. Qed.

Lemma url_year_acs5 (year : Z) (variables geography : string) :
  In year years -> url_year (acs5_url year variables geography) = Some year.
Proof.
  rewrite years_eq. intros H. simpl in H.
  repeat (destruct H as [<-|H]; [vm_compute; reflexivity|]).
  destruct H.
Qed.

Lemma request_years_map (url : Z -> string) (ys : list Z) :
  (forall y, In y ys -> url_year (url y) = Some y) ->
  request_years (List.map url ys) = ys.
Proof.
  induction ys as [|y ys IH]; intros H; simpl; [reflexivity|].
  unfold request_years in *. simpl. rewrite (H y) by (left; reflexivity).
  simpl. f_equal. apply IH. intros y' Hy'. apply H. right. exact Hy'.
Qed.

(** ** Distinct output files *)

Definition file_exists (w : world) (path : string) : bool :=
  bool_decide (is_Some (files w !! path)).

Definition missing (P : per_year) (fs : gmap string file) (year : Z) : bool :=
  negb (bool_decide (is_Some (fs !! py_file P year))).

Section Skipping.

Variable net : string -> response.
Variable os : disk.

(** A loop that skips existing files requests exactly the years whose file
    is missing when the script starts. *)
Lemma run_years_skipping (P : per_year) (ys : list Z)
      (fs : gmap string file) :
  py_skip P = true ->
  NoDup (List.map (py_file P) ys) ->
  snd (run_years net os P ys fs)
  = List.map (py_url P) (List.filter (missing P fs) ys).
Proof.
  intros Hskip. revert fs. induction ys as [|y ys IH]; intros fs Hnd; simpl.
  - reflexivity.
  - inversion Hnd as [|? ? Hnotin Hnd']; subst.
    rewrite IH by exact Hnd'.
    assert (Hext : List.filter (missing P (year_files net os P y fs)) ys
                   = List.filter (missing P fs) ys).
    { apply filter_ext_in. intros y' Hy'. unfold missing.
      rewrite year_files_other; [reflexivity|].
      intros Heq. apply Hnotin. rewrite Heq. apply in_map. exact Hy'. }
    rewrite Hext. unfold year_requests, skipped, missing. rewrite Hskip.
    simpl. destruct (bool_decide (is_Some (fs !! py_file P y))); reflexivity.
Qed.

End Skipping.

Fixpoint distinct (l : list string) : bool :=
  match l with
  | [] => true
  | x :: l' => negb (List.existsb (String.eqb x) l') && distinct l'
  end.

Lemma distinct_NoDup (l : list string) : distinct l = true -> NoDup l.
Proof.
  induction l as [|x l IH]; simpl; intros H; constructor.
  - apply andb_prop in H. destruct H as [H _].
    intros Hin. apply negb_true_iff in H.
    assert (List.existsb (String.eqb x) l = true); [|congruence].
    apply existsb_exists. exists x. split; [exact Hin|].
    apply String.eqb_refl.
  - apply IH. apply andb_prop in H. tauto.
Qed.

Ltac nodup_by_computation :=
  apply distinct_NoDup; vm_compute; reflexivity.

Lemma census_files_distinct : NoDup (List.map census_file years).
Proof. nodup_by_computation. Qed.

Lemma poverty_files_distinct : NoDup (List.map poverty_file years).
Proof. nodup_by_computation. Qed.

Lemma county_files_distinct : NoDup (List.map county_file years).
Proof. nodup_by_computation. Qed.

Lemma commuting_files_distinct : NoDup (List.map commuting_file years).
Proof. nodup_by_computation. Qed.

Lemma language_files_distinct : NoDup (List.map language_file years).
Proof. nodup_by_computation. Qed.

Lemma health_insurance_files_distinct :
  NoDup (List.map health_insurance_file years).
Proof. nodup_by_computation. Qed.

Lemma hispanic_files_distinct :
  NoDup (List.flat_map (fun t => List.map (hispanic_file t) years) tables).
Proof. nodup_by_computation. Qed.


Lemma housing_files_distinct : NoDup (List.map housing_file years).
Proof. nodup_by_computation. Qed.

Lemma arrival_files_distinct : NoDup (List.map arrival_file years).
Proof. nodup_by_computation. Qed.

Definition occupation_outputs (year : Z) : list string :=
  [occupation_file year; industry_file year].

Lemma occupation_files_distinct :
  NoDup (List.flat_map occupation_outputs years).
Proof. nodup_by_computation. Qed.

(** ** What a script leaves behind *)

(** Whether [os.makedirs] returns. *)
Definition started (os : disk) (dir : string) : bool :=
  match makedirs_answer os dir with
  | inr _ => true
  | inl _ => false
  end.

Definition when {A : Type} (b : bool) (l : list A) : list A :=
  if b then l else [].

Section Outcome.

Variable os : disk.
Variable dir : string.
Variable loop : gmap string file -> gmap string file * list string.
Variable script : M unit.
Hypothesis script_runs : runs_as os dir loop script.

(** The only exception that leaves the script is the one of
    [os.makedirs]. *)
Lemma runs_as_result (w : world) : fst (script w) = makedirs_answer os dir.
Proof.
  pose proof (script_runs w) as H.
  destruct (makedirs_answer os dir) as [e|[]].
  - rewrite H. reflexivity.
  - destruct H as [out ->]. reflexivity.
Qed.

Lemma runs_as_files (w : world) :
  files (snd (script w))
  = if started os dir then fst (loop (files w)) else files w.
Proof.
  pose proof (script_runs w) as H. unfold started.
  destruct (makedirs_answer os dir) as [e|u].
  - rewrite H. reflexivity.
  - destruct H as [out ->]. reflexivity.
Qed.

Lemma runs_as_requests (w : world) :
  requests (snd (script w))
  = (requests w ++ when (started os dir) (snd (loop (files w))))%list.
Proof.
  pose proof (script_runs w) as H. unfold started.
  destruct (makedirs_answer os dir) as [e|u].
  - rewrite H. cbn [snd requests when]. rewrite app_nil_r. reflexivity.
  - destruct H as [out ->]. reflexivity.
Qed.

End Outcome.

(** ** The scripts with one request per year *)

Inductive yearly :=
| Census_data | Poverty_data | Housing_data | Year_of_arrival_data
| County_data | Commuting_data | Language_data | Health_insurance_data.

Definition yearly_script (s : yearly) (net : string -> response) (os : disk)
           (irregular : string -> string -> result DataFrame)
           (fos : string -> option float) : M unit :=
  match s with
  | Census_data => download_census_data net os irregular
  | Poverty_data => download_poverty_data net os irregular fos
  | Housing_data => download_housing_data net os irregular fos
  | Year_of_arrival_data => download_year_of_arrival_data net os irregular fos
  | County_data => download_county_data net os irregular
  | Commuting_data => download_commuting_data net os irregular fos
  | Language_data => download_language_data net os irregular fos
  | Health_insurance_data =>
      download_health_insurance_data net os irregular fos
  end.

Definition yearly_loop (s : yearly)
           (irregular : string -> string -> result DataFrame)
           (fos : string -> option float) : per_year :=
  match s with
  | Census_data => census_loop irregular
  | Poverty_data => poverty_loop irregular fos
  | Housing_data => housing_loop irregular fos
  | Year_of_arrival_data => arrival_loop irregular fos
  | County_data => county_loop irregular
  | Commuting_data => commuting_loop irregular fos
  | Language_data => language_loop irregular fos
  | Health_insurance_data => health_insurance_loop irregular fos
  end.

Definition yearly_dir (s : yearly) : string :=
  match s with
  | Census_data => census_dir
  | Poverty_data => poverty_dir
  | Housing_data => housing_dir
  | Year_of_arrival_data => arrival_dir
  | County_data => county_dir
  | Commuting_data => commuting_dir
  | Language_data => language_dir
  | Health_insurance_data => health_insurance_dir
  end.

Definition yearly_url (s : yearly) : Z -> string :=
  match s with
  | Census_data => census_url
  | Poverty_data => poverty_url
  | Housing_data => housing_url
  | Year_of_arrival_data => arrival_url
  | County_data => county_url
  | Commuting_data => commuting_url
  | Language_data => language_url
  | Health_insurance_data => health_insurance_url
  end.

Definition yearly_file (s : yearly) : Z -> string :=
  match s with
  | Census_data => census_file
  | Poverty_data => poverty_file
  | Housing_data => housing_file
  | Year_of_arrival_data => arrival_file
  | County_data => county_file
  | Commuting_data => commuting_file
  | Language_data => language_file
  | Health_insurance_data => health_insurance_file
  end.

(** The scripts that skip the years whose file exists. *)
Definition yearly_skip (s : yearly) : bool :=
  match s with
  | County_data | Commuting_data | Language_data | Health_insurance_data =>
      true
  | _ => false
  end.

(** What the lines of a script do with the matrix of a year. *)
Definition yearly_table (s : yearly) (fos : string -> option float)
  : Z -> list (list scalar) -> result DataFrame :=
  match s with
  | Census_data => census_table
  | Poverty_data => poverty_table fos
  | Housing_data => housing_table fos
  | Year_of_arrival_data => arrival_table fos
  | County_data => county_table
  | Commuting_data => commuting_table fos
  | Language_data => language_table fos
  | Health_insurance_data => health_insurance_table fos
  end.

Lemma yearly_loop_eq (s : yearly)
      (irregular : string -> string -> result DataFrame)
      (fos : string -> option float) :
  yearly_loop s irregular fos
  = mkPerYear (yearly_dir s) (yearly_url s) (yearly_file s)
              (fun year => process irregular (yearly_url s year)
                                   (yearly_table s fos year))
              (yearly_skip s).
Proof. destruct s; reflexivity. Qed.

Lemma yearly_script_run (s : yearly) (net : string -> response) (os : disk)
      (irregular : string -> string -> result DataFrame)
      (fos : string -> option float) :
  runs net os (yearly_loop s irregular fos)
       (yearly_script s net os irregular fos).
Proof.
  destruct s; cbn [yearly_script yearly_loop].
  - apply download_census_data_run.
  - apply download_poverty_data_run.
  - apply download_housing_data_run.
  - apply download_year_of_arrival_data_run.
  - apply download_county_data_run.
  - apply download_commuting_data_run.
  - apply download_language_data_run.
  - apply download_health_insurance_data_run.
Qed.

Lemma yearly_files_distinct (s : yearly) :
  NoDup (List.map (yearly_file s) years).
Proof.
  destruct s; cbn [yearly_file].
  - apply census_files_distinct.
  - apply poverty_files_distinct.
  - apply housing_files_distinct.
  - apply arrival_files_distinct.
  - apply county_files_distinct.
  - apply commuting_files_distinct.
  - apply language_files_distinct.
  - apply health_insurance_files_distinct.
Qed.

Lemma yearly_url_year (s : yearly) (year : Z) :
  In year years -> url_year (yearly_url s year) = Some year.
Proof. destruct s; apply url_year_acs5. Qed.

(** ** Which requests a run makes *)

Lemma NoDup_app_inv {A : Type} (a b : list A) :
  NoDup (a ++ b) ->
  NoDup a /\ NoDup b /\ (forall x, In x a -> ~ In x b).
Proof.
  induction a as [|x a IH]; simpl; intros H.
  - repeat split; [constructor | exact H | tauto].
  - inversion H as [|? ? Hnotin Hnd]; subst.
    destruct (IH Hnd) as (Ha & Hb & Hdisj). repeat split.
    + constructor; [|exact Ha]. intros Hin. apply Hnotin.
      apply in_or_app. left. exact Hin.
    + exact Hb.
    + intros y [<-|Hy] Hyb.
      * apply Hnotin. apply in_or_app. right. exact Hyb.
      * apply (Hdisj y Hy Hyb).
Qed.

Lemma flat_map_ext_in {A B : Type} (f g : A -> list B) (l : list A) :
  (forall a, In a l -> f a = g a) -> List.flat_map f l = List.flat_map g l.
Proof.
  induction l as [|a l IH]; intros H; simpl; [reflexivity|].
  rewrite (H a) by (left; reflexivity).
  rewrite IH by (intros a' Ha'; apply H; right; exact Ha').
  reflexivity.
Qed.

Section NestedLoops.

Variable net : string -> response.
Variable os : disk.
Variable irregular : string -> string -> result DataFrame.
Variable fos : string -> option float.

Lemma run_tables_cons (t : table_info) (ts : list table_info)
      (fs : gmap string file) :
  run_tables net os irregular fos (t :: ts) fs
  = (fst (run_tables net os irregular fos ts
            (fst (run_years net os (hispanic_loop irregular fos t) years
                            fs))),
     (snd (run_years net os (hispanic_loop irregular fos t) years fs)
      ++ snd (run_tables net os irregular fos ts
                (fst (run_years net os (hispanic_loop irregular fos t) years
                                fs))))%list).
Proof. reflexivity. Qed.

Lemma run_tables_other (ts : list table_info) (fs : gmap string file)
      (p : string) :
  ~ In p (List.flat_map (fun t => List.map (hispanic_file t) years) ts) ->
  fst (run_tables net os irregular fos ts fs) !! p = fs !! p.
Proof.
  revert fs. induction ts as [|t ts IH]; intros fs Hp; [reflexivity|].
  rewrite run_tables_cons. cbn [fst]. rewrite IH.
  - apply run_years_other. intros y Hy Heq. apply Hp.
    apply in_flat_map. exists t. split; [left; reflexivity|].
    change (py_file (hispanic_loop irregular fos t) y)
      with (hispanic_file t y) in Heq.
    rewrite <- Heq. apply in_map. exact Hy.
  - intros Hin. apply Hp. apply in_flat_map in Hin.
    destruct Hin as (t' & Ht' & Hin). apply in_flat_map. exists t'.
    split; [right; exact Ht' | exact Hin].
Qed.

(** At the end of the nested loop, the file of a table and a year holds
    what the iteration of that table and year makes of the file the script
    started with. *)
Lemma run_tables_at (ts : list table_info) (fs : gmap string file)
      (t : table_info) (y : Z) :
  In t ts -> In y years ->
  NoDup (List.flat_map (fun t => List.map (hispanic_file t) years) ts) ->
  fst (run_tables net os irregular fos ts fs) !! hispanic_file t y
  = year_files net os (hispanic_loop irregular fos t) y fs
      !! hispanic_file t y.
Proof.
  revert fs. induction ts as [|t' ts IH]; intros fs Ht Hy Hnd; [destruct Ht|].
  cbn [List.flat_map] in Hnd. apply NoDup_app_inv in Hnd.
  destruct Hnd as (Hnd' & Hnds & Hdisj).
  rewrite run_tables_cons. cbn [fst].
  assert (Hhere : In (hispanic_file t y) (List.map (hispanic_file t) years))
    by (apply in_map; exact Hy).
  destruct Ht as [->|Hin].
  - (* the table is the first one *)
    rewrite run_tables_other.
    + apply (run_years_at net os (hispanic_loop irregular fos t) years fs y
               Hy Hnd').
    + intros Hin. apply (Hdisj (hispanic_file t y) Hhere Hin).
  - (* the table comes later: the loop of [t'] leaves its file alone *)
    assert (Hother : forall y0, In y0 years ->
                       hispanic_file t' y0 <> hispanic_file t y).
    { intros y0 Hy0 Heq. apply (Hdisj (hispanic_file t' y0)).
      - apply in_map. exact Hy0.
      - rewrite Heq. apply in_flat_map. exists t. split; assumption. }
    rewrite (IH _ Hin Hy Hnds).
    apply (year_files_agree net os (hispanic_loop irregular fos t) y).
    apply run_years_other. exact Hother.
Qed.

Lemma run_tables_trace (ts : list table_info) (fs : gmap string file) :
  NoDup (List.flat_map (fun t => List.map (hispanic_file t) years) ts) ->
  snd (run_tables net os irregular fos ts fs)
  = List.flat_map
      (fun t => List.map (hispanic_url t)
                  (List.filter (missing (hispanic_loop irregular fos t) fs)
                               years))
      ts.
Proof.
  revert fs. induction ts as [|t ts IH]; intros fs Hnd.
  - reflexivity.
  - cbn [List.flat_map] in Hnd |- *.
    apply NoDup_app_inv in Hnd. destruct Hnd as (Ht & Hts & Hdisj).
    rewrite run_tables_cons. cbn [snd].
    rewrite (IH _ Hts).
    rewrite (run_years_skipping net os (hispanic_loop irregular fos t) years
               fs eq_refl Ht).
    f_equal. apply flat_map_ext_in. intros t' Ht'. f_equal.
    apply filter_ext_in. intros y Hy. unfold missing.
    rewrite run_years_other; [reflexivity|].
    intros y0 Hy0 Heq.
    apply (Hdisj (hispanic_file t y0)).
    + apply in_map. exact Hy0.
    + change (py_file (hispanic_loop irregular fos t) y0)
        with (hispanic_file t y0) in Heq.
      change (py_file (hispanic_loop irregular fos t') y)
        with (hispanic_file t' y) in Heq.
      rewrite Heq. apply in_flat_map. exists t'. split; [exact Ht'|].
      apply in_map. exact Hy.
Qed.

Lemma occupation_requests_cases (year : Z) :
  occupation_requests net year = [occupation_url year] \/
  occupation_requests net year = [occupation_url year; industry_url year].
Proof.
  unfold occupation_requests.
  destruct (net (occupation_url year)) as [|code [data|]]; auto.
  destruct ((400 <=? code) && (code <? 600))%Z; auto.
Qed.

(** *** The files of [download_occupation_industry_data] *)

Lemma occupation_year_files_other (year : Z) (fs : gmap string file)
      (p : string) :
  ~ In p (occupation_outputs year) ->
  occupation_year_files net os irregular fos year fs !! p = fs !! p.
Proof.
  intros Hp. unfold occupation_year_files.
  assert (Hocc : occupation_file year <> p)
    by (intros <-; apply Hp; simpl; tauto).
  assert (Hind : industry_file year <> p)
    by (intros <-; apply Hp; simpl; tauto).
  destruct (occupation_fetched net irregular fos year) as [e|occ_df];
    [reflexivity|].
  destruct (industry_fetched net irregular fos year) as [e|ind_df];
    [reflexivity|].
  destruct (to_csv_answer os (occupation_file year) occ_df) as [|e [f|]].
  - rewrite after_to_csv_other by exact Hind.
    apply lookup_insert_ne. exact Hocc.
  - apply lookup_insert_ne. exact Hocc.
  - reflexivity.
Qed.

Lemma run_occupation_other (ys : list Z) (fs : gmap string file)
      (p : string) :
  ~ In p (List.flat_map occupation_outputs ys) ->
  fst (run_occupation net os irregular fos ys fs) !! p = fs !! p.
Proof.
  revert fs. induction ys as [|y ys IH]; intros fs Hp; [reflexivity|].
  cbn [run_occupation fst]. rewrite IH.
  - apply occupation_year_files_other. intros Hin. apply Hp.
    cbn [List.flat_map]. apply in_or_app. left. exact Hin.
  - intros Hin. apply Hp. cbn [List.flat_map]. apply in_or_app. right.
    exact Hin.
Qed.

(** What one year makes of its two files depends on these files alone. *)
Lemma occupation_year_files_agree (y : Z) (fs fs' : gmap string file)
      (p : string) :
  fs !! p = fs' !! p ->
  occupation_year_files net os irregular fos y fs !! p
  = occupation_year_files net os irregular fos y fs' !! p.
Proof.
  intros H. unfold occupation_year_files, after_to_csv.
  destruct (occupation_fetched net irregular fos y) as [e|occ_df];
    [exact H|].
  destruct (industry_fetched net irregular fos y) as [e|ind_df];
    [exact H|].
  destruct (to_csv_answer os (occupation_file y) occ_df) as [|e [f|]];
    [| apply insert_agree; exact H | exact H].
  destruct (to_csv_answer os (industry_file y) ind_df) as [|e [f|]];
    repeat apply insert_agree; exact H.
Qed.

Lemma run_occupation_at (ys : list Z) (fs : gmap string file) (y : Z)
      (p : string) :
  In y ys ->
  In p (occupation_outputs y) ->
  NoDup (List.flat_map occupation_outputs ys) ->
  fst (run_occupation net os irregular fos ys fs) !! p
  = occupation_year_files net os irregular fos y fs !! p.
Proof.
  revert fs.
  induction ys as [|y' ys IH]; intros fs Hin Hp Hnd; [destruct Hin|].
  cbn [List.flat_map] in Hnd. apply NoDup_app_inv in Hnd.
  destruct Hnd as (Hy' & Hys & Hdisj). cbn [run_occupation fst].
  destruct (decide (y' = y)) as [->|Hne].
  - apply run_occupation_other. intros Hrest. apply (Hdisj p Hp Hrest).
  - destruct Hin as [Heq|Hin]; [contradiction|].
    rewrite (IH _ Hin Hp Hys).
    apply occupation_year_files_agree.
    apply occupation_year_files_other.
    intros Hin'. apply (Hdisj p Hin'). apply in_flat_map. exists y.
    split; assumption.
Qed.

End NestedLoops.

(** C7, as the code has it.  A Census download script that cannot make its
    output directory stops before its first request.  Otherwise it walks the
    fixed range 2010..2023 in increasing order.  The scripts that fetch one
    table issue one request per year, and those that check for their output
    file first issue it only for the years whose file is missing;
    [download_occupation_industry_data] issues one or two requests per year
    (occupation, then industry unless the first answer was an error or was
    not JSON) and [download_hispanic_comparison_data] walks the range once
    for each of its four tables.  Every URL names its year. *)
Theorem requests_walk_the_year_range
        (net : string -> response) (os : disk)
        (irregular : string -> string -> result DataFrame)
        (fos : string -> option float) (w : world) :
  let fresh (file : Z -> string) :=
    List.filter (fun y => negb (file_exists w (file y))) years in
  let made (dir : string) (urls : list string) :=
    when (started os dir) urls in
  requests (snd (download_census_data net os irregular w))
  = (requests w ++ made census_dir (List.map census_url years))%list /\
  requests (snd (download_poverty_data net os irregular fos w))
  = (requests w ++ made poverty_dir (List.map poverty_url years))%list /\
  requests (snd (download_housing_data net os irregular fos w))
  = (requests w ++ made housing_dir (List.map housing_url years))%list /\
  requests (snd (download_year_of_arrival_data net os irregular fos w))
  = (requests w ++ made arrival_dir (List.map arrival_url years))%list /\
  requests (snd (download_county_data net os irregular w))
  = (requests w
     ++ made county_dir (List.map county_url (fresh county_file)))%list /\
  requests (snd (download_commuting_data net os irregular fos w))
  = (requests w
     ++ made commuting_dir
          (List.map commuting_url (fresh commuting_file)))%list /\
  requests (snd (download_language_data net os irregular fos w))
  = (requests w
     ++ made language_dir (List.map language_url (fresh language_file)))%list /\
  requests (snd (download_health_insurance_data net os irregular fos w))
  = (requests w
     ++ made health_insurance_dir
          (List.map health_insurance_url
                    (fresh health_insurance_file)))%list /\
  requests (snd (download_occupation_industry_data net os irregular fos w))
  = (requests w
     ++ made occupation_industry_dir
          (List.flat_map (occupation_requests net) years))%list /\
  (forall year,
     occupation_requests net year = [occupation_url year] \/
     occupation_requests net year
     = [occupation_url year; industry_url year]) /\
  requests (snd (download_hispanic_comparison_data net os irregular fos w))
  = (requests w
     ++ made hispanic_dir
          (List.flat_map
             (fun t => List.map (hispanic_url t) (fresh (hispanic_file t)))
             tables))%list /\
  (forall year variables geography,
     In year years ->
     url_year (acs5_url year variables geography) = Some year).
Proof.
  intros fresh made. unfold made. repeat split.
  - rewrite (runs_as_requests _ _ _ _ (download_census_data_run _ _ _)).
    cbn [py_dir census_loop].
    rewrite run_years_not_skipping by reflexivity. reflexivity.
  - rewrite (runs_as_requests _ _ _ _ (download_poverty_data_run _ _ _ _)).
    cbn [py_dir poverty_loop].
    rewrite run_years_not_skipping by reflexivity. reflexivity.
  - rewrite (runs_as_requests _ _ _ _ (download_housing_data_run _ _ _ _)).
    cbn [py_dir housing_loop].
    rewrite run_years_not_skipping by reflexivity. reflexivity.
  - rewrite (runs_as_requests _ _ _ _
               (download_year_of_arrival_data_run _ _ _ _)).
    cbn [py_dir arrival_loop].
    rewrite run_years_not_skipping by reflexivity. reflexivity.
  - rewrite (runs_as_requests _ _ _ _ (download_county_data_run _ _ _)).
    cbn [py_dir county_loop].
    rewrite (run_years_skipping net os (county_loop irregular) years (files w)
               eq_refl county_files_distinct).
    reflexivity.
  - rewrite (runs_as_requests _ _ _ _ (download_commuting_data_run _ _ _ _)).
    cbn [py_dir commuting_loop].
    rewrite (run_years_skipping net os (commuting_loop irregular fos) years
               (files w) eq_refl commuting_files_distinct).
    reflexivity.
  - rewrite (runs_as_requests _ _ _ _ (download_language_data_run _ _ _ _)).
    cbn [py_dir language_loop].
    rewrite (run_years_skipping net os (language_loop irregular fos) years
               (files w) eq_refl language_files_distinct).
    reflexivity.
  - rewrite (runs_as_requests _ _ _ _
               (download_health_insurance_data_run _ _ _ _)).
    cbn [py_dir health_insurance_loop].
    rewrite (run_years_skipping net os (health_insurance_loop irregular fos)
               years (files w) eq_refl health_insurance_files_distinct).
    reflexivity.
  - rewrite (runs_as_requests _ _ _ _
               (download_occupation_industry_data_run _ _ _ _)).
    rewrite run_occupation_requests. reflexivity.
  - apply occupation_requests_cases.
  - rewrite (runs_as_requests _ _ _ _
               (download_hispanic_comparison_data_run _ _ _ _)).
    rewrite run_tables_trace by apply hispanic_files_distinct.
    reflexivity.
  - intros year variables geography. apply url_year_acs5.
Qed.

(** ** Sample server, file system and world *)

Definition empty_world : world := mkWorld ∅ [] [].

Definition no_numbers (s : string) : option float := None.

(** A server that answers every request with two states. *)
Definition two_states : list (list scalar) :=
  [[SStr "NAME"; SStr "B03001_005E"; SStr "state"];
   [SStr "Alabama"; SStr "12225"; SStr "01"];
   [SStr "Alaska"; SStr "4000"; SStr "02"]].

Definition serve (data : list (list scalar)) (url : string) : response :=
  Response 200 (Some (JMatrix data)).

(** A file system that makes every directory and writes every file. *)
Definition sound_disk : disk :=
  mkDisk (fun _ => inr tt) (fun _ _ => Written).

(** pandas finding no table in a JSON value that is not a matrix. *)
Definition rejected (url text : string) : result DataFrame := inl ValueError.

(** The claim "strictly increasing years, at most one request per year". *)
Definition one_request_per_year (urls : list string) : Prop :=
  StronglySorted Z.lt (request_years urls).

Example census_one_request_per_year :
  one_request_per_year
    (requests (snd (download_census_data (serve two_states) sound_disk
                                         rejected empty_world))).
Proof.
  unfold one_request_per_year. vm_compute.
  repeat (constructor; [|repeat constructor]). constructor.
Qed.

(** C7, as stated, fails: [download_occupation_industry_data] requests two
    tables for each year. *)
Lemma occupation_two_requests_per_year :
  ~ one_request_per_year
      (requests (snd (download_occupation_industry_data
                        (serve two_states) sound_disk rejected no_numbers
                        empty_world))).
Proof.
  unfold one_request_per_year. vm_compute. intros H.
  inversion H as [|? ? _ Hall]; subst.
  inversion Hall as [|? ? Hlt _]; subst.
  discriminate Hlt.
Qed.

(** A server that answers with a JSON object.  [response.json()] returns
    it, so that the industry table is requested before [occ_data[0]] is
    asked for. *)
Definition an_object (url : string) : response :=
  Response 200 (Some (JOther "{}")).

Example two_requests_after_an_object :
  occupation_requests an_object 2010
  = [occupation_url 2010; industry_url 2010].
Proof. reflexivity. Qed.

(** ** Years that are already downloaded *)

Inductive resumable := County | Commuting | Language | HealthInsurance.

Definition resumable_script (s : resumable) (net : string -> response)
           (os : disk) (irregular : string -> string -> result DataFrame)
           (fos : string -> option float) : M unit :=
  match s with
  | County => download_county_data net os irregular
  | Commuting => download_commuting_data net os irregular fos
  | Language => download_language_data net os irregular fos
  | HealthInsurance => download_health_insurance_data net os irregular fos
  end.

Definition resumable_loop (s : resumable)
           (irregular : string -> string -> result DataFrame)
           (fos : string -> option float) : per_year :=
  match s with
  | County => county_loop irregular
  | Commuting => commuting_loop irregular fos
  | Language => language_loop irregular fos
  | HealthInsurance => health_insurance_loop irregular fos
  end.

Definition resumable_dir (s : resumable) : string :=
  match s with
  | County => county_dir
  | Commuting => commuting_dir
  | Language => language_dir
  | HealthInsurance => health_insurance_dir
  end.

Definition resumable_file (s : resumable) : Z -> string :=
  match s with
  | County => county_file
  | Commuting => commuting_file
  | Language => language_file
  | HealthInsurance => health_insurance_file
  end.

Definition resumable_url (s : resumable) : Z -> string :=
  match s with
  | County => county_url
  | Commuting => commuting_url
  | Language => language_url
  | HealthInsurance => health_insurance_url
  end.

Lemma resumable_script_run (s : resumable) (net : string -> response)
      (os : disk) (irregular : string -> string -> result DataFrame)
      (fos : string -> option float) :
  runs net os (resumable_loop s irregular fos)
       (resumable_script s net os irregular fos).
Proof.
  destruct s; cbn [resumable_script resumable_loop].
  - apply download_county_data_run.
  - apply download_commuting_data_run.
  - apply download_language_data_run.
  - apply download_health_insurance_data_run.
Qed.

Lemma resumable_loop_file (s : resumable)
      (irregular : string -> string -> result DataFrame)
      (fos : string -> option float) :
  py_file (resumable_loop s irregular fos) = resumable_file s /\
  py_url (resumable_loop s irregular fos) = resumable_url s /\
  py_skip (resumable_loop s irregular fos) = true /\
  py_dir (resumable_loop s irregular fos) = resumable_dir s.
Proof. destruct s; repeat split. Qed.

Lemma resumable_url_year (s : resumable) (year : Z) :
  In year years -> url_year (resumable_url s year) = Some year.
Proof. destruct s; apply url_year_acs5. Qed.

Lemma resumable_files_distinct (s : resumable) :
  NoDup (List.map (resumable_file s) years).
Proof.
  destruct s;
    [ apply county_files_distinct | apply commuting_files_distinct
    | apply language_files_distinct | apply health_insurance_files_distinct ].
Qed.

(** C9.  In the county, commuting, language and health-insurance downloads,
    a year whose output file exists when the script starts keeps its file
    as it is, and no request is made for that year, whatever the server and
    the file system do.  The script raises nothing but what [os.makedirs]
    raises. *)
Theorem existing_year_is_left_alone
        (s : resumable) (net : string -> response) (os : disk)
        (irregular : string -> string -> result DataFrame)
        (fos : string -> option float) (w : world) (year : Z) (c : file) :
  In year years ->
  files w !! resumable_file s year = Some c ->
  let w' := snd (resumable_script s net os irregular fos w) in
  fst (resumable_script s net os irregular fos w)
  = makedirs_answer os (resumable_dir s) /\
  files w' !! resumable_file s year = Some c /\
  exists new,
    requests w' = (requests w ++ new)%list /\
    ~ In (resumable_url s year) new /\
    ~ In year (request_years new).
Proof.
  intros Hyear Hfile.
  pose proof (resumable_script_run s net os irregular fos) as Hrun.
  destruct (resumable_loop_file s irregular fos) as (Hf & Hu & Hskip & Hd).
  unfold runs in Hrun. rewrite Hd in Hrun.
  cbv zeta. split; [|split].
  - apply (runs_as_result _ _ _ _ Hrun).
  - rewrite (runs_as_files _ _ _ _ Hrun).
    destruct (started os (resumable_dir s)); [|exact Hfile].
    rewrite <- Hf. apply run_years_keeps; [exact Hskip|].
    rewrite Hf. exact Hfile.
  - eexists. split; [apply (runs_as_requests _ _ _ _ Hrun)|].
    destruct (started os (resumable_dir s)); cbn [when];
      [|split; intros []].
    rewrite run_years_skipping;
      [| exact Hskip | rewrite Hf; apply resumable_files_distinct].
    rewrite Hu.
    assert (Hnot : ~ In year
               (List.filter (missing (resumable_loop s irregular fos)
                                     (files w)) years)).
    { intros Hin. apply filter_In in Hin. destruct Hin as [_ Hm].
      unfold missing in Hm. rewrite Hf in Hm.
      rewrite bool_decide_eq_true_2 in Hm by (rewrite Hfile; eauto).
      discriminate. }
    split.
    + intros Hin. apply in_map_iff in Hin. destruct Hin as (y & Heq & Hy).
      assert (Hy' : In y years) by (apply filter_In in Hy; tauto).
      assert (y = year); [|subst; contradiction].
      pose proof (resumable_url_year s y Hy') as H1.
      pose proof (resumable_url_year s year Hyear) as H2.
      rewrite Heq in H1. congruence.
    + rewrite request_years_map; [exact Hnot|].
      intros y Hy. apply resumable_url_year.
      apply filter_In in Hy. tauto.
Qed.

Definition world_with_county_2012 : world :=
  mkWorld {[ county_file 2012 := CsvFile (mkFrame [SStr "NAME"] []) ]} [] [].

Lemma existing_year_is_left_alone_witness :
  let w' := snd (resumable_script County (serve two_states) sound_disk
                                  rejected no_numbers
                                  world_with_county_2012) in
  fst (resumable_script County (serve two_states) sound_disk rejected
                        no_numbers world_with_county_2012)
  = makedirs_answer sound_disk (resumable_dir County) /\
  files w' !! resumable_file County 2012
  = Some (CsvFile (mkFrame [SStr "NAME"] [])) /\
  exists new,
    requests w' = (requests world_with_county_2012 ++ new)%list /\
    ~ In (resumable_url County 2012) new /\
    ~ In 2012 (request_years new).
Proof.
  apply (existing_year_is_left_alone County (serve two_states) sound_disk
           rejected no_numbers world_with_county_2012 2012).
  - vm_compute. tauto.
  - vm_compute. reflexivity.
Defined.

(** ** Failures inside one year *)

(** No exception leaves the loop of [download_census_data], whatever the
    server does: the script raises what [os.makedirs] raises, and nothing
    else. *)
Lemma download_census_data_loop_never_raises (net : string -> response)
      (os : disk) (irregular : string -> string -> result DataFrame)
      (w : world) :
  fst (download_census_data net os irregular w)
  = makedirs_answer os census_dir.
Proof.
  apply (runs_as_result _ _ _ _ (download_census_data_run net os irregular)).
Qed.

(** A year whose request or processing fails changes no file. *)
Lemma failed_year_changes_no_file (net : string -> response) (os : disk)
      (P : per_year) (year : Z) (fs : gmap string file) (e : exn) :
  fetch_result net (py_url P year) (py_table P year) = inl e ->
  year_files net os P year fs = fs.
Proof. apply year_files_failed. Qed.

(** When every request of [download_census_data] fails, the files are those
    the script started with. *)
Lemma download_census_data_all_failed (net : string -> response)
      (os : disk) (irregular : string -> string -> result DataFrame)
      (w : world) :
  (forall year, In year years ->
     exists e, fetch_result net (census_url year)
                 (process irregular (census_url year) (census_table year))
               = inl e) ->
  files (snd (download_census_data net os irregular w)) = files w.
Proof.
  intros Hfail.
  rewrite (runs_as_files _ _ _ _ (download_census_data_run net os irregular)).
  destruct (started os (py_dir (census_loop irregular))); [|reflexivity].
  generalize (files w). revert Hfail.
  generalize years. intros ys. induction ys as [|y ys IH]; intros Hfail fs.
  - reflexivity.
  - simpl. destruct (Hfail y (or_introl eq_refl)) as [e He].
    rewrite (year_files_failed net os (census_loop irregular) y fs e He).
    apply IH. intros y' Hy'. apply Hfail. right. exact Hy'.
Qed.

(** ** What a successful year writes *)

Lemma fetch_result_ok (net : string -> response) (url : string)
      (process : json_value -> result DataFrame) (code : Z)
      (data : json_value) :
  net url = Response code (Some data) ->
  ((400 <=? code) && (code <? 600))%Z = false ->
  fetch_result net url process = process data.
Proof. intros Hnet Hcode. unfold fetch_result. rewrite Hnet, Hcode. reflexivity. Qed.

(** [df'] has as many rows as [df], with the same cells under the labels
    that satisfy [P]. *)
Definition keeps (P : scalar -> Prop) (df df' : DataFrame) : Prop :=
  Forall2 (fun row row' =>
             forall label, P label -> cell df' label row' = cell df label row)
          (rows df) (rows df').

Lemma keeps_length (P : scalar -> Prop) (df df' : DataFrame) :
  keeps P df df' -> length (rows df') = length (rows df).
Proof. intros H. symmetry. apply (Forall2_length H). Qed.

Lemma keeps_weaken (P Q : scalar -> Prop) (df df' : DataFrame) :
  (forall label, Q label -> P label) -> keeps P df df' -> keeps Q df df'.
Proof.
  intros HQ H. unfold keeps. eapply List.Forall2_impl; [|exact H].
  intros row row' Hc label Hl. apply Hc. apply HQ. exact Hl.
Qed.

Lemma keeps_trans (P : scalar -> Prop) (df1 df2 df3 : DataFrame) :
  keeps P df1 df2 -> keeps P df2 df3 -> keeps P df1 df3.
Proof.
  unfold keeps. generalize (rows df1) (rows df2) (rows df3).
  intros l1 l2 l3 H12. revert l3.
  induction H12 as [|a b l1 l2 Hab _ IH]; intros l3 H23;
    inversion H23 as [|? c ? ? Hbc Hrest]; subst; constructor.
  - intros label Hl. rewrite (Hbc label Hl). apply Hab. exact Hl.
  - apply IH. exact Hrest.
Qed.

Lemma keeps_Forall (P : scalar -> Prop) (df df' : DataFrame)
      (label v : scalar) :
  P label ->
  keeps P df df' ->
  Forall (fun row => cell df label row = Some v) (rows df) ->
  Forall (fun row => cell df' label row = Some v) (rows df').
Proof.
  intros Hl Hk Hall. eapply Forall2_transfer; [exact Hk | exact Hall |].
  intros row row' Heq Hrow. simpl in *. rewrite (Heq label Hl). exact Hrow.
Qed.

Lemma setitem_keeps (df : DataFrame) (label : scalar)
      (values : list scalar) :
  well_formed df ->
  length values = length (rows df) ->
  keeps (fun other => other <> label) df (setitem df label values).
Proof.
  intros Hwf Hlen. unfold keeps.
  eapply List.Forall2_impl; [|exact (setitem_others df label values Hwf Hlen)].
  intros row row' [_ Hc] other Hne. rewrite !cell_cell_at. apply Hc. exact Hne.
Qed.

Lemma getitem_inv (df : DataFrame) (label : scalar) (series : list scalar) :
  getitem df label = inr series ->
  has_column df label = true /\ length series = length (rows df).
Proof.
  unfold getitem.
  destruct (positions label (columns df) 0) as [|i [|j rest]] eqn:Hpos;
    try discriminate.
  intros H. inversion H; subst; clear H. split; [|apply length_map].
  destruct (has_column df label) eqn:Hhas; [reflexivity|].
  assert (Hnot : ~ In label (columns df)).
  { intros Hin. apply has_column_In in Hin. congruence. }
  apply (positions_nil label (columns df) 0%nat) in Hnot. congruence.
Qed.

Lemma numeric_column_inv (fos : string -> option float) (df df' : DataFrame)
      (col : scalar) :
  well_formed df ->
  numeric_column fos df col = inr df' ->
  columns df' = columns df /\ well_formed df' /\
  keeps (fun other => other <> col) df df'.
Proof.
  intros Hwf. unfold numeric_column, mbind, result_bind.
  destruct (getitem df col) as [e|series] eqn:Hget; [discriminate|].
  unfold mret, result_ret. intros H. inversion H; subst df'; clear H.
  destruct (getitem_inv _ _ _ Hget) as [Hhas Hlen].
  assert (Hlen' : length (to_numeric fos series) = length (rows df)).
  { unfold to_numeric. rewrite length_map. exact Hlen. }
  repeat split.
  - rewrite setitem_columns, Hhas. reflexivity.
  - apply setitem_well_formed; assumption.
  - apply setitem_keeps; assumption.
Qed.

(** The columns once [label] has been assigned. *)
Definition with_column (label : scalar) (cols : list scalar) : list scalar :=
  if List.existsb (scalar_eqb label) cols then cols
  else (cols ++ [label])%list.

Lemma with_year_with_column (headers : list scalar) :
  with_year headers = with_column (SStr "year") headers.
Proof. reflexivity. Qed.

Lemma rate_column_inv (df df' : DataFrame) (rate num den : string) :
  well_formed df ->
  rate_column df rate num den = inr df' ->
  columns df' = with_column (SStr rate) (columns df) /\ well_formed df' /\
  keeps (fun other => other <> SStr rate) df df'.
Proof.
  intros Hwf. unfold rate_column, mbind, result_bind.
  destruct (getitem df (SStr num)) as [e|n] eqn:Hn; [discriminate|].
  destruct (getitem df (SStr den)) as [e|d] eqn:Hd; [discriminate|].
  unfold mret, result_ret. intros H. inversion H; subst df'; clear H.
  destruct (getitem_inv _ _ _ Hn) as [_ Hln].
  destruct (getitem_inv _ _ _ Hd) as [_ Hld].
  assert (Hlen : length (series_pct_rate n d) = length (rows df)).
  { unfold series_pct_rate. rewrite map2_length. lia. }
  repeat split.
  - apply setitem_columns.
  - apply setitem_well_formed; assumption.
  - apply setitem_keeps; assumption.
Qed.

(** The name of a column after [df.rename(columns=mapping)]. *)
Definition new_name (mapping : list (string * string)) (c : scalar) : scalar :=
  match assoc c mapping with
  | Some c' => SStr c'
  | None => c
  end.

Lemma rename_columns (df : DataFrame) (mapping : list (string * string)) :
  columns (rename df mapping) = List.map (new_name mapping) (columns df).
Proof. reflexivity. Qed.

Lemma assoc_In (c : scalar) (mapping : list (string * string)) (v : string) :
  assoc c mapping = Some v -> exists k, In (k, v) mapping.
Proof.
  induction mapping as [|[k v'] m IH]; simpl; [discriminate|].
  destruct (scalar_eqb c (SStr k)).
  - intros H. inversion H; subst. exists k. left. reflexivity.
  - intros H. destruct (IH H) as [k' Hk']. exists k'. right. exact Hk'.
Qed.

Lemma positions_map (label : scalar) (f : scalar -> scalar)
      (cols : list scalar) (i : nat) :
  (forall c, f c = label <-> c = label) ->
  positions label (List.map f cols) i = positions label cols i.
Proof.
  intros Hf. revert i. induction cols as [|c cols IH]; intros i; simpl;
    [reflexivity|].
  rewrite IH. unfold scalar_eqb.
  destruct (bool_decide_reflect (f c = label)) as [H|H];
    destruct (bool_decide_reflect (c = label)) as [H'|H'];
    try reflexivity; exfalso.
  - apply H'. apply Hf. exact H.
  - apply H. apply Hf. exact H'.
Qed.

(** Renaming keeps the cells under a label that is neither renamed nor the
    new name of another column. *)
Lemma rename_keeps (df : DataFrame) (mapping : list (string * string)) :
  keeps (fun label => assoc label mapping = None /\
                      Forall (fun kv => SStr (snd kv) <> label) mapping)
        df (rename df mapping).
Proof.
  unfold keeps. cbn [rows rename].
  induction (rows df) as [|row l IH]; constructor; [|exact IH].
  intros label [Hnone Hnew]. unfold cell. rewrite rename_columns.
  rewrite positions_map; [reflexivity|].
  intros c. unfold new_name. split.
  - destruct (assoc c mapping) as [c'|] eqn:Hc; [|auto].
    intros Heq. destruct (assoc_In _ _ _ Hc) as [k Hk].
    rewrite Forall_forall in Hnew. specialize (Hnew _ Hk). simpl in Hnew.
    contradiction.
  - intros ->. rewrite Hnone. reflexivity.
Qed.

(** The rows of [df] are the rows of the JSON matrix, as far as the labels
    that satisfy [P] are concerned. *)
Definition from_json (P : scalar -> Prop) (headers : list scalar)
           (rws : list (list scalar)) (df : DataFrame) : Prop :=
  Forall2 (fun r row =>
             forall label, P label ->
               cell df label row
               = cell_at headers label (pad (length headers) r))
          rws (rows df).

Lemma from_json_keeps (P : scalar -> Prop) (headers : list scalar)
      (rws : list (list scalar)) (df df' : DataFrame) :
  from_json P headers rws df -> keeps P df df' -> from_json P headers rws df'.
Proof.
  unfold from_json, keeps. generalize (rows df) (rows df').
  intros l l' H. revert l'.
  induction H as [|r row rws l Hr _ IH]; intros l' Hk;
    inversion Hk as [|? row' ? ? Hrow Hrest]; subst; constructor.
  - intros label Hl. rewrite (Hrow label Hl). apply Hr. exact Hl.
  - apply IH. exact Hrest.
Qed.

Lemma parse_table_from_json (year : Z) (headers : list scalar)
      (rws : list (list scalar)) (df : DataFrame) :
  parse_table year (headers :: rws) = inr df ->
  columns df = with_year headers /\
  well_formed df /\
  Forall (fun row => cell df (SStr "year") row = Some (SInt year)) (rows df) /\
  from_json (fun label => label <> SStr "year") headers rws df.
Proof.
  intros H. destruct (parse_table_inv _ _ _ H)
    as (headers' & rws' & Hdata & Hcols & Hwf & _ & Hyear & Hother).
  inversion Hdata; subst headers' rws'. auto.
Qed.

(** The labels no line of [download_poverty_data] assigns or renames. *)
Definition poverty_untouched (label : scalar) : Prop :=
  label <> SStr "B17001_001E" /\ label <> SStr "B17001_002E" /\
  label <> SStr "poverty_rate" /\ label <> SStr "total_population" /\
  label <> SStr "below_poverty_level".

Definition poverty_names : list (string * string) :=
  [("B17001_001E", "total_population");
   ("B17001_002E", "below_poverty_level")].

Lemma poverty_table_inv (fos : string -> option float) (year : Z)
      (headers : list scalar) (rws : list (list scalar)) (df : DataFrame) :
  poverty_table fos year (headers :: rws) = inr df ->
  columns df
  = List.map (new_name poverty_names)
      (with_column (SStr "poverty_rate") (with_year headers)) /\
  length (rows df) = length rws /\
  Forall (fun row => cell df (SStr "year") row = Some (SInt year)) (rows df) /\
  from_json (fun label => poverty_untouched label /\ label <> SStr "year")
            headers rws df.
Proof.
  unfold poverty_table, mbind, result_bind.
  destruct (parse_table year (headers :: rws)) as [e|df0] eqn:H0;
    [discriminate|].
  destruct (numeric_column fos df0 (SStr "B17001_001E")) as [e|df1] eqn:H1;
    [discriminate|].
  destruct (numeric_column fos df1 (SStr "B17001_002E")) as [e|df2] eqn:H2;
    [discriminate|].
  destruct (rate_column df2 "poverty_rate" "B17001_002E" "B17001_001E")
    as [e|df3] eqn:H3; [discriminate|].
  unfold mret, result_ret. intros H. inversion H; subst df; clear H.
  destruct (parse_table_from_json _ _ _ _ H0) as (Hc0 & Hwf0 & Hy0 & Hj0).
  destruct (numeric_column_inv _ _ _ _ Hwf0 H1) as (Hc1 & Hwf1 & Hk1).
  destruct (numeric_column_inv _ _ _ _ Hwf1 H2) as (Hc2 & Hwf2 & Hk2).
  destruct (rate_column_inv _ _ _ _ _ Hwf2 H3) as (Hc3 & Hwf3 & Hk3).
  pose proof (rename_keeps df3 poverty_names) as Hk4.
  fold poverty_names.
  assert (Hk : keeps poverty_untouched df0 (rename df3 poverty_names)).
  { apply keeps_trans with df3; [apply keeps_trans with df2;
      [apply keeps_trans with df1|]|].
    - eapply keeps_weaken; [|exact Hk1]. unfold poverty_untouched. tauto.
    - eapply keeps_weaken; [|exact Hk2]. unfold poverty_untouched. tauto.
    - eapply keeps_weaken; [|exact Hk3]. unfold poverty_untouched. tauto.
    - eapply keeps_weaken; [|exact Hk4].
      intros label (Ha & Hb & _ & Hd & He). split.
      + simpl. unfold scalar_eqb.
        rewrite !bool_decide_eq_false_2 by assumption. reflexivity.
      + repeat constructor; simpl; congruence. }
  repeat split.
  - rewrite rename_columns, Hc3, Hc2, Hc1, Hc0. reflexivity.
  - rewrite (keeps_length _ _ _ Hk).
    destruct (parse_table_inv _ _ _ H0)
      as (headers' & rws' & Hdata & _ & _ & Hlen & _).
    inversion Hdata; subst. exact Hlen.
  - apply (keeps_Forall poverty_untouched df0); [|exact Hk|exact Hy0].
    unfold poverty_untouched. repeat split; discriminate.
  - apply from_json_keeps with df0.
    + unfold from_json in *. eapply List.Forall2_impl; [|exact Hj0].
      intros r row Hr label [_ Hl]. apply Hr. exact Hl.
    + eapply keeps_weaken; [|exact Hk]. tauto.
Qed.

(** ** Sample responses *)

Fixpoint read_digits (s : string) (acc : Z) : option Z :=
  match s with
  | EmptyString => Some acc
  | String c s' =>
      match digit_of c with
      | Some d => read_digits s' (10 * acc + d)
      | None => None
      end
  end.

(** Python's [float] on the strings of digits. *)
Definition whole_numbers (s : string) : option float :=
  match s with
  | EmptyString => None
  | _ => option_map of_Z (read_digits s 0)
  end.

Definition poverty_sample : list (list scalar) :=
  [[SStr "NAME"; SStr "B17001_001E"; SStr "B17001_002E"; SStr "state"];
   [SStr "Alabama"; SStr "4000"; SStr "1000"; SStr "01"];
   [SStr "Alaska"; SStr "600"; SStr "60"; SStr "02"]].

(** A server that repeats a state in its answer. *)
Definition repeated_state : list (list scalar) :=
  [[SStr "NAME"; SStr "B03001_005E"; SStr "state"];
   [SStr "Alabama"; SStr "12225"; SStr "01"];
   [SStr "Alabama"; SStr "12225"; SStr "01"]].

Definition two_counties : list (list scalar) :=
  [[SStr "NAME"; SStr "B03001_005E"; SStr "state"; SStr "county"];
   [SStr "Autauga County, Alabama"; SStr "120"; SStr "01"; SStr "001"];
   [SStr "Baldwin County, Alabama"; SStr "900"; SStr "01"; SStr "003"]].

End Download.

(* ===================================================================== *)
(** * The IPUMS download script                                           *)
(* ===================================================================== *)

Module Ipums.

Import Frame Py.
Local Open Scope Z_scope.
Local Open Scope string_scope.

(** What the body of a loop asks of the function around it: to go on with
    the next iteration (the end of the body, or [continue]), or to leave
    the function ([return]). *)
Inductive flow := Next | Return.

(** [for x in xs: body x], where the body may [return]. *)
Fixpoint for_each_flow {A : Type} (xs : list A) (body : A -> M flow)
  : M unit :=
  match xs with
  | [] => mret tt
  | x :: xs' =>
      body x ≫= fun f : flow =>
      match f with
      | Next => for_each_flow xs' body
      | Return => mret tt
      end
  end.

Section Script.

(** [os.getenv('IPUMS_API_KEY', 'YOUR_API_KEY_HERE')] *)
Variable API_KEY : string.

(** The IPUMS service: the extract id or the exception that answers the
    submission of the extract of a year; the status of that extract after
    the script has waited for some seconds; the outcome of its download. *)
Variable submit_answer : Z -> result string.
Variable status_answer : Z -> Z -> result string.
Variable download_answer : Z -> result unit.

(** [process_ipums_data(download_path, year, output_dir)], which reads the
    downloaded files and writes the table of the year. *)
Variable process_ipums_data : string -> Z -> string -> M unit.

Definition call (name : string) (year : Z) : string :=
  name ++ " " ++ pretty year.

(** A call of the client: it is logged, and returns or raises. *)
Definition api_call {A : Type} (name : string) (year : Z) (answer : result A)
  : M A := fun w =>
  (answer,
   mkWorld (files w) (stdout w) (requests w ++ [call name year])%list).

(** [ipums.submit_extract(extract)], [extract.extract_id] *)
Definition submit_extract (year : Z) : M string :=
  api_call "submit_extract" year (submit_answer year).

(** [ipums.extract_status(extract)] *)
Definition extract_status (year wait_time : Z) : M string :=
  api_call "extract_status" year (status_answer year wait_time).

(** [ipums.download_extract(extract, download_dir=download_path)] *)
Definition download_extract (year : Z) : M unit :=
  api_call "download_extract" year (download_answer year).

Definition output_dir : string := "data/ipums_historical".

Definition max_wait : Z := 300.

(** [while wait_time < max_wait: ...]: the loop ends with [wait_time] and
    either falls through to the lines after it (the condition is false, or
    [break]) or leaves the function ([return]). *)
Fixpoint wait_loop (fuel : nat) (year wait_time : Z) : M (flow * Z) :=
  match fuel with
  | O => mret (Next, wait_time)
  | S fuel' =>
      if (wait_time <? max_wait)%Z then
        status ← extract_status year wait_time;
        print ("Status: " ++ status);;
        if bool_decide (status = "completed") then
          print "Extract ready!";;
          mret (Next, wait_time)
        else if bool_decide (status = "failed") then
          print "Extract failed!";;
          mret (Return, wait_time)
        else
          sleep 10;;
          wait_loop fuel' year (wait_time + 10)
      else mret (Next, wait_time)
  end.

(** The loop condition fails after thirty rounds. *)
Definition rounds : nat := 30.

(** The body of [for year, config in samples_config.items()]. *)
Definition year_body (year : Z) : M flow :=
  print (Download.nl ++ Download.rule);;
  print ("Processing " ++ pretty year ++ " Census Data");;
  print Download.rule;;
  try_except
    (print ("Submitting extract request for " ++ pretty year ++ "...");;
     extract_id ← submit_extract year;
     print ("Extract submitted. Extract ID: " ++ extract_id);;
     print "Waiting for extract to be processed...";;
     waited ← wait_loop rounds year 0;
     match waited with
     | (Return, _) => mret Return
     | (Next, wait_time) =>
         if (max_wait <=? wait_time)%Z then
           print "Timeout waiting for extract. Please check status manually.";;
           print ("Extract ID: " ++ extract_id);;
           mret Next
         else
           print ("Downloading extract for " ++ pretty year ++ "...");;
           let download_path := output_dir ++ "/ipums_" ++ pretty year in
           download_extract year;;
           print ("Downloaded to " ++ download_path);;
           print ("Processing data for " ++ pretty year ++ "...");;
           process_ipums_data download_path year output_dir;;
           mret Next
     end)
    (fun e =>
       print ("Error processing " ++ pretty year ++ ": " ++ str_exn e);;
       mret Next).

(** The keys of [samples_config], in the order of the dictionary. *)
Definition sample_years : list Z := [1960; 1970; 1980].

Definition download_ipums_data : M unit :=
  if bool_decide (API_KEY = "YOUR_API_KEY_HERE") then
    print "ERROR: Please set IPUMS_API_KEY environment variable or update the script";;
    print "Get your API key from: https://account.ipums.org/api_keys"
  else
    for_each_flow sample_years year_body.

(** ** The waiting loop *)

(** Thirty rounds are enough: more fuel changes nothing. *)
Lemma wait_loop_enough (fuel : nat) (year wait_time : Z) :
  max_wait - wait_time <= 10 * Z.of_nat fuel ->
  wait_loop (S fuel) year wait_time = wait_loop fuel year wait_time.
Proof.
  revert wait_time. induction fuel as [|fuel IH]; intros wait_time Hfuel.
  - cbn [wait_loop].
    destruct (Z.ltb_spec wait_time max_wait) as [Hlt|Hge]; [lia|reflexivity].
  - change (wait_loop (S (S fuel)) year wait_time)
      with (if (wait_time <? max_wait)%Z then
              status ← extract_status year wait_time;
              print ("Status: " ++ status);;
              if bool_decide (status = "completed") then
                print "Extract ready!";; mret (Next, wait_time)
              else if bool_decide (status = "failed") then
                print "Extract failed!";; mret (Return, wait_time)
              else sleep 10;; wait_loop (S fuel) year (wait_time + 10)
            else mret (Next, wait_time)).
    rewrite IH by lia. reflexivity.
Qed.

Lemma wait_loop_rounds (year : Z) (extra : nat) :
  wait_loop (extra + rounds) year 0 = wait_loop rounds year 0.
Proof.
  induction extra as [|extra IH]; [reflexivity|].
  cbn [Nat.add]. rewrite wait_loop_enough; [exact IH|].
  unfold max_wait, rounds. lia.
Qed.

(** A status [failed] leaves the function. *)
Lemma wait_loop_failed (fuel : nat) (year wait_time : Z) (w : world) :
  wait_time < max_wait ->
  status_answer year wait_time = inr "failed" ->
  wait_loop (S fuel) year wait_time w
  = (inr (Return, wait_time),
     mkWorld (files w)
       (stdout w ++ ["Status: failed"] ++ ["Extract failed!"])%list
       (requests w ++ [call "extract_status" year])%list).
Proof.
  intros Hlt Hstatus. cbn [wait_loop].
  destruct (Z.ltb_spec wait_time max_wait) as [_|Hge]; [|lia].
  unfold mbind, M_bind, extract_status, api_call. rewrite Hstatus.
  rewrite bool_decide_eq_false_2 by discriminate.
  rewrite bool_decide_eq_true_2 by reflexivity.
  unfold print, mret, M_ret. cbn. rewrite <- app_assoc. reflexivity.
Qed.

(** ** One year *)

(** The year whose extract has failed ends the function. *)
Lemma year_body_failed (year : Z) (extract_id : string) (w : world) :
  submit_answer year = inr extract_id ->
  status_answer year 0 = inr "failed" ->
  exists out,
    year_body year w
    = (inr Return,
       mkWorld (files w) out
         (requests w ++ [call "submit_extract" year;
                         call "extract_status" year])%list).
Proof.
  intros Hsubmit Hstatus. unfold year_body, rounds.
  unfold try_except, mbind, M_bind, submit_extract, api_call.
  unfold print at 1 2 3 4. cbn [files stdout requests]. rewrite Hsubmit.
  unfold print at 1 2. cbn [files stdout requests].
  rewrite wait_loop_failed by (unfold max_wait; lia || exact Hstatus).
  unfold mret, M_ret. cbn [files stdout requests].
  rewrite <- (app_assoc (requests w)). eexists. reflexivity.
Qed.

(** The year whose submission raises is reported, and the loop goes on. *)
Lemma year_body_not_submitted (year : Z) (e : exn) (w : world) :
  submit_answer year = inl e ->
  exists out,
    year_body year w
    = (inr Next,
       mkWorld (files w) out
         (requests w ++ [call "submit_extract" year])%list).
Proof.
  intros Hsubmit. unfold year_body.
  unfold try_except, mbind, M_bind, submit_extract, api_call.
  unfold print at 1 2 3 4. cbn [files stdout requests]. rewrite Hsubmit.
  unfold print, mret, M_ret. cbn [files stdout requests].
  eexists. reflexivity.
Qed.

(** ** The whole run *)

Lemma download_ipums_data_failed (extract_id : string) (w : world) :
  API_KEY <> "YOUR_API_KEY_HERE" ->
  submit_answer 1960 = inr extract_id ->
  status_answer 1960 0 = inr "failed" ->
  exists out,
    download_ipums_data w
    = (inr tt,
       mkWorld (files w) out
         (requests w ++ [call "submit_extract" 1960;
                         call "extract_status" 1960])%list).
Proof.
  intros Hkey Hsubmit Hstatus. unfold download_ipums_data.
  rewrite bool_decide_eq_false_2 by exact Hkey.
  unfold sample_years. cbn [for_each_flow]. unfold mbind at 1, M_bind at 1.
  destruct (year_body_failed 1960 extract_id w Hsubmit Hstatus) as [out ->].
  exists out. reflexivity.
Qed.

(** C5 in [download_ipums_data]: a failed year does not always give way to
    the next one.  When the extract of 1960 is submitted and its status is
    [failed], the function prints and returns: its only calls are the
    submission and the status query of 1960, so the extracts of 1970 and
    1980 are never submitted.  No exception is raised and no file
    changes. *)
Theorem failed_extract_ends_the_run (extract_id : string) (w : world) :
  API_KEY <> "YOUR_API_KEY_HERE" ->
  submit_answer 1960 = inr extract_id ->
  status_answer 1960 0 = inr "failed" ->
  fst (download_ipums_data w) = inr tt /\
  files (snd (download_ipums_data w)) = files w /\
  requests (snd (download_ipums_data w))
  = (requests w ++ [call "submit_extract" 1960;
                    call "extract_status" 1960])%list.
Proof.
  intros Hkey Hsubmit Hstatus.
  destruct (download_ipums_data_failed extract_id w Hkey Hsubmit Hstatus)
    as [out ->].
  repeat split.
Qed.

(** The other failures of a year do give way to the next one: after a
    submission that raises, the loop goes on with 1970 and 1980. *)
Lemma failed_submission_moves_on (e : exn) (w : world) :
  API_KEY <> "YOUR_API_KEY_HERE" ->
  submit_answer 1960 = inl e ->
  exists out,
    download_ipums_data w
    = for_each_flow [1970; 1980] year_body
        (mkWorld (files w) out
           (requests w ++ [call "submit_extract" 1960])%list).
Proof.
  intros Hkey Hsubmit. unfold download_ipums_data.
  rewrite bool_decide_eq_false_2 by exact Hkey.
  unfold sample_years. cbn [for_each_flow]. unfold mbind at 1, M_bind at 1.
  destruct (year_body_not_submitted 1960 e w Hsubmit) as [out ->].
  exists out. reflexivity.
Qed.

End Script.

(** ** A sample service *)

(** A service whose extracts all fail. *)
Definition all_failed (year wait_time : Z) : result string := inr "failed".

Definition extract_number (year : Z) : result string := inr "42".

Definition downloaded (year : Z) : result unit := inr tt.

Definition nothing_to_process (download_path : string) (year : Z)
           (output_dir : string) : M unit := mret tt.

Definition start : world := mkWorld ∅ [] [].

Lemma failed_extract_ends_the_run_witness :
  fst (download_ipums_data "key" extract_number all_failed downloaded
         nothing_to_process start) = inr tt /\
  files (snd (download_ipums_data "key" extract_number all_failed downloaded
                nothing_to_process start)) = files start /\
  requests (snd (download_ipums_data "key" extract_number all_failed
                   downloaded nothing_to_process start))
  = (requests start ++ [call "submit_extract" 1960;
                        call "extract_status" 1960])%list.
Proof.
  apply (failed_extract_ends_the_run "key" extract_number all_failed
           downloaded nothing_to_process "42" start).
  - discriminate.
  - reflexivity.
  - reflexivity.
Defined.

End Ipums.

(* ===================================================================== *)
(** * The visualization scripts                                           *)
(* ===================================================================== *)

Module Viz.

Import Frame Py.
Local Open Scope Z_scope.
Local Open Scope string_scope.

(** ** Files *)

(** [pd.read_csv(path)] *)
Definition read_csv (path : string) : M DataFrame := fun w =>
  match files w !! path with
  | Some (CsvFile df) => (inr df, w)
  | Some (HtmlFile _) => (inl ValueError, w)
  | None => (inl (FileNotFoundError path), w)
  end.

Definition has_suffix (suffix s : string) : bool :=
  let n := String.length s in
  let k := String.length suffix in
  (k <=? n)%nat && String.eqb (String.substring (n - k) k s) suffix.

(** A path that [directory/prefix*suffix] matches: the star stands for no
    slash, and for no leading dot. *)
Definition glob_match (directory prefix suffix path : string) : bool :=
  match Download.strip_prefix (directory ++ "/") path with
  | Some name =>
      negb (String.prefix "." name) &&
      match Download.strip_prefix prefix name with
      | Some rest =>
          has_suffix suffix rest &&
          match String.index 0 "/" rest with
          | Some _ => false
          | None => true
          end
      | None => false
      end
  | None => false
  end.

(** [glob.glob(os.path.join(directory, prefix + '*' + suffix))] *)
Definition glob (directory prefix suffix : string) : M (list string) :=
  fun w =>
    (inr (List.filter (glob_match directory prefix suffix)
            (List.map fst (map_to_list (files w)))), w).

(** [for f in paths: df_list.append(pd.read_csv(f))] *)
Fixpoint read_all (paths : list string) : M (list DataFrame) :=
  match paths with
  | [] => mret []
  | f :: rest =>
      df ← read_csv f;
      df_list ← read_all rest;
      mret (df :: df_list)
  end.

(** [fig.write_html(path, include_plotlyjs='cdn', full_html=False)] *)
Definition write_html (fig : figure) (path : string) : M unit :=
  write_file path (HtmlFile fig).

(** [sorted(paths)] *)
Fixpoint insert_path (p : string) (paths : list string) : list string :=
  match paths with
  | [] => [p]
  | q :: rest => if String.leb p q then p :: paths else q :: insert_path p rest
  end.

Definition sorted (paths : list string) : list string :=
  List.fold_right insert_path [] paths.

(** ** pandas *)

Fixpoint distinct_labels (cols : list scalar) : bool :=
  match cols with
  | [] => true
  | c :: rest => negb (List.existsb (scalar_eqb c) rest) && distinct_labels rest
  end.

Definition union_columns (dfs : list DataFrame) : list scalar :=
  List.fold_left
    (fun acc df =>
       (acc ++ List.filter (fun c => negb (List.existsb (scalar_eqb c) acc))
                           (columns df))%list)
    dfs [].

Definition realign (cols : list scalar) (df : DataFrame)
  : list (list scalar) :=
  List.map (fun row =>
              List.map (fun c => match cell df c row with
                                 | Some x => x
                                 | None => SNull
                                 end) cols)
           (rows df).

(** [pd.concat(dfs, ignore_index=True)]: frames with the same columns are
    stacked; frames with different columns are aligned on the union of
    their labels, which must be distinct in each frame. *)
Definition concat (dfs : list DataFrame) : result DataFrame :=
  match dfs with
  | [] => inl ValueError
  | df :: _ =>
      if List.forallb (fun df' => bool_decide (columns df' = columns df)) dfs
      then inr (mkFrame (columns df) (List.flat_map rows dfs))
      else if List.forallb (fun df' => distinct_labels (columns df')) dfs
      then inr (mkFrame (union_columns dfs)
                  (List.flat_map (realign (union_columns dfs)) dfs))
      else inl ValueError
  end.

(** The value of a dictionary for a cell, NaN where there is none. *)
Definition mapped (mapping : list (string * string)) (x : scalar) : scalar :=
  match assoc x mapping with
  | Some v => SStr v
  | None => SNull
  end.

(** [series.map(mapping)] *)
Definition series_map (mapping : list (string * string))
           (series : list scalar) : list scalar :=
  List.map (mapped mapping) series.

(** [series != value] *)
Definition series_ne (series : list scalar) (value : scalar) : list bool :=
  List.map (fun x => negb (scalar_eqb x value)) series.

(** [df[mask]] *)
Definition boolean_mask (df : DataFrame) (mask : list bool) : DataFrame :=
  mkFrame (columns df)
    (List.map fst (List.filter snd (List.combine (rows df) mask))).

Definition isna (x : scalar) : bool :=
  match x with
  | SNull => true
  | SFloat f => Binary64.is_nan f
  | _ => false
  end.

(** [df.dropna(subset=[label])] *)
Definition dropna (df : DataFrame) (label : scalar) : result DataFrame :=
  match positions label (columns df) 0 with
  | [] => inl (KeyError label)
  | ps =>
      inr (mkFrame (columns df)
             (List.filter
                (fun row =>
                   List.forallb (fun i => negb (isna (List.nth i row SNull)))
                                ps)
                (rows df)))
  end.

(** ** [generate_map.py] *)

Definition us_state_to_abbrev : list (string * string) :=
  [("Alabama", "AL"); ("Alaska", "AK"); ("Arizona", "AZ"); ("Arkansas", "AR");
   ("California", "CA"); ("Colorado", "CO"); ("Connecticut", "CT");
   ("Delaware", "DE"); ("Florida", "FL"); ("Georgia", "GA");
   ("Hawaii", "HI"); ("Idaho", "ID"); ("Illinois", "IL"); ("Indiana", "IN");
   ("Iowa", "IA"); ("Kansas", "KS"); ("Kentucky", "KY"); ("Louisiana", "LA");
   ("Maine", "ME"); ("Maryland", "MD"); ("Massachusetts", "MA");
   ("Michigan", "MI"); ("Minnesota", "MN"); ("Mississippi", "MS");
   ("Missouri", "MO"); ("Montana", "MT"); ("Nebraska", "NE"); ("Nevada", "NV");
   ("New Hampshire", "NH"); ("New Jersey", "NJ"); ("New Mexico", "NM");
   ("New York", "NY"); ("North Carolina", "NC"); ("North Dakota", "ND");
   ("Ohio", "OH"); ("Oklahoma", "OK"); ("Oregon", "OR");
   ("Pennsylvania", "PA"); ("Rhode Island", "RI"); ("South Carolina", "SC");
   ("South Dakota", "SD"); ("Tennessee", "TN"); ("Texas", "TX"); ("Utah", "UT");
   ("Vermont", "VT"); ("Virginia", "VA"); ("Washington", "WA");
   ("West Virginia", "WV"); ("Wisconsin", "WI"); ("Wyoming", "WY");
   ("District of Columbia", "DC"); ("Puerto Rico", "PR")].

Definition input_dir : string := "data/census_acs5".

(** [full_df.rename(columns={...})] *)
Definition labelled (full_df : DataFrame) : DataFrame :=
  rename full_df [("B03001_005E", "Population"); ("NAME", "State");
                  ("year", "Year")].

(** [full_df['StateCode'] = full_df['State'].map(us_state_to_abbrev)] *)
Definition with_state_code (full_df : DataFrame) : result DataFrame :=
  state ← getitem full_df (SStr "State");
  mret (setitem full_df (SStr "StateCode")
          (series_map us_state_to_abbrev state)).

(** [map_df = full_df[full_df['State'] != 'Puerto Rico'].copy()] and
    [map_df = map_df.dropna(subset=['StateCode'])] *)
Definition mainland (full_df : DataFrame) : result DataFrame :=
  state ← getitem full_df (SStr "State");
  let map_df := boolean_mask full_df (series_ne state (SStr "Puerto Rico")) in
  dropna map_df (SStr "StateCode").


(** ** Rows and cells *)

Lemma cell_columns (df df' : DataFrame) (label : scalar) (row : list scalar) :
  columns df' = columns df -> cell df' label row = cell df label row.
Proof. intros H. unfold cell. rewrite H. reflexivity. Qed.

Lemma getitem_single (df : DataFrame) (label : scalar)
      (series : list scalar) :
  getitem df label = inr series ->
  exists i, positions label (columns df) 0 = [i] /\
            series = List.map (fun row => List.nth i row SNull) (rows df).
Proof.
  unfold getitem.
  destruct (positions label (columns df) 0) as [|i [|j rest]];
    try discriminate.
  intros H. inversion H. eauto.
Qed.

Lemma cell_nth (df : DataFrame) (label : scalar) (row : list scalar)
      (i : nat) (rest : list nat) :
  positions label (columns df) 0 = i :: rest ->
  length row = length (columns df) ->
  cell df label row = Some (List.nth i row SNull).
Proof.
  intros Hpos Hlen. unfold cell. rewrite Hpos.
  destruct (Download.positions_first _ _ _ _ Hpos) as (Hlt & _ & _).
  apply nth_error_nth'. lia.
Qed.

Lemma nth_cell (df : DataFrame) (label : scalar) (row : list scalar)
      (i : nat) (rest : list nat) (x : scalar) :
  positions label (columns df) 0 = i :: rest ->
  cell df label row = Some x ->
  List.nth i row SNull = x.
Proof.
  intros Hpos. unfold cell. rewrite Hpos. apply nth_error_nth.
Qed.

Lemma mask_rowwise {A : Type} (f : A -> bool) (l : list A) :
  List.map fst (List.filter snd (List.combine l (List.map f l)))
  = List.filter f l.
Proof.
  induction l as [|a l IH]; simpl; [reflexivity|].
  destruct (f a); simpl; rewrite IH; reflexivity.
Qed.

Lemma filter_twice {A : Type} (f g : A -> bool) (l : list A) :
  List.filter g (List.filter f l) = List.filter (fun a => f a && g a) l.
Proof.
  induction l as [|a l IH]; simpl; [reflexivity|].
  destruct (f a); simpl; [destruct (g a)|]; rewrite IH; reflexivity.
Qed.

Lemma forallb_constant {A : Type} (f : A -> bool) (b : bool) (l : list A) :
  l <> [] -> (forall a, In a l -> f a = b) -> List.forallb f l = b.
Proof.
  intros Hne Hall. destruct l as [|a l]; [contradiction|]. clear Hne.
  revert a Hall. induction l as [|a' l IH]; intros a Hall.
  - simpl. rewrite (Hall a) by (left; reflexivity). apply andb_true_r.
  - change (f a && List.forallb f (a' :: l) = b).
    rewrite (IH a') by (intros x Hx; apply Hall; right; exact Hx).
    rewrite (Hall a) by (left; reflexivity). apply andb_diag.
Qed.

Lemma positions_In (label : scalar) (cols : list scalar) (k p : nat) :
  In p (positions label cols k) ->
  (k <= p)%nat /\ List.nth_error cols (p - k) = Some label.
Proof.
  revert k. induction cols as [|c cols IH]; intros k; simpl; [tauto|].
  unfold scalar_eqb. destruct (bool_decide_reflect (c = label)) as [->|Hne].
  - intros [<-|Hin].
    + rewrite Nat.sub_diag. split; [lia | reflexivity].
    + destruct (IH _ Hin) as [Hle Hnth]. split; [lia|].
      replace (p - k)%nat with (S (p - S k)) by lia. exact Hnth.
  - intros Hin. destruct (IH _ Hin) as [Hle Hnth]. split; [lia|].
    replace (p - k)%nat with (S (p - S k)) by lia. exact Hnth.
Qed.

(** After [df[label] = values], every column that carries the label holds
    the value of the row. *)
Lemma setitem_everywhere (df : DataFrame) (label : scalar)
      (values : list scalar) :
  Download.well_formed df ->
  length values = length (rows df) ->
  Forall2 (fun v row' =>
             forall p,
               In p (positions label (columns (setitem df label values)) 0) ->
               List.nth p row' SNull = v)
          values (rows (setitem df label values)).
Proof.
  intros Hwf Hlen. unfold Download.well_formed in Hwf.
  rewrite Forall_forall in Hwf.
  unfold setitem. destruct (has_column df label) eqn:Hhas; cbn [rows columns].
  - apply Download.Forall2_map2_r; [|exact Hlen].
    intros row v Hin p Hp. specialize (Hwf row Hin).
    destruct (positions_In _ _ _ _ Hp) as [_ Hnth].
    rewrite Nat.sub_0_r in Hnth. apply nth_error_nth.
    rewrite Download.nth_error_map2, Hnth.
    destruct (List.nth_error row p) eqn:Hrow.
    + unfold scalar_eqb. rewrite bool_decide_eq_true_2 by reflexivity.
      reflexivity.
    + apply nth_error_None in Hrow.
      assert (p < length (columns df))%nat
        by (apply nth_error_Some; congruence). lia.
  - apply Download.Forall2_map2_r; [|exact Hlen].
    intros row v Hin p Hp. specialize (Hwf row Hin).
    assert (Hnot : ~ In label (columns df)).
    { intros Hc. apply Download.has_column_In in Hc. congruence. }
    rewrite Download.positions_app_absent in Hp by exact Hnot.
    destruct Hp as [<-|[]]. rewrite <- Hwf. apply nth_middle.
Qed.

Lemma Forall2_join {A B C : Type} (R : A -> B -> Prop) (S : C -> B -> Prop)
      (g : A -> C) (l : list A) (l' : list B) :
  Forall2 R l l' -> Forall2 S (List.map g l) l' ->
  Forall2 (fun a b => R a b /\ S (g a) b) l l'.
Proof.
  intros HR. induction HR as [|a b l l' Hab _ IH]; simpl; intros HS;
    inversion HS; subst; constructor; auto.
Qed.

Lemma rename_well_formed (df : DataFrame) (mapping : list (string * string)) :
  Download.well_formed df -> Download.well_formed (rename df mapping).
Proof.
  unfold Download.well_formed. cbn [rename rows columns].
  rewrite length_map. auto.
Qed.

(** ** The rows of the map *)

(** What [generate_map] keeps of a State: it is not Puerto Rico, and the
    dictionary has an abbreviation for it. *)
Definition kept (state : scalar) : bool :=
  negb (scalar_eqb state (SStr "Puerto Rico")) &&
  negb (isna (mapped us_state_to_abbrev state)).

Definition kept_row (df : DataFrame) (row : list scalar) : bool :=
  match cell df (SStr "State") row with
  | Some state => kept state
  | None => false
  end.

(** The fifty states and the District of Columbia, with their codes. *)
Definition states_and_dc : list (string * string) :=
  List.filter (fun kv => negb (String.eqb (fst kv) "Puerto Rico"))
              us_state_to_abbrev.

Lemma states_and_dc_length : length states_and_dc = 51%nat.
Proof. reflexivity. Qed.

Lemma states_and_dc_codes :
  Forall (fun kv => String.length (snd kv) = 2%nat) states_and_dc.
Proof.
  apply Forall_forall. intros kv Hin.
  assert (H : List.forallb
                (fun kv => Nat.eqb (String.length (snd kv)) 2) states_and_dc
              = true) by (vm_compute; reflexivity).
  rewrite forallb_forall in H. apply Nat.eqb_eq. apply H. exact Hin.
Qed.

Lemma assoc_inv (x : scalar) (mapping : list (string * string)) (v : string) :
  assoc x mapping = Some v -> exists k, x = SStr k /\ In (k, v) mapping.
Proof.
  induction mapping as [|[k v'] m IH]; simpl; [discriminate|].
  unfold scalar_eqb. destruct (bool_decide_reflect (x = SStr k)) as [->|Hne].
  - intros H. inversion H; subst. exists k. split; [reflexivity | left].
    reflexivity.
  - intros H. destruct (IH H) as (k' & Hx & Hin). exists k'.
    split; [exact Hx | right; exact Hin].
Qed.

(** A State that is kept is the name of a state or of the District of
    Columbia, and its code is the one of the dictionary. *)
Lemma kept_inv (state : scalar) :
  kept state = true ->
  exists name code,
    state = SStr name /\ name <> "Puerto Rico" /\
    mapped us_state_to_abbrev state = SStr code /\
    In (name, code) states_and_dc /\ String.length code = 2%nat.
Proof.
  unfold kept, mapped. intros H. apply andb_true_iff in H.
  destruct H as [Hpr Hna].
  destruct (assoc state us_state_to_abbrev) as [code|] eqn:Hcode;
    [|discriminate].
  destruct (assoc_inv _ _ _ Hcode) as (name & -> & Hin).
  assert (Hne : name <> "Puerto Rico").
  { intros ->. unfold scalar_eqb in Hpr.
    rewrite bool_decide_eq_true_2 in Hpr by reflexivity. discriminate. }
  assert (Hin' : In (name, code) states_and_dc).
  { unfold states_and_dc. apply filter_In. split; [exact Hin|].
    simpl. apply negb_true_iff. apply String.eqb_neq. exact Hne. }
  exists name, code. repeat split; try assumption.
  pose proof states_and_dc_codes as Hall. rewrite Forall_forall in Hall.
  apply (Hall _ Hin').
Qed.

(** Every row of the frame with its codes has a State, and the code of
    that State in every column called StateCode. *)
Definition coded_row (df : DataFrame) (row : list scalar) : Prop :=
  length row = length (columns df) /\
  exists state,
    cell df (SStr "State") row = Some state /\
    forall p, In p (positions (SStr "StateCode") (columns df) 0) ->
              List.nth p row SNull = mapped us_state_to_abbrev state.

Lemma with_state_code_inv (df coded : DataFrame) :
  Download.well_formed df ->
  with_state_code df = inr coded ->
  has_column coded (SStr "StateCode") = true /\
  Forall (coded_row coded) (rows coded) /\
  Forall2 (fun row row' =>
             cell coded (SStr "State") row' = cell df (SStr "State") row)
          (rows df) (rows coded).
Proof.
  intros Hwf. unfold with_state_code, mbind, result_bind.
  destruct (getitem df (SStr "State")) as [e|state] eqn:Hget; [discriminate|].
  unfold mret, result_ret. intros H. inversion H; subst coded; clear H.
  destruct (getitem_single _ _ _ Hget) as (i & Hpos & Hstate).
  set (values := series_map us_state_to_abbrev state).
  assert (Hvalues : values
            = List.map (fun row => mapped us_state_to_abbrev
                                     (List.nth i row SNull)) (rows df)).
  { unfold values, series_map. rewrite Hstate, map_map. reflexivity. }
  assert (Hlen : length values = length (rows df)).
  { rewrite Hvalues. apply length_map. }
  pose proof (Download.setitem_others df (SStr "StateCode") values Hwf Hlen)
    as Hothers.
  pose proof (setitem_everywhere df (SStr "StateCode") values Hwf Hlen)
    as Hcode.
  rewrite Hvalues in Hcode at 1.
  pose proof (Forall2_join _ _ _ _ _ Hothers Hcode) as Hjoin.
  split; [|split].
  - apply Download.has_column_In. rewrite Download.setitem_columns.
    destruct (has_column df (SStr "StateCode")) eqn:Hhas.
    + apply Download.has_column_In. exact Hhas.
    + apply in_or_app. right. left. reflexivity.
  - eapply Download.Forall2_transfer; [exact Hjoin | exact Hwf |].
    intros row row' [[Hl Ho] Hc] Hrow. simpl in Hrow. split; [exact Hl|].
    exists (List.nth i row SNull). split; [|exact Hc].
    rewrite Download.cell_cell_at, Ho by discriminate.
    rewrite <- Download.cell_cell_at. apply (cell_nth df _ row i []); assumption.
  - eapply List.Forall2_impl; [|exact Hothers].
    intros row row' [_ Ho]. rewrite !Download.cell_cell_at. apply Ho.
    discriminate.
Qed.

Lemma mainland_inv (coded map_df : DataFrame) :
  has_column coded (SStr "StateCode") = true ->
  Forall (coded_row coded) (rows coded) ->
  mainland coded = inr map_df ->
  columns map_df = columns coded /\
  rows map_df = List.filter (kept_row coded) (rows coded).
Proof.
  intros Hhas Hrows. unfold mainland, mbind, result_bind.
  destruct (getitem coded (SStr "State")) as [e|state] eqn:Hget;
    [discriminate|].
  destruct (getitem_single _ _ _ Hget) as (j & Hpos & Hstate).
  unfold dropna, boolean_mask. cbn [columns rows].
  destruct (positions (SStr "StateCode") (columns coded) 0) as [|p ps] eqn:Hps.
  { apply Download.positions_nil in Hps. apply Download.has_column_In in Hhas.
    contradiction. }
  intros H. inversion H; subst map_df; clear H. cbn [columns rows].
  split; [reflexivity|].
  unfold series_ne. rewrite Hstate, map_map, mask_rowwise, filter_twice.
  apply filter_ext_in. intros row Hin.
  rewrite Forall_forall in Hrows.
  destruct (Hrows row Hin) as (Hl & x & Hcell & Hcode).
  unfold kept_row, kept. rewrite Hcell.
  rewrite (nth_cell coded _ row j [] x Hpos Hcell).
  f_equal. rewrite Hps in Hcode.
  apply (forallb_constant (fun i => negb (isna (List.nth i row SNull)))
           _ (p :: ps)); [discriminate|].
  intros q Hq. rewrite Hcode by exact Hq. reflexivity.
Qed.
Section Charts.

(** [df.sort_values(label)]: pandas sorts with quicksort, which fixes the
    order of the rows only up to the rows with equal keys. *)
Variable sort_values : DataFrame -> scalar -> result DataFrame.

Hypothesis sort_values_permutes :
  forall df label df',
    sort_values df label = inr df' ->
    columns df' = columns df /\ Permutation (rows df') (rows df).

(** The frame that [generate_map] hands to [px.choropleth]. *)
Definition map_frame (full_df : DataFrame) : result DataFrame :=
  full_df ← with_state_code (labelled full_df);
  map_df ← mainland full_df;
  sort_values map_df (SStr "Year").

Definition require_column (df : DataFrame) (label : scalar) : result unit :=
  if has_column df label then inr tt else inl ValueError.

(** [px.choropleth(map_df, locations='StateCode', color='Population',
    hover_name='State', animation_frame='Year',
    range_color=(0, map_df['Population'].max()), ...)] *)
Definition choropleth (map_df : DataFrame) : result figure :=
  getitem map_df (SStr "Population");;
  require_column map_df (SStr "StateCode");;
  require_column map_df (SStr "State");;
  require_column map_df (SStr "Year");;
  mret (mkFigure "Puerto Rican Population by State (2010-2023)" map_df).

Definition map_file : string := "docs/graph7_map.html".

Definition generate_map : M unit :=
  csv_files ← glob input_dir "" ".csv";
  df_list ← read_all csv_files;
  match df_list with
  | [] => print "No data found in data/census_acs5/"
  | _ :: _ =>
      full_df ← lift (concat df_list);
      map_df ← lift (map_frame full_df);
      fig ← lift (choropleth map_df);
      write_html fig map_file;;
      print ("Map saved to " ++ map_file)
  end.

(** ** [generate_improved_visualizations.py] *)

(** The lines of [generate_population_pyramid] between [pd.read_csv] and
    [fig.write_html]: the figure drawn from the microdata. *)
Variable population_pyramid : DataFrame -> result figure.

Definition pyramid_file : string := "docs/graph_population_pyramid.html".

Definition generate_population_pyramid : M unit :=
  let file_path := "data/usa_00001.csv" in
  df ← read_csv file_path;
  fig ← lift (population_pyramid df);
  write_html fig pyramid_file;;
  print "Generated population pyramid".

(** ** [generate_new_data_visualizations.py] *)

(** The lines of [generate_migration_economic_correlation] between the
    reading of its inputs and [fig.write_html]: the figure, if the merged
    table has an [unemployment_rate] column. *)
Variable migration_economic_correlation :
  DataFrame -> list DataFrame -> result (option figure).

Definition correlation_file : string :=
  "docs/graph_migration_economic_correlation.html".

Definition generate_migration_economic_correlation : M unit :=
  let combined_file := "data/puerto_rico_economic/pr_economic_combined.csv" in
  exists_file combined_file ≫= fun found : bool =>
  if negb found then
    print "Puerto Rico economic data not found. Skipping correlation visualization."
  else
    pr_econ_df ← read_csv combined_file;
    pop_files ← glob "data/census_acs5" "acs5_puerto_rican_pop_" ".csv";
    match pop_files with
    | [] =>
        print "Puerto Rican population data not found. Skipping correlation visualization."
    | _ :: _ =>
        all_pop ← read_all (sorted pop_files);
        chart ← lift (migration_economic_correlation pr_econ_df all_pop);
        match chart with
        | Some fig =>
            write_html fig correlation_file;;
            print "Generated migration-economic correlation visualization"
        | None => mret tt
        end
    end.


(** ** The frame of the map *)

(** C10.  Every row of the frame that [generate_map] hands to
    [px.choropleth] has a State other than Puerto Rico and, as its
    StateCode, the two-letter code of that State among the fifty states and
    the District of Columbia.  The rows of that frame are, in some order,
    the rows of the input whose State is kept: a row whose State has no
    abbreviation is dropped. *)
Theorem map_rows_are_mainland_states (full_df map_df : DataFrame) :
  Download.well_formed full_df ->
  map_frame full_df = inr map_df ->
  exists coded,
    with_state_code (labelled full_df) = inr coded /\
    Forall2 (fun row row' =>
               cell coded (SStr "State") row'
               = cell (labelled full_df) (SStr "State") row)
            (rows full_df) (rows coded) /\
    Permutation (rows map_df) (List.filter (kept_row coded) (rows coded)) /\
    Forall (fun row =>
              exists name code,
                cell map_df (SStr "State") row = Some (SStr name) /\
                name <> "Puerto Rico" /\
                cell map_df (SStr "StateCode") row = Some (SStr code) /\
                In (name, code) states_and_dc /\
                String.length code = 2%nat)
           (rows map_df).
Proof.
  intros Hwf. unfold map_frame, mbind, result_bind.
  destruct (with_state_code (labelled full_df)) as [e|coded] eqn:Hcoded;
    [discriminate|].
  destruct (mainland coded) as [e|selected] eqn:Hsel; [discriminate|].
  intros Hsort.
  destruct (with_state_code_inv _ _ (rename_well_formed _ _ Hwf) Hcoded)
    as (Hhas & Hrows & Hstate).
  destruct (mainland_inv _ _ Hhas Hrows Hsel) as (Hcols & Hkept).
  destruct (sort_values_permutes _ _ _ Hsort) as (Hcols' & Hperm).
  rewrite Hkept in Hperm.
  exists coded. split; [reflexivity|]. split; [exact Hstate|].
  split; [exact Hperm|].
  apply Forall_forall. intros row Hin.
  apply (Permutation_in _ Hperm) in Hin. apply filter_In in Hin.
  destruct Hin as [Hin Hk]. rewrite Forall_forall in Hrows.
  destruct (Hrows row Hin) as (Hl & state & Hcell & Hcode).
  unfold kept_row in Hk. rewrite Hcell in Hk.
  destruct (kept_inv state Hk) as (name & code & -> & Hne & Hmap & Hdc & Hlen).
  assert (Hc : columns map_df = columns coded) by congruence.
  exists name, code. rewrite !(cell_columns coded map_df) by exact Hc.
  repeat split; try assumption.
  destruct (positions (SStr "StateCode") (columns coded) 0) as [|p ps] eqn:Hps.
  { apply Download.positions_nil in Hps. apply Download.has_column_In in Hhas.
    contradiction. }
  rewrite (cell_nth coded _ row p ps Hps Hl).
  rewrite (Hcode p) by (left; reflexivity). rewrite Hmap. reflexivity.
Qed.

Lemma choropleth_data (map_df : DataFrame) (fig : figure) :
  choropleth map_df = inr fig -> fig_data fig = map_df.
Proof.
  unfold choropleth, require_column, mbind, result_bind, mret, result_ret.
  destruct (getitem map_df (SStr "Population")); [discriminate|].
  destruct (has_column map_df (SStr "StateCode")); [|discriminate].
  destruct (has_column map_df (SStr "State")); [|discriminate].
  destruct (has_column map_df (SStr "Year")); [|discriminate].
  intros H. inversion H. reflexivity.
Qed.

(** ** Missing inputs *)

Lemma read_all_world (paths : list string) (w : world) :
  snd (read_all paths w) = w.
Proof.
  induction paths as [|f rest IH]; [reflexivity|].
  cbn [read_all]. unfold mbind, M_bind, read_csv.
  destruct (files w !! f) as [[df|fig]|]; try reflexivity.
  destruct (read_all rest w) as [[e|dfs] w'] eqn:Hrest; simpl in IH; subst w';
    reflexivity.
Qed.

Lemma filter_none {A : Type} (f : A -> bool) (l : list A) :
  (forall a, In a l -> f a = false) -> List.filter f l = [].
Proof.
  induction l as [|a l IH]; intros H; simpl; [reflexivity|].
  rewrite (H a) by (left; reflexivity).
  apply IH. intros a' Ha'. apply H. right. exact Ha'.
Qed.

Lemma listed_file (w : world) (path : string) :
  In path (List.map fst (map_to_list (files w))) ->
  exists f, files w !! path = Some f.
Proof.
  intros Hin. apply in_map_iff in Hin. destruct Hin as ([p f] & Hp & Hin).
  simpl in Hp. subst p. exists f.
  apply elem_of_map_to_list. apply list_elem_of_In. exact Hin.
Qed.

(** The figure that [generate_map] writes shows the frame of the map. *)
Lemma generate_map_figure (w : world) (fig : figure) :
  files w !! map_file = None ->
  files (snd (generate_map w)) !! map_file = Some (HtmlFile fig) ->
  exists df_list full_df,
    concat df_list = inr full_df /\ map_frame full_df = inr (fig_data fig).
Proof.
  intros Hnone. unfold generate_map, mbind, M_bind, glob.
  set (paths := List.filter _ _).
  pose proof (read_all_world paths w) as Hw.
  destruct (read_all paths w) as [[e|df_list] w1]; simpl in Hw; subst w1.
  { simpl. rewrite Hnone. discriminate. }
  destruct df_list as [|df rest].
  { simpl. rewrite Hnone. discriminate. }
  unfold lift.
  destruct (concat (df :: rest)) as [e|full_df] eqn:Hconcat.
  { simpl. rewrite Hnone. discriminate. }
  destruct (map_frame full_df) as [e|map_df] eqn:Hmap.
  { simpl. rewrite Hnone. discriminate. }
  destruct (choropleth map_df) as [e|chart] eqn:Hchart.
  { simpl. rewrite Hnone. discriminate. }
  unfold write_html, write_file, print. cbn [snd files].
  rewrite lookup_insert_eq. intros H. inversion H; subst chart.
  exists (df :: rest), full_df. split; [exact Hconcat|].
  rewrite (choropleth_data _ _ Hchart). exact Hmap.
Qed.

(** Without a CSV file in [data/census_acs5], [generate_map] prints its
    warning and returns: no file is written and nothing is raised. *)
Lemma generate_map_without_data (w : world) :
  (forall path, glob_match input_dir "" ".csv" path = true ->
                files w !! path = None) ->
  generate_map w
  = (inr tt,
     mkWorld (files w)
       (stdout w ++ ["No data found in data/census_acs5/"])%list
       (requests w)).
Proof.
  intros Hnone. unfold generate_map, mbind, M_bind, glob.
  rewrite filter_none.
  - reflexivity.
  - intros path Hin. destruct (listed_file w path Hin) as [f Hf].
    destruct (glob_match input_dir "" ".csv" path) eqn:Hm; [|reflexivity].
    rewrite (Hnone path Hm) in Hf. discriminate.
Qed.

(** Without the combined economic table,
    [generate_migration_economic_correlation] prints its warning and
    returns. *)
Lemma correlation_without_economic_data (w : world) :
  files w !! "data/puerto_rico_economic/pr_economic_combined.csv" = None ->
  generate_migration_economic_correlation w
  = (inr tt,
     mkWorld (files w)
       (stdout w ++ ["Puerto Rico economic data not found. Skipping correlation visualization."])%list
       (requests w)).
Proof.
  intros Hnone.
  unfold generate_migration_economic_correlation, mbind, M_bind, exists_file.
  rewrite Hnone. rewrite bool_decide_eq_false_2 by (intros [f Hf]; discriminate).
  reflexivity.
Qed.

(** C3 fails in [generate_population_pyramid]: without
    [data/usa_00001.csv] the function does not print a warning and return;
    [pd.read_csv] raises [FileNotFoundError], nothing catches it, and the
    world is left as it was. *)
Theorem population_pyramid_raises_without_input (w : world) :
  files w !! "data/usa_00001.csv" = None ->
  generate_population_pyramid w
  = (inl (FileNotFoundError "data/usa_00001.csv"), w).
Proof.
  intros Hnone. unfold generate_population_pyramid, mbind, M_bind, read_csv.
  rewrite Hnone. reflexivity.
Qed.

End Charts.

(** ** A sample run *)

Definition year_of (x : scalar) : Z :=
  match x with
  | SInt z => z
  | _ => 0
  end.

Fixpoint insert_row (i : nat) (row : list scalar) (l : list (list scalar))
  : list (list scalar) :=
  match l with
  | [] => [row]
  | r :: rest =>
      if (year_of (List.nth i row SNull) <=? year_of (List.nth i r SNull))%Z
      then row :: l
      else r :: insert_row i row rest
  end.

(** A sort of the rows by the integers of a column. *)
Definition sort_rows (df : DataFrame) (label : scalar) : result DataFrame :=
  match positions label (columns df) 0 with
  | [] => inl (KeyError label)
  | i :: _ =>
      inr (mkFrame (columns df) (List.fold_right (insert_row i) [] (rows df)))
  end.

Lemma insert_row_permutes (i : nat) (row : list scalar)
      (l : list (list scalar)) :
  Permutation (insert_row i row l) (row :: l).
Proof.
  induction l as [|r rest IH]; simpl; [reflexivity|].
  destruct (year_of (List.nth i row SNull) <=? year_of (List.nth i r SNull))%Z;
    [reflexivity|].
  rewrite IH. apply perm_swap.
Qed.

Lemma sort_rows_permutes (df : DataFrame) (label : scalar) (df' : DataFrame) :
  sort_rows df label = inr df' ->
  columns df' = columns df /\ Permutation (rows df') (rows df).
Proof.
  unfold sort_rows.
  destruct (positions label (columns df) 0) as [|i rest]; [discriminate|].
  intros H. inversion H; subst df'; clear H. cbn [columns rows].
  split; [reflexivity|].
  induction (rows df) as [|row l IH]; simpl; [reflexivity|].
  rewrite insert_row_permutes. constructor. exact IH.
Qed.

(** Three rows of the downloaded tables: a state, Puerto Rico, and a name
    without abbreviation. *)
Definition sample_full_df : DataFrame :=
  mkFrame [SStr "NAME"; SStr "B03001_005E"; SStr "state"; SStr "year"]
    [[SStr "Florida"; SInt 847550; SInt 12; SInt 2011];
     [SStr "Puerto Rico"; SInt 3554642; SInt 72; SInt 2010];
     [SStr "Guam"; SInt 100; SInt 66; SInt 2010];
     [SStr "New York"; SInt 1070558; SInt 36; SInt 2010]].

Definition no_pyramid (df : DataFrame) : result figure :=
  inl (KeyError (SStr "BPL")).

Lemma map_rows_are_mainland_states_witness :
  exists map_df,
    map_frame sort_rows sample_full_df = inr map_df /\
    exists coded,
      with_state_code (labelled sample_full_df) = inr coded /\
      Forall2 (fun row row' =>
                 cell coded (SStr "State") row'
                 = cell (labelled sample_full_df) (SStr "State") row)
              (rows sample_full_df) (rows coded) /\
      Permutation (rows map_df) (List.filter (kept_row coded) (rows coded)) /\
      Forall (fun row =>
                exists name code,
                  cell map_df (SStr "State") row = Some (SStr name) /\
                  name <> "Puerto Rico" /\
                  cell map_df (SStr "StateCode") row = Some (SStr code) /\
                  In (name, code) states_and_dc /\
                  String.length code = 2%nat)
             (rows map_df).
Proof.
  eexists. split; [vm_compute; reflexivity|].
  apply (map_rows_are_mainland_states sort_rows sort_rows_permutes
           sample_full_df).
  - repeat constructor.
  - vm_compute. reflexivity.
Defined.

Example sample_map_rows :
  option_map rows
    (match map_frame sort_rows sample_full_df with
     | inr df => Some df
     | inl _ => None
     end)
  = Some [[SStr "New York"; SInt 1070558; SInt 36; SInt 2010; SStr "NY"];
          [SStr "Florida"; SInt 847550; SInt 12; SInt 2011; SStr "FL"]].
Proof. vm_compute. reflexivity. Qed.

Lemma population_pyramid_raises_without_input_witness :
  files Download.empty_world !! "data/usa_00001.csv" = None /\
  generate_population_pyramid no_pyramid Download.empty_world
  = (inl (FileNotFoundError "data/usa_00001.csv"), Download.empty_world).
Proof.
  split; [reflexivity|].
  apply (population_pyramid_raises_without_input no_pyramid
           Download.empty_world).
  reflexivity.
Defined.

End Viz.

(* ===================================================================== *)
(** * The tables the download scripts write                               *)
(* ===================================================================== *)

Module Tables.

Import Binary64 Frame Py Download.
Local Open Scope Z_scope.
Local Open Scope string_scope.

(** ** The cells of a processed table *)

(** The number [pd.to_numeric(..., errors='coerce')] makes of one cell. *)
Definition coerce (fos : string -> option float) (x : scalar) : float :=
  match x with
  | SFloat f => f
  | SInt z => of_Z z
  | SStr s => match fos s with
              | Some f => f
              | None => nan
              end
  | SNull => nan
  end.

Lemma to_numeric_coerce (fos : string -> option float)
      (series : list scalar) :
  to_numeric fos series = List.map (fun x => SFloat (coerce fos x)) series.
Proof. reflexivity. Qed.

(** The cell of a row of the JSON matrix under a header. *)
Definition json_cell (headers : list scalar) (label : scalar)
           (r : list scalar) : scalar :=
  match cell_at headers label (pad (length headers) r) with
  | Some x => x
  | None => SNull
  end.

Lemma Forall2_compose {A B C : Type} (R : A -> B -> Prop)
      (S : B -> C -> Prop) (l1 : list A) (l2 : list B) (l3 : list C) :
  Forall2 R l1 l2 -> Forall2 S l2 l3 ->
  Forall2 (fun a c => exists b, R a b /\ S b c) l1 l3.
Proof.
  intros H12. revert l3. induction H12 as [|a b l1 l2 Hab _ IH];
    intros l3 H23; inversion H23; subst; constructor; eauto.
Qed.

Lemma Forall2_both {A B : Type} (R S : A -> B -> Prop) (l : list A)
      (l' : list B) :
  Forall2 R l l' -> Forall2 S l l' -> Forall2 (fun a b => R a b /\ S a b) l l'.
Proof.
  intros HR. induction HR as [|a b l l' Hab _ IH]; intros HS;
    inversion HS; subst; constructor; auto.
Qed.

Lemma Forall2_with_Forall {A B : Type} (R : A -> B -> Prop) (Q : A -> Prop)
      (l : list A) (l' : list B) :
  Forall2 R l l' -> Forall Q l -> Forall2 (fun a b => Q a /\ R a b) l l'.
Proof.
  intros HR. induction HR as [|a b l l' Hab _ IH]; intros HQ;
    inversion HQ; subst; constructor; auto.
Qed.

Lemma map2_maps {A B C D : Type} (f : B -> C -> D) (g : A -> B) (h : A -> C)
      (l : list A) :
  map2 f (List.map g l) (List.map h l) = List.map (fun a => f (g a) (h a)) l.
Proof.
  unfold map2. induction l as [|a l IH]; simpl; [reflexivity|].
  rewrite IH. reflexivity.
Qed.

(** The cells of [df'] under [label] are those of [df], read as numbers. *)
Definition coerced (fos : string -> option float) (label : scalar)
           (df df' : DataFrame) : Prop :=
  Forall2 (fun row row' =>
             exists x, cell df label row = Some x /\
                       cell df' label row' = Some (SFloat (coerce fos x)))
          (rows df) (rows df').

(** [df[col] = pd.to_numeric(df[col], errors='coerce')], cell by cell. *)
Lemma numeric_column_cells (fos : string -> option float)
      (df df' : DataFrame) (col : scalar) :
  well_formed df ->
  numeric_column fos df col = inr df' ->
  coerced fos col df df'.
Proof.
  intros Hwf. unfold numeric_column, mbind, result_bind.
  destruct (getitem df col) as [e|series] eqn:Hget; [discriminate|].
  unfold mret, result_ret. intros H. inversion H; subst df'; clear H.
  destruct (Viz.getitem_single _ _ _ Hget) as (i & Hpos & Hseries).
  destruct (getitem_inv _ _ _ Hget) as [_ Hlen].
  assert (Hlen' : length (to_numeric fos series) = length (rows df)).
  { unfold to_numeric. rewrite length_map. exact Hlen. }
  pose proof (setitem_label df col _ Hwf Hlen') as Hl.
  rewrite to_numeric_coerce, Hseries, map_map in Hl at 1.
  apply Forall2_fmap_l in Hl. unfold coerced.
  eapply List.Forall2_impl; [|exact (Forall2_with_Forall _ _ _ _ Hl Hwf)].
  intros row row' [Hrow Hc]. simpl in Hrow, Hc.
  exists (List.nth i row SNull). split; [|exact Hc].
  apply (Viz.cell_nth df col row i []); assumption.
Qed.

(** [df[rate] = (df[num] / df[den] * 100).round(2)], cell by cell. *)
Lemma rate_column_cells (df df' : DataFrame) (rate num den : string) :
  well_formed df ->
  rate_column df rate num den = inr df' ->
  Forall2 (fun row row' =>
             exists n d,
               cell df (SStr num) row = Some n /\
               cell df (SStr den) row = Some d /\
               cell df' (SStr rate) row'
               = Some (SFloat (pct_rate (as_float n) (as_float d))))
          (rows df) (rows df').
Proof.
  intros Hwf. unfold rate_column, mbind, result_bind.
  destruct (getitem df (SStr num)) as [e|n] eqn:Hn; [discriminate|].
  destruct (getitem df (SStr den)) as [e|d] eqn:Hd; [discriminate|].
  unfold mret, result_ret. intros H. inversion H; subst df'; clear H.
  destruct (Viz.getitem_single _ _ _ Hn) as (i & Hi & Hns).
  destruct (Viz.getitem_single _ _ _ Hd) as (j & Hj & Hds).
  assert (Hvalues : series_pct_rate n d
            = List.map (fun row =>
                          SFloat (pct_rate (as_float (List.nth i row SNull))
                                           (as_float (List.nth j row SNull))))
                       (rows df)).
  { unfold series_pct_rate. rewrite Hns, Hds. apply map2_maps. }
  assert (Hlen : length (series_pct_rate n d) = length (rows df)).
  { rewrite Hvalues. apply length_map. }
  pose proof (setitem_label df (SStr rate) _ Hwf Hlen) as Hl.
  rewrite Hvalues in Hl at 1. apply Forall2_fmap_l in Hl.
  eapply List.Forall2_impl; [|exact (Forall2_with_Forall _ _ _ _ Hl Hwf)].
  intros row row' [Hrow Hc]. simpl in Hrow, Hc.
  exists (List.nth i row SNull), (List.nth j row SNull).
  split; [|split; [|exact Hc]].
  - apply (Viz.cell_nth df _ row i []); assumption.
  - apply (Viz.cell_nth df _ row j []); assumption.
Qed.

Lemma positions_count (label : scalar) (cols : list scalar) (k : nat) :
  length (positions label cols k) = List.count_occ scalar_eq_dec cols label.
Proof.
  revert k. induction cols as [|c cols IH]; intros k; simpl; [reflexivity|].
  unfold scalar_eqb, bool_decide, decide, decide_rel.
  destruct (scalar_eq_dec c label); simpl; rewrite IH; reflexivity.
Qed.

(** A column that [df[label]] finds occurs once among the headers. *)
Lemma getitem_once (df : DataFrame) (label : scalar) (series : list scalar)
      (headers : list scalar) :
  columns df = with_year headers ->
  label <> SStr "year" ->
  getitem df label = inr series ->
  List.count_occ scalar_eq_dec headers label = 1%nat.
Proof.
  intros Hcols Hne Hget.
  destruct (Viz.getitem_single _ _ _ Hget) as (i & Hpos & _).
  pose proof (positions_count label (columns df) 0) as Hcount.
  rewrite Hpos, Hcols in Hcount. cbn [length] in Hcount.
  unfold with_year in Hcount.
  destruct (List.existsb (scalar_eqb (SStr "year")) headers);
    [congruence|].
  rewrite count_occ_app in Hcount. cbn [List.count_occ] in Hcount.
  destruct (scalar_eq_dec (SStr "year") label); [congruence|]. lia.
Qed.

(** ** The steps of the processing *)

Lemma keeps_refl (P : scalar -> Prop) (df : DataFrame) : keeps P df df.
Proof. unfold keeps. induction (rows df); constructor; auto. Qed.

(** [df] has the columns [cols], one cell per column in every row, and the
    cells of [base] under the labels that satisfy [P]. *)
Definition shaped (P : scalar -> Prop) (base df : DataFrame)
           (cols : list scalar) : Prop :=
  columns df = cols /\ well_formed df /\ keeps P base df.

Lemma shaped_start (P : scalar -> Prop) (df : DataFrame) :
  well_formed df -> shaped P df df (columns df).
Proof. intros Hwf. repeat split; [exact Hwf | apply keeps_refl]. Qed.

Lemma shaped_numeric_column (fos : string -> option float)
      (P : scalar -> Prop) (base df df' : DataFrame) (cols : list scalar)
      (col : scalar) :
  shaped P base df cols ->
  (forall l, P l -> l <> col) ->
  numeric_column fos df col = inr df' ->
  shaped P base df' cols.
Proof.
  intros (Hc & Hwf & Hk) HP H.
  destruct (numeric_column_inv _ _ _ _ Hwf H) as (Hc' & Hwf' & Hk').
  repeat split; [congruence | exact Hwf' |].
  apply keeps_trans with df; [exact Hk|].
  eapply keeps_weaken; [|exact Hk']. exact HP.
Qed.

Lemma shaped_setitem (P : scalar -> Prop) (base df : DataFrame)
      (cols : list scalar) (label : scalar) (values : list scalar) :
  shaped P base df cols ->
  (forall l, P l -> l <> label) ->
  length values = length (rows df) ->
  shaped P base (setitem df label values) (with_column label cols).
Proof.
  intros (Hc & Hwf & Hk) HP Hlen. repeat split.
  - rewrite <- Hc. apply setitem_columns.
  - apply setitem_well_formed; assumption.
  - apply keeps_trans with df; [exact Hk|].
    eapply keeps_weaken; [|apply setitem_keeps; assumption]. exact HP.
Qed.

Lemma shaped_copy_column (P : scalar -> Prop) (base df df' : DataFrame)
      (cols : list scalar) (new old : string) :
  shaped P base df cols ->
  (forall l, P l -> l <> SStr new) ->
  copy_column df new old = inr df' ->
  shaped P base df' (with_column (SStr new) cols).
Proof.
  intros Hs HP. unfold copy_column, mbind, result_bind.
  destruct (getitem df (SStr old)) as [e|series] eqn:Hget; [discriminate|].
  unfold mret, result_ret. intros H. inversion H; subst df'; clear H.
  apply shaped_setitem; [exact Hs | exact HP |].
  apply (getitem_inv _ _ _ Hget).
Qed.

Lemma shaped_rate_column (P : scalar -> Prop) (base df df' : DataFrame)
      (cols : list scalar) (rate num den : string) :
  shaped P base df cols ->
  (forall l, P l -> l <> SStr rate) ->
  rate_column df rate num den = inr df' ->
  shaped P base df' (with_column (SStr rate) cols).
Proof.
  intros (Hc & Hwf & Hk) HP H.
  destruct (rate_column_inv _ _ _ _ _ Hwf H) as (Hc' & Hwf' & Hk').
  repeat split; [congruence | exact Hwf' |].
  apply keeps_trans with df; [exact Hk|].
  eapply keeps_weaken; [|exact Hk']. exact HP.
Qed.

Lemma shaped_rename (P : scalar -> Prop) (base df : DataFrame)
      (cols : list scalar) (mapping : list (string * string)) :
  shaped P base df cols ->
  (forall l, P l ->
     assoc l mapping = None /\
     Forall (fun kv => SStr (snd kv) <> l) mapping) ->
  columns (rename df mapping) = List.map (new_name mapping) cols /\
  keeps P base (rename df mapping).
Proof.
  intros (Hc & Hwf & Hk) HP. split.
  - rewrite rename_columns, Hc. reflexivity.
  - apply keeps_trans with df; [exact Hk|].
    eapply keeps_weaken; [|apply rename_keeps]. exact HP.
Qed.

(** ** [for col in headers: if col not in ['NAME', 'state']: ...] *)

Definition name_or_state (label : scalar) : Prop :=
  label = SStr "NAME" \/ label = SStr "state".

Lemma coerce_twice (fos : string -> option float) (x : scalar) :
  coerce fos (SFloat (coerce fos x)) = coerce fos x.
Proof. reflexivity. Qed.

Lemma numeric_columns_inv (fos : string -> option float)
      (hs : list scalar) (df df' : DataFrame) :
  well_formed df ->
  numeric_columns fos hs df = inr df' ->
  columns df' = columns df /\ well_formed df' /\
  keeps (fun l => name_or_state l \/ ~ In l hs) df df' /\
  (forall l, ~ name_or_state l -> In l hs -> coerced fos l df df').
Proof.
  revert df. induction hs as [|col rest IH]; intros df Hwf H.
  - inversion H; subst df'. repeat split; try assumption.
    + apply keeps_refl.
    + intros l _ [].
  - cbn [numeric_columns] in H.
    destruct (scalar_eqb col (SStr "NAME") || scalar_eqb col (SStr "state"))
      eqn:Hskip.
    + (* the column is left as it is *)
      assert (Hcol : name_or_state col).
      { apply orb_true_iff in Hskip. unfold scalar_eqb in Hskip.
        destruct Hskip as [E|E]; apply bool_decide_eq_true in E;
          [left | right]; exact E. }
      destruct (IH df Hwf H) as (Hc & Hwf' & Hk & Hco).
      repeat split; try assumption.
      * eapply keeps_weaken; [|exact Hk].
        intros l [Hl|Hl]; [left; exact Hl|].
        right. intros Hin. apply Hl. right. exact Hin.
      * intros l Hl [Heq|Hin]; [subst; contradiction|].
        apply Hco; assumption.
    + (* the column is read as numbers *)
      assert (Hcol : ~ name_or_state col).
      { apply orb_false_iff in Hskip. unfold scalar_eqb in Hskip.
        destruct Hskip as [E1 E2].
        apply bool_decide_eq_false in E1. apply bool_decide_eq_false in E2.
        intros [?|?]; contradiction. }
      unfold mbind, result_bind in H.
      destruct (numeric_column fos df col) as [e|dfa] eqn:Ha;
        [discriminate|].
      destruct (numeric_column_inv _ _ _ _ Hwf Ha) as (Hca & Hwfa & Hka).
      pose proof (numeric_column_cells _ _ _ _ Hwf Ha) as Hcells.
      destruct (IH dfa Hwfa H) as (Hc & Hwf' & Hk & Hco).
      repeat split; [congruence | exact Hwf' | |].
      * apply keeps_trans with dfa.
        -- eapply keeps_weaken; [|exact Hka].
           intros l [Hl|Hl] ->; [contradiction|].
           apply Hl. left. reflexivity.
        -- eapply keeps_weaken; [|exact Hk].
           intros l [Hl|Hl]; [left; exact Hl|].
           right. intros Hin. apply Hl. right. exact Hin.
      * intros l Hl Hin. unfold coerced.
        destruct (decide (l = col)) as [->|Hne].
        -- (* coerced here; later left alone or coerced again *)
           destruct (in_dec scalar_eq_dec col rest) as [Hlater|Hnever].
           ++ pose proof (Forall2_compose _ _ _ _ _ Hcells
                            (Hco col Hl Hlater)) as Hboth.
              eapply List.Forall2_impl; [|exact Hboth].
              intros row row' (mid & (x & Hx & Hmid) & (y & Hy & Hrow')).
              simpl in Hy. rewrite Hmid in Hy. inversion Hy; subst y.
              exists x. split; [exact Hx|]. rewrite Hrow'. reflexivity.
           ++ assert (Hkeep : keeps (fun l => l = col) dfa df').
              { eapply keeps_weaken; [|exact Hk].
                intros l ->. right. exact Hnever. }
              pose proof (Forall2_compose _ _ _ _ _ Hcells Hkeep) as Hboth.
              eapply List.Forall2_impl; [|exact Hboth].
              intros row row' (mid & (x & Hx & Hmid) & Hrow').
              exists x. split; [exact Hx|].
              rewrite (Hrow' col eq_refl). exact Hmid.
        -- (* left alone here, coerced later *)
           destruct Hin as [Heq|Hin]; [congruence|].
           assert (Hkeep : keeps (fun l' => l' = l) df dfa).
           { eapply keeps_weaken; [|exact Hka]. intros l' ->. exact Hne. }
           pose proof (Forall2_compose _ _ _ _ _ Hkeep (Hco l Hl Hin))
             as Hboth.
           eapply List.Forall2_impl; [|exact Hboth].
           intros row row' (mid & Hmid & (x & Hx & Hrow')).
           exists x. split; [|exact Hrow'].
           rewrite <- (Hmid l eq_refl). exact Hx.
Qed.


(** ** A table after [df['year'] = year] *)

(** The table read from the matrix [headers :: rws]: its columns, one cell
    per column, one row per row of the matrix, [ycell] under [year], and the
    cells of the matrix under NAME and state. *)
Definition read (headers : list scalar) (rws : list (list scalar))
           (ycell : scalar) (df : DataFrame) : Prop :=
  columns df = with_year headers /\
  well_formed df /\
  length (rows df) = length rws /\
  Forall (fun row => cell df (SStr "year") row = Some ycell) (rows df) /\
  from_json name_or_state headers rws df.

Lemma parse_table_read (year : Z) (headers : list scalar)
      (rws : list (list scalar)) (df : DataFrame) :
  parse_table year (headers :: rws) = inr df ->
  read headers rws (SInt year) df.
Proof.
  intros H.
  destruct (parse_table_inv _ _ _ H)
    as (headers' & rws' & Hdata & Hcols & Hwf & Hlen & Hyear & Hother).
  inversion Hdata; subst headers' rws'. repeat split; try assumption.
  unfold from_json. eapply List.Forall2_impl; [|exact Hother].
  intros r row Hr label [->| ->]; apply Hr; discriminate.
Qed.

(** The cell under [year] once every header has been read as numbers: the
    loop reaches the column [year] when the headers name it. *)
Definition year_after (headers : list scalar) (year : Z) : scalar :=
  if List.existsb (scalar_eqb (SStr "year")) headers
  then SFloat (of_Z year) else SInt year.

Lemma existsb_In (label : scalar) (l : list scalar) :
  List.existsb (scalar_eqb label) l = true <-> In label l.
Proof.
  rewrite existsb_exists. unfold scalar_eqb. split.
  - intros (x & Hx & E). apply bool_decide_eq_true in E. subst. exact Hx.
  - intros H. exists label. split; [exact H|].
    apply bool_decide_eq_true. reflexivity.
Qed.

Lemma numeric_columns_read (fos : string -> option float) (year : Z)
      (headers : list scalar) (rws : list (list scalar))
      (df df' : DataFrame) :
  read headers rws (SInt year) df ->
  numeric_columns fos headers df = inr df' ->
  read headers rws (year_after headers year) df'.
Proof.
  intros (Hc & Hwf & Hlen & Hy & Hj) H.
  destruct (numeric_columns_inv _ _ _ _ Hwf H) as (Hc' & Hwf' & Hk & Hco).
  repeat split.
  - congruence.
  - exact Hwf'.
  - rewrite (keeps_length _ _ _ Hk). exact Hlen.
  - unfold year_after.
    destruct (List.existsb (scalar_eqb (SStr "year")) headers) eqn:Hin.
    + apply existsb_In in Hin.
      assert (Hno : ~ name_or_state (SStr "year"))
        by (intros [?|?]; discriminate).
      pose proof (Hco _ Hno Hin) as Hcells. unfold coerced in Hcells.
      eapply Forall2_transfer; [exact Hcells | exact Hy |].
      intros row row' (x & Hx & Hrow') Hrow. simpl in Hrow.
      rewrite Hrow in Hx. inversion Hx; subst x. exact Hrow'.
    + apply (keeps_Forall (fun l => l = SStr "year") df);
        [reflexivity | | exact Hy].
      eapply keeps_weaken; [|exact Hk]. intros l ->. right.
      intros Hin'. apply existsb_In in Hin'. congruence.
  - apply from_json_keeps with df; [exact Hj|].
    eapply keeps_weaken; [|exact Hk]. intros l Hl. left. exact Hl.
Qed.

(** The labels no script assigns or renames. *)
Definition fixed (label : scalar) : Prop :=
  label = SStr "NAME" \/ label = SStr "state" \/ label = SStr "year".

Lemma new_name_nil (cols : list scalar) : List.map (new_name []) cols = cols.
Proof. induction cols as [|c cols IH]; simpl; [|rewrite IH]; reflexivity. Qed.

(** The table at the end of the processing, before [rename]. *)
Lemma processed (headers : list scalar) (rws : list (list scalar))
      (ycell : scalar) (base df : DataFrame) (cols : list scalar) :
  read headers rws ycell base ->
  shaped fixed base df cols ->
  length (rows df) = length rws /\
  columns df = cols /\
  Forall (fun row => cell df (SStr "year") row = Some ycell) (rows df) /\
  from_json name_or_state headers rws df.
Proof.
  intros (Hc & Hwf & Hlen & Hy & Hj) (Hcols & Hwf' & Hk). repeat split.
  - rewrite (keeps_length _ _ _ Hk). exact Hlen.
  - exact Hcols.
  - apply (keeps_Forall fixed base); [right; right; reflexivity | exact Hk |
                                       exact Hy].
  - apply from_json_keeps with base; [exact Hj|].
    eapply keeps_weaken; [|exact Hk]. intros l [->| ->]; [left | right; left];
      reflexivity.
Qed.

(** ... and after it. *)
Lemma processed_renamed (headers : list scalar) (rws : list (list scalar))
      (ycell : scalar) (base df : DataFrame) (cols : list scalar)
      (mapping : list (string * string)) :
  read headers rws ycell base ->
  shaped fixed base df cols ->
  (forall l, fixed l ->
     assoc l mapping = None /\
     Forall (fun kv => SStr (snd kv) <> l) mapping) ->
  length (rows (rename df mapping)) = length rws /\
  columns (rename df mapping) = List.map (new_name mapping) cols /\
  Forall (fun row => cell (rename df mapping) (SStr "year") row = Some ycell)
         (rows (rename df mapping)) /\
  from_json name_or_state headers rws (rename df mapping).
Proof.
  intros Hread Hs Hmap.
  destruct (shaped_rename _ _ _ _ _ Hs Hmap) as [Hcols Hk].
  destruct Hread as (Hc & Hwf & Hlen & Hy & Hj). repeat split.
  - rewrite (keeps_length _ _ _ Hk). exact Hlen.
  - exact Hcols.
  - apply (keeps_Forall fixed base); [right; right; reflexivity | exact Hk |
                                       exact Hy].
  - apply from_json_keeps with base; [exact Hj|].
    eapply keeps_weaken; [|exact Hk]. intros l [->| ->]; [left | right; left];
      reflexivity.
Qed.

Lemma read_shaped (headers : list scalar) (rws : list (list scalar))
      (ycell : scalar) (df : DataFrame) :
  read headers rws ycell df -> shaped fixed df df (with_year headers).
Proof.
  intros (Hc & Hwf & _). rewrite <- Hc. apply shaped_start. exact Hwf.
Qed.

(** ** Proof steps for the lines of a script *)

Ltac peel :=
  match goal with
  | |- match ?x with inl _ => _ | inr _ => _ end = inr _ -> _ =>
      let H := fresh "Hline" in
      let d := fresh "df" in
      destruct x as [?|d] eqn:H; [discriminate|]; cbv beta zeta
  end.

Ltac fixed_ne :=
  let l := fresh "l" in
  intros l [->|[->| ->]]; discriminate.

Ltac fixed_names :=
  let l := fresh "l" in
  intros l [->|[->| ->]];
  (split; [reflexivity | repeat constructor; discriminate]).

Ltac same_length :=
  repeat match goal with
         | H : getitem _ _ = inr _ |- _ =>
             apply getitem_inv in H; destruct H as [_ H]
         end;
  repeat match goal with
         | H : shaped _ _ _ _ |- _ => clear H
         end;
  unfold series_add, series_sub in *; rewrite ?map2_length; lia.

(** Follows the lines of a script from the table [S] describes. *)
Ltac lines :=
  repeat match goal with
         | S : shaped fixed ?base ?d _,
           H : numeric_column _ ?d _ = inr _ |- _ =>
             eapply shaped_numeric_column in H; [| exact S | fixed_ne];
             clear S
         | S : shaped fixed ?base ?d _,
           H : copy_column ?d _ _ = inr _ |- _ =>
             eapply shaped_copy_column in H; [| exact S | fixed_ne];
             clear S
         | S : shaped fixed ?base ?d _,
           H : rate_column ?d _ _ _ = inr _ |- _ =>
             eapply shaped_rate_column in H; [| exact S | fixed_ne];
             clear S
         end.

(** A column assigned from series of the table's own columns. *)
Ltac assigned :=
  match goal with
  | S : shaped fixed ?base ?d ?cols |- _ =>
      match goal with
      | _ : context [setitem d ?l ?v] |- _ =>
          let S' := fresh "S" in
          assert (S' : shaped fixed base (setitem d l v) (with_column l cols))
            by (apply shaped_setitem; [exact S | fixed_ne | same_length]);
          clear S
      end
  end.

(** The end of the lines: the table that is returned. *)
Ltac returned :=
  unfold mret, result_ret;
  let H := fresh "H" in
  intros H; inversion H; subst; clear H.

(** The table after [df['year'] = year] and the loop over the headers. *)
Ltac opening :=
  match goal with
  | H : parse_table _ _ = inr _ |- _ => apply parse_table_read in H
  end;
  try match goal with
      | R : read _ _ _ ?d, H : numeric_columns _ _ ?d = inr _ |- _ =>
          apply (numeric_columns_read _ _ _ _ _ _ R) in H; clear R
      end;
  match goal with
  | R : read _ _ _ ?d |- _ => pose proof (read_shaped _ _ _ _ R)
  end.

Ltac closing :=
  match goal with
  | R : read _ _ _ ?base, S : shaped fixed ?base _ _ |- _ =>
      first [ apply (processed_renamed _ _ _ _ _ _ _ R S); fixed_names
            | rewrite new_name_nil; apply (processed _ _ _ _ _ _ R S) ]
  end.

(** ** The output files of the ten scripts *)

(** An output file is the file of a year of a script with one table, the
    occupation or the industry file of a year, or the file of a year of a
    table of [download_hispanic_comparison_data]. *)
Inductive output :=
| OfYear (s : yearly)
| OfOccupation
| OfIndustry
| OfHispanic (t : table_info).

Definition output_script (k : output) (net : string -> response) (os : disk)
           (irregular : string -> string -> result DataFrame)
           (fos : string -> option float) : M unit :=
  match k with
  | OfYear s => yearly_script s net os irregular fos
  | OfOccupation | OfIndustry =>
      download_occupation_industry_data net os irregular fos
  | OfHispanic _ => download_hispanic_comparison_data net os irregular fos
  end.

Definition output_dir (k : output) : string :=
  match k with
  | OfYear s => yearly_dir s
  | OfOccupation | OfIndustry => occupation_industry_dir
  | OfHispanic _ => hispanic_dir
  end.

Definition output_url (k : output) : Z -> string :=
  match k with
  | OfYear s => yearly_url s
  | OfOccupation => occupation_url
  | OfIndustry => industry_url
  | OfHispanic t => hispanic_url t
  end.

Definition output_file (k : output) : Z -> string :=
  match k with
  | OfYear s => yearly_file s
  | OfOccupation => occupation_file
  | OfIndustry => industry_file
  | OfHispanic t => hispanic_file t
  end.

(** What the lines of the script do with the matrix of a year. *)
Definition output_table (k : output) (fos : string -> option float)
  : Z -> list (list scalar) -> result DataFrame :=
  match k with
  | OfYear s => yearly_table s fos
  | OfOccupation => occupation_table fos
  | OfIndustry => industry_table fos
  | OfHispanic t => hispanic_table fos (table_key t)
  end.

(** The table of a year once requested, checked, decoded and processed. *)
Definition output_fetched (k : output) (net : string -> response)
           (irregular : string -> string -> result DataFrame)
           (fos : string -> option float) (year : Z) : result DataFrame :=
  fetch_result net (output_url k year)
    (process irregular (output_url k year) (output_table k fos year)).

(** The columns a script assigns after the parsing, in the order of its
    lines. *)
Definition hispanic_added (key : string) : list string :=
  if String.eqb key "poverty" then ["poverty_rate"]
  else if String.eqb key "health_insurance"
       then ["insurance_coverage_rate"; "uninsured_rate"]
       else [].

Definition added (k : output) : list string :=
  match k with
  | OfYear Poverty_data => ["poverty_rate"]
  | OfYear Year_of_arrival_data =>
      ["moved_total"; "migration_rate"; "moved_from_different_state_rate";
       "moved_from_abroad_rate"]
  | OfYear Commuting_data =>
      ["drove_alone"; "carpooled"; "public_transit"; "walked"; "other_means";
       "worked_from_home"; "drove_alone_rate"; "carpooled_rate";
       "public_transit_rate"; "walked_rate"; "worked_from_home_rate"]
  | OfYear Language_data =>
      ["speaks_spanish"; "limited_english_proficiency"; "english_only_rate";
       "spanish_speaking_rate"; "limited_english_rate"]
  | OfYear Health_insurance_data =>
      ["insurance_coverage_rate"; "uninsured_rate"]
  | OfHispanic t => hispanic_added (table_key t)
  | _ => []
  end.

(** The argument of the [rename] that ends the processing. *)
Definition hispanic_renamed (key : string) : list (string * string) :=
  if String.eqb key "poverty"
  then [("B17001I_001E", "total_population");
        ("B17001I_002E", "below_poverty_level")]
  else if String.eqb key "health_insurance"
  then [("B27001I_001E", "total_population");
        ("B27001I_003E", "with_insurance");
        ("B27001I_009E", "without_insurance")]
  else if String.eqb key "housing_rent"
  then [("B25064I_001E", "median_gross_rent")]
  else if String.eqb key "housing_value"
  then [("B25077I_001E", "median_home_value")]
  else [].

Definition renamed (k : output) : list (string * string) :=
  match k with
  | OfYear Census_data | OfYear County_data => []
  | OfYear Poverty_data => poverty_names
  | OfYear Housing_data =>
      [("B25064_001E", "median_gross_rent");
       ("B25077_001E", "median_home_value")]
  | OfYear Year_of_arrival_data =>
      [("B07001_001E", "total_population");
       ("B07001_002E", "same_house_1yr_ago");
       ("B07001_003E", "moved_same_county");
       ("B07001_004E", "moved_different_county_same_state");
       ("B07001_005E", "moved_different_state");
       ("B07001_006E", "moved_from_abroad")]
  | OfYear Commuting_data => [("B08301I_001E", "total_workers_16plus")]
  | OfYear Language_data =>
      [("B16001I_001E", "total_population_5plus");
       ("B16001I_002E", "speaks_english_only");
       ("B16001I_003E", "spanish_english_very_well");
       ("B16001I_004E", "spanish_english_well");
       ("B16001I_005E", "spanish_english_not_well");
       ("B16001I_006E", "spanish_english_not_at_all")]
  | OfYear Health_insurance_data =>
      [("B27001I_001E", "total_population");
       ("B27001I_003E", "with_insurance");
       ("B27001I_009E", "without_insurance")]
  | OfOccupation => [("B24010_001E", "total_employed")]
  | OfIndustry => [("B24030_001E", "total_employed")]
  | OfHispanic t => hispanic_renamed (table_key t)
  end.

(** The column names of the written table, given the JSON headers. *)
Definition written_columns (k : output) (headers : list scalar)
  : list scalar :=
  List.map (new_name (renamed k))
    (List.fold_left (fun cols label => with_column (SStr label) cols)
                    (added k) (with_year headers)).

(** The scripts that read every header but NAME and state as numbers. *)
Definition reads_every_header (k : output) : bool :=
  match k with
  | OfYear Commuting_data | OfYear Language_data | OfHispanic _ => true
  | _ => false
  end.

(** The cell under [year] in the written table. *)
Definition year_cell (k : output) (headers : list scalar) (year : Z)
  : scalar :=
  if reads_every_header k then year_after headers year else SInt year.

(** The labels under which the written table has the cells of the JSON
    matrix. *)
Definition carried (k : output) (label : scalar) : Prop :=
  match k with
  | OfYear Census_data | OfYear County_data => label <> SStr "year"
  | _ => name_or_state label
  end.

Lemma output_table_inv (k : output) (fos : string -> option float)
      (year : Z) (headers : list scalar) (rws : list (list scalar))
      (df : DataFrame) :
  output_table k fos year (headers :: rws) = inr df ->
  length (rows df) = length rws /\
  columns df = written_columns k headers /\
  Forall (fun row =>
            cell df (SStr "year") row = Some (year_cell k headers year))
         (rows df) /\
  from_json (carried k) headers rws df.
Proof.
  unfold written_columns, year_cell.
  destruct k as [[]| | |t];
    cbn [output_table yearly_table added renamed List.fold_left
         reads_every_header carried].
  - (* download_census_data *)
    unfold census_table. intros H.
    destruct (parse_table_inv _ _ _ H)
      as (headers' & rws' & Hdata & _ & _ & Hlen & _).
    inversion Hdata; subst headers' rws'.
    destruct (parse_table_from_json _ _ _ _ H) as (Hc & _ & Hy & Hj).
    rewrite new_name_nil. auto.
  - (* download_poverty_data *)
    unfold poverty_table, mbind, result_bind. repeat peel. returned.
    opening. lines. closing.
  - (* download_housing_data *)
    unfold housing_table, mbind, result_bind. repeat peel. returned.
    opening. lines. closing.
  - (* download_year_of_arrival_data *)
    unfold arrival_table, mbind, result_bind. repeat peel. returned.
    opening. lines. assigned. lines. closing.
  - (* download_county_data *)
    unfold county_table. intros H.
    destruct (parse_table_inv _ _ _ H)
      as (headers' & rws' & Hdata & _ & _ & Hlen & _).
    inversion Hdata; subst headers' rws'.
    destruct (parse_table_from_json _ _ _ _ H) as (Hc & _ & Hy & Hj).
    rewrite new_name_nil. auto.
  - (* download_commuting_data *)
    unfold commuting_table, mbind, result_bind. cbn [item0].
    repeat peel. returned. opening. lines. closing.
  - (* download_language_data *)
    unfold language_table, mbind, result_bind. cbn [item0].
    repeat peel. returned. opening. lines. assigned. assigned. lines.
    closing.
  - (* download_health_insurance_data *)
    unfold health_insurance_table, mbind, result_bind. repeat peel. returned.
    opening. lines. closing.
  - (* download_occupation_industry_data: occupation *)
    unfold occupation_table, mbind, result_bind. repeat peel. returned.
    opening. lines. closing.
  - (* download_occupation_industry_data: industry *)
    unfold industry_table, mbind, result_bind. repeat peel. returned.
    opening. lines. closing.
  - (* download_hispanic_comparison_data *)
    unfold hispanic_table, hispanic_added, hispanic_renamed, mbind,
      result_bind.
    cbn [item0]. do 2 peel.
    destruct (String.eqb (table_key t) "poverty");
      [|destruct (String.eqb (table_key t) "health_insurance");
        [|destruct (String.eqb (table_key t) "housing_rent");
          [|destruct (String.eqb (table_key t) "housing_value")]]];
      cbn [List.fold_left];
      repeat peel; returned; opening; lines; closing.
Qed.


(** ** When the table of a year reaches its file *)

(** What has to go well around the table of [year] for the script to call
    [to_csv] on it.  A script that checks for its output file first must
    find none.  [download_occupation_industry_data] fetches and processes
    both tables before it writes the first: the occupation table is written
    when the industry table has been fetched and processed, the industry
    table when the occupation table has been written. *)
Definition reaches_to_csv (k : output) (net : string -> response)
           (os : disk) (irregular : string -> string -> result DataFrame)
           (fos : string -> option float) (fs : gmap string file) (year : Z)
  : Prop :=
  match k with
  | OfYear s => yearly_skip s = true -> fs !! yearly_file s year = None
  | OfOccupation =>
      exists ind_df, industry_fetched net irregular fos year = inr ind_df
  | OfIndustry =>
      exists occ_df,
        occupation_fetched net irregular fos year = inr occ_df /\
        to_csv_answer os (occupation_file year) occ_df = Written
  | OfHispanic t => In t tables /\ fs !! hispanic_file t year = None
  end.

Lemma occupation_industry_apart (year : Z) :
  industry_file year <> occupation_file year.
Proof.
  unfold industry_file, occupation_file, occupation_industry_dir.
  intros H. apply (f_equal (fun s => String.get 42 s)) in H.
  cbn in H. discriminate.
Qed.

Lemma table_is_written (k : output) (net : string -> response) (os : disk)
      (irregular : string -> string -> result DataFrame)
      (fos : string -> option float) (w : world) (year : Z)
      (df : DataFrame) :
  In year years ->
  makedirs_answer os (output_dir k) = inr tt ->
  reaches_to_csv k net os irregular fos (files w) year ->
  output_fetched k net irregular fos year = inr df ->
  to_csv_answer os (output_file k year) df = Written ->
  files (snd (output_script k net os irregular fos w)) !! output_file k year
  = Some (CsvFile df).
Proof.
  intros Hin Hmk Hreach Hfetch Hwrite.
  destruct k as [s| | |t];
    cbn [output_script output_dir output_file output_url output_table
         reaches_to_csv] in *; unfold output_fetched in Hfetch;
    cbn [output_url output_table] in Hfetch.
  - (* one table a year *)
    rewrite (runs_as_files _ _ _ _ (yearly_script_run s net os irregular fos)).
    pose proof (run_years_written net os (yearly_loop s irregular fos) years
                  (files w) year df Hin) as Hw.
    unfold skipped in Hw. rewrite yearly_loop_eq in Hw |- *.
    cbn [py_file py_url py_table py_skip py_dir] in Hw |- *.
    unfold started. rewrite Hmk. apply Hw.
    + apply yearly_files_distinct.
    + destruct (yearly_skip s); [|reflexivity].
      rewrite (Hreach eq_refl). reflexivity.
    + exact Hfetch.
    + exact Hwrite.
  - (* the occupation table *)
    destruct Hreach as [ind_df Hind].
    rewrite (runs_as_files _ _ _ _
               (download_occupation_industry_data_run net os irregular fos)).
    unfold started. rewrite Hmk.
    rewrite (run_occupation_at net os irregular fos years (files w) year
               (occupation_file year) Hin (or_introl eq_refl)
               occupation_files_distinct).
    unfold occupation_year_files, occupation_fetched.
    rewrite Hfetch, Hind, Hwrite.
    rewrite after_to_csv_other by apply occupation_industry_apart.
    apply lookup_insert_eq.
  - (* the industry table *)
    destruct Hreach as (occ_df & Hocc & Hfirst).
    rewrite (runs_as_files _ _ _ _
               (download_occupation_industry_data_run net os irregular fos)).
    unfold started. rewrite Hmk.
    rewrite (run_occupation_at net os irregular fos years (files w) year
               (industry_file year) Hin (or_intror (or_introl eq_refl))
               occupation_files_distinct).
    unfold occupation_year_files, industry_fetched.
    rewrite Hocc, Hfetch, Hfirst.
    rewrite (after_to_csv_written _ _ _ _ Hwrite).
    apply lookup_insert_eq.
  - (* a table of the Hispanic comparison *)
    destruct Hreach as [Ht Hnone].
    rewrite (runs_as_files _ _ _ _
               (download_hispanic_comparison_data_run net os irregular fos)).
    unfold started. rewrite Hmk.
    rewrite (run_tables_at net os irregular fos tables (files w) t year Ht
               Hin hispanic_files_distinct).
    unfold year_files, skipped. cbn [hispanic_loop py_file py_url py_table
                                     py_skip].
    rewrite Hnone.
    rewrite bool_decide_eq_false_2 by (intros [x Hx]; discriminate).
    cbn [andb]. rewrite Hfetch, (after_to_csv_written _ _ _ _ Hwrite).
    apply lookup_insert_eq.
Qed.

Lemma matrix_is_processed (k : output) (net : string -> response)
      (irregular : string -> string -> result DataFrame)
      (fos : string -> option float) (year code : Z)
      (data : list (list scalar)) :
  net (output_url k year) = Response code (Some (JMatrix data)) ->
  ((400 <=? code) && (code <? 600))%Z = false ->
  output_fetched k net irregular fos year = output_table k fos year data.
Proof.
  intros Hnet Hcode. unfold output_fetched.
  rewrite (fetch_result_ok net _ _ code (JMatrix data) Hnet Hcode).
  reflexivity.
Qed.

(** ** C6: the written table and the JSON matrix *)

(** The cell holds the number [year]. *)
Definition holds_year (year : Z) (x : option scalar) : Prop :=
  x = Some (SInt year) \/ x = Some (SFloat (of_Z year)).

Lemma year_cell_holds (k : output) (headers : list scalar) (year : Z) :
  holds_year year (Some (year_cell k headers year)).
Proof.
  unfold year_cell, year_after, holds_year.
  destruct (reads_every_header k); [|left; reflexivity].
  destruct (List.existsb (scalar_eqb (SStr "year")) headers);
    [right | left]; reflexivity.
Qed.

(** C6, as the code has it.  In each of the ten Census download scripts,
    when [os.makedirs] succeeds, the request of a year answers a JSON
    matrix with a status that [raise_for_status] accepts, the lines of the
    script process it, the script reaches [to_csv] and the file is written,
    then the file holds the processed table.  That table has one row for
    each element of the matrix after the first, holds the requested year
    under [year] in every row, and has the cells of the matrix under NAME
    and state (under every header, in [download_census_data] and
    [download_county_data]).  Its column names are the headers, followed by
    [year] unless the headers name it, followed by the columns the script
    computes, with the names the final [rename] gives them: they are the
    header names only in [download_census_data] and
    [download_county_data]. *)
Theorem written_table_follows_the_json
        (k : output) (net : string -> response) (os : disk)
        (irregular : string -> string -> result DataFrame)
        (fos : string -> option float) (w : world) (year code : Z)
        (data : list (list scalar)) (df : DataFrame) :
  In year years ->
  makedirs_answer os (output_dir k) = inr tt ->
  reaches_to_csv k net os irregular fos (files w) year ->
  net (output_url k year) = Response code (Some (JMatrix data)) ->
  ((400 <=? code) && (code <? 600))%Z = false ->
  output_table k fos year data = inr df ->
  to_csv_answer os (output_file k year) df = Written ->
  files (snd (output_script k net os irregular fos w)) !! output_file k year
  = Some (CsvFile df) /\
  exists headers rws,
    data = headers :: rws /\
    length (rows df) = (length data - 1)%nat /\
    columns df = written_columns k headers /\
    Forall (fun row => holds_year year (cell df (SStr "year") row))
           (rows df) /\
    from_json (carried k) headers rws df.
Proof.
  intros Hin Hmk Hreach Hnet Hcode Htable Hwrite. split.
  - apply table_is_written; try assumption.
    rewrite (matrix_is_processed k net irregular fos year code data Hnet
               Hcode).
    exact Htable.
  - destruct data as [|headers rws].
    + exfalso. destruct k as [[]| | |t]; discriminate Htable.
    + destruct (output_table_inv k fos year headers rws df Htable)
        as (Hlen & Hcols & Hyear & Hjson).
      exists headers, rws. repeat split; try assumption.
      * rewrite Hlen. simpl. lia.
      * eapply Forall_impl; [|exact Hyear].
        intros row Hrow. simpl in Hrow. rewrite Hrow. apply year_cell_holds.
Qed.

(** "The written table carries the header names as column names". *)
Definition carries_the_headers (data : list (list scalar)) (df : DataFrame)
  : Prop :=
  forall headers label,
    List.hd_error data = Some headers -> In label headers ->
    In label (columns df).

Example census_carries_the_headers :
  exists df,
    files (snd (download_census_data (serve two_states) sound_disk rejected
                                     empty_world))
      !! census_file 2010 = Some (CsvFile df) /\
    carries_the_headers two_states df.
Proof.
  eexists. split; [vm_compute; reflexivity|].
  intros headers label H. inversion H; subst. simpl. tauto.
Qed.

(** C6, as stated, fails: the table that [download_poverty_data] writes does
    not have the header B17001_001E among its column names. *)
Lemma poverty_headers_are_renamed :
  exists df,
    files (snd (download_poverty_data (serve poverty_sample) sound_disk
                                      rejected whole_numbers empty_world))
      !! poverty_file 2010 = Some (CsvFile df) /\
    ~ carries_the_headers poverty_sample df.
Proof.
  eexists. split; [vm_compute; reflexivity|].
  intros H. specialize (H _ (SStr "B17001_001E") eq_refl).
  simpl in H.
  assert (Hin : SStr "NAME" = SStr "B17001_001E" \/
                SStr "B17001_001E" = SStr "B17001_001E" \/
                SStr "B17001_002E" = SStr "B17001_001E" \/
                SStr "state" = SStr "B17001_001E" \/ False) by tauto.
  specialize (H Hin).
  repeat (destruct H as [H|H]; [discriminate H|]). exact H.
Qed.

Lemma written_table_follows_the_json_witness :
  exists df,
    poverty_table whole_numbers 2015 poverty_sample = inr df /\
    files (snd (output_script (OfYear Poverty_data) (serve poverty_sample)
                              sound_disk rejected whole_numbers empty_world))
      !! poverty_file 2015 = Some (CsvFile df) /\
    exists headers rws,
      poverty_sample = headers :: rws /\
      length (rows df) = (length poverty_sample - 1)%nat /\
      columns df = written_columns (OfYear Poverty_data) headers /\
      Forall (fun row => holds_year 2015 (cell df (SStr "year") row))
             (rows df) /\
      from_json (carried (OfYear Poverty_data)) headers rws df.
Proof.
  eexists. split; [vm_compute; reflexivity|].
  apply (written_table_follows_the_json (OfYear Poverty_data)
           (serve poverty_sample) sound_disk rejected whole_numbers
           empty_world 2015 200 poverty_sample).
  - vm_compute. tauto.
  - reflexivity.
  - discriminate.
  - reflexivity.
  - reflexivity.
  - vm_compute. reflexivity.
  - reflexivity.
Defined.

(** ** C4: the keys of a written table *)

(** The columns that name the geography of a row: the state and, in the
    county table, the county. *)
Definition geography_labels (k : output) : list scalar :=
  match k with
  | OfYear County_data => [SStr "state"; SStr "county"]
  | _ => [SStr "state"]
  end.

(** The field [to_csv] writes for a cell that holds a string is that string
    (the quoting of the CSV format apart).  How it writes a number or a
    missing value depends on the dtype pandas gave the column, so the keys
    are compared where the cells are strings, as the Census API returns the
    codes of states and counties. *)
Definition field (x : option scalar) : option string :=
  match x with
  | Some (SStr s) => Some s
  | _ => None
  end.

(** The geography of a row of the response. *)
Definition response_key (k : output) (headers : list scalar)
           (r : list scalar) : list (option string) :=
  List.map (fun g => field (cell_at headers g (pad (length headers) r)))
           (geography_labels k).

(** The geography of a row of a written table. *)
Definition written_key (k : output) (df : DataFrame) (row : list scalar)
  : list (option string) :=
  List.map (fun g => field (cell df g row)) (geography_labels k).

(** Every row of the response has a string for each part of its
    geography. *)
Definition coded (k : output) (headers : list scalar)
           (rws : list (list scalar)) : Prop :=
  Forall (fun r => Forall (fun x => x <> None) (response_key k headers r))
         rws.

(** No two rows of the written table have the same year and geography. *)
Definition unique_keys (k : output) (df : DataFrame) : Prop :=
  NoDup (List.map (fun row => (cell df (SStr "year") row, written_key k df row))
                  (rows df)).

Lemma carried_geography (k : output) (g : scalar) :
  In g (geography_labels k) -> carried k g.
Proof.
  destruct k as [[]| | |t]; cbn [geography_labels carried];
    intros Hin; repeat (destruct Hin as [<-|Hin]); try contradiction;
    try discriminate; right; reflexivity.
Qed.

Lemma written_keys_from_json (k : output) (headers : list scalar)
      (rws : list (list scalar)) (df : DataFrame) :
  from_json (carried k) headers rws df ->
  List.map (written_key k df) (rows df)
  = List.map (response_key k headers) rws.
Proof.
  unfold from_json. generalize (rows df). intros l Hjson.
  induction Hjson as [|r row rws l Hr _ IH]; simpl; [reflexivity|].
  rewrite IH. f_equal. unfold written_key, response_key.
  apply map_ext_in. intros g Hg. rewrite (Hr g (carried_geography k g Hg)).
  reflexivity.
Qed.

Lemma NoDup_with_constant {A B C : Type} (c : C) (g : A -> B) (l : list A) :
  NoDup (List.map (fun a => (c, g a)) l) <-> NoDup (List.map g l).
Proof.
  induction l as [|a l IH]; simpl; [split; constructor|].
  split; intros H; inversion H as [|? ? Hn Hd]; subst; constructor;
    try (apply IH; exact Hd); intros Hin; apply Hn;
    apply in_map_iff in Hin; destruct Hin as (x & Hx & Hin);
    apply in_map_iff; exists x; split; try exact Hin.
  - rewrite Hx. reflexivity.
  - inversion Hx. reflexivity.
Qed.




End Tables.
(* ===================================================================== *)
(** * Runs of the Census download scripts                                 *)
(* ===================================================================== *)

Module DownloadRuns.

Import Binary64 Frame Py Download Tables.
Local Open Scope Z_scope.
Local Open Scope string_scope.

(** ** The ten scripts *)

Inductive census_script :=
| Yearly (s : yearly)
| Occupation_industry_data
| Hispanic_comparison_data.

Definition run_script (s : census_script) (net : string -> response)
           (os : disk) (irregular : string -> string -> result DataFrame)
           (fos : string -> option float) : M unit :=
  match s with
  | Yearly s => yearly_script s net os irregular fos
  | Occupation_industry_data =>
      download_occupation_industry_data net os irregular fos
  | Hispanic_comparison_data =>
      download_hispanic_comparison_data net os irregular fos
  end.

(** The directory a script makes before its loop. *)
Definition script_dir (s : census_script) : string :=
  match s with
  | Yearly s => yearly_dir s
  | Occupation_industry_data => occupation_industry_dir
  | Hispanic_comparison_data => hispanic_dir
  end.

Definition hispanic_outputs : list string :=
  List.flat_map (fun t => List.map (hispanic_file t) years) tables.

(** The paths a script may write to. *)
Definition outputs (s : census_script) : list string :=
  match s with
  | Yearly s => List.map (yearly_file s) years
  | Occupation_industry_data => List.flat_map occupation_outputs years
  | Hispanic_comparison_data => hispanic_outputs
  end.

(** The loop of a script, as a function of the files it starts with. *)
Definition script_loop (s : census_script) (net : string -> response)
           (os : disk) (irregular : string -> string -> result DataFrame)
           (fos : string -> option float)
  : gmap string file -> gmap string file * list string :=
  match s with
  | Yearly s => run_years net os (yearly_loop s irregular fos) years
  | Occupation_industry_data => run_occupation net os irregular fos years
  | Hispanic_comparison_data => run_tables net os irregular fos tables
  end.

Lemma run_script_runs (s : census_script) (net : string -> response)
      (os : disk) (irregular : string -> string -> result DataFrame)
      (fos : string -> option float) :
  runs_as os (script_dir s) (script_loop s net os irregular fos)
          (run_script s net os irregular fos).
Proof.
  destruct s as [s| |]; cbn [script_dir script_loop run_script].
  - pose proof (yearly_script_run s net os irregular fos) as H.
    unfold runs in H. rewrite yearly_loop_eq in H at 1.
    exact H.
  - apply download_occupation_industry_data_run.
  - apply download_hispanic_comparison_data_run.
Qed.

Lemma script_loop_other (s : census_script) (net : string -> response)
      (os : disk) (irregular : string -> string -> result DataFrame)
      (fos : string -> option float) (fs : gmap string file) (p : string) :
  ~ In p (outputs s) ->
  fst (script_loop s net os irregular fos fs) !! p = fs !! p.
Proof.
  destruct s as [s| |]; cbn [script_loop outputs]; intros Hp.
  - apply run_years_other. intros y Hy Heq. apply Hp.
    rewrite yearly_loop_eq in Heq. cbn [py_file] in Heq.
    rewrite <- Heq. apply in_map. exact Hy.
  - apply run_occupation_other. exact Hp.
  - apply run_tables_other. exact Hp.
Qed.


(** A disk on which no directory can be made. *)
Definition read_only : disk :=
  mkDisk (fun _ => inl (OSError "Read-only file system"))
         (fun _ _ => Written).

Example read_only_disk_stops_the_script :
  download_census_data (serve two_states) read_only rejected empty_world
  = (inl (OSError "Read-only file system"), empty_world).
Proof. vm_compute. reflexivity. Qed.

(** A Census download script changes no file other than its own output
    files: every other path holds after the run what it held before. *)
Theorem only_the_outputs_change
        (s : census_script) (net : string -> response) (os : disk)
        (irregular : string -> string -> result DataFrame)
        (fos : string -> option float) (w : world) (p : string) :
  ~ In p (outputs s) ->
  files (snd (run_script s net os irregular fos w)) !! p = files w !! p.
Proof.
  intros Hp.
  rewrite (runs_as_files _ _ _ _ (run_script_runs s net os irregular fos)).
  destruct (started os (script_dir s)); [|reflexivity].
  apply script_loop_other. exact Hp.
Qed.

Lemma only_the_outputs_change_witness :
  files (snd (run_script Occupation_industry_data (serve two_states)
                         sound_disk rejected no_numbers
                         world_with_county_2012))
    !! county_file 2012
  = files world_with_county_2012 !! county_file 2012.
Proof.
  apply (only_the_outputs_change Occupation_industry_data (serve two_states)
           sound_disk rejected no_numbers world_with_county_2012
           (county_file 2012)).
  intros Hin.
  assert (H : List.existsb (String.eqb (county_file 2012))
                (outputs Occupation_industry_data) = false)
    by (vm_compute; reflexivity).
  apply not_true_iff_false in H. apply H. apply existsb_exists.
  exists (county_file 2012). split; [exact Hin | apply String.eqb_refl].
Defined.

(** A year whose request or processing fails leaves the file of that year
    as it was: absent if it was absent, with its old content otherwise. *)
Theorem failed_year_keeps_its_file
        (s : yearly) (net : string -> response) (os : disk)
        (irregular : string -> string -> result DataFrame)
        (fos : string -> option float) (w : world) (year : Z) (e : exn) :
  In year years ->
  fetch_result net (yearly_url s year)
    (process irregular (yearly_url s year) (yearly_table s fos year))
  = inl e ->
  files (snd (yearly_script s net os irregular fos w)) !! yearly_file s year
  = files w !! yearly_file s year.
Proof.
  intros Hin Hfail.
  rewrite (runs_as_files _ _ _ _ (yearly_script_run s net os irregular fos)).
  destruct (started os (py_dir (yearly_loop s irregular fos)));
    [|reflexivity].
  pose proof (run_years_at net os (yearly_loop s irregular fos) years
                (files w) year Hin) as Hat.
  pose proof (year_files_failed net os (yearly_loop s irregular fos) year
                (files w) e) as Hsame.
  rewrite yearly_loop_eq in Hat, Hsame |- *.
  cbn [py_file py_url py_table] in Hat, Hsame.
  rewrite (Hat (yearly_files_distinct s)), (Hsame Hfail). reflexivity.
Qed.

(** A server that is out of order. *)
Definition out_of_order (url : string) : response := Response 503 None.

Lemma failed_year_keeps_its_file_witness :
  files (snd (yearly_script Poverty_data out_of_order sound_disk rejected
                            no_numbers empty_world))
    !! poverty_file 2015
  = files empty_world !! poverty_file 2015.
Proof.
  apply (failed_year_keeps_its_file Poverty_data out_of_order sound_disk
           rejected no_numbers empty_world 2015 (HTTPError 503)).
  - vm_compute. tauto.
  - reflexivity.
Defined.

(** A body that is JSON but no matrix: the year fails in the processing,
    inside the [try], and its file is left as it was. *)
Example object_body_keeps_the_file :
  files (snd (yearly_script Poverty_data an_object sound_disk rejected
                            no_numbers empty_world))
  = files empty_world.
Proof. vm_compute. reflexivity. Qed.

(** [download_occupation_industry_data] fetches and processes both tables
    of a year before it writes either of them, the occupation table first.
    If the request or the processing of either table fails, neither file
    changes, even when the other table was fetched.  When both tables are
    processed and [to_csv] writes the occupation table, the occupation file
    holds it, and the industry file holds the industry table when its
    [to_csv] succeeds as well.  When the first [to_csv] raises, the second
    is not called and the industry file is as it was. *)
Theorem occupation_files_need_both_tables
        (net : string -> response) (os : disk)
        (irregular : string -> string -> result DataFrame)
        (fos : string -> option float) (w : world) (year : Z) :
  In year years ->
  let after :=
    files (snd (download_occupation_industry_data net os irregular fos w)) in
  let occupation := occupation_fetched net irregular fos year in
  let industry := industry_fetched net irregular fos year in
  (forall occ_df ind_df,
     makedirs_answer os occupation_industry_dir = inr tt ->
     occupation = inr occ_df -> industry = inr ind_df ->
     to_csv_answer os (occupation_file year) occ_df = Written ->
     after !! occupation_file year = Some (CsvFile occ_df) /\
     (to_csv_answer os (industry_file year) ind_df = Written ->
      after !! industry_file year = Some (CsvFile ind_df))) /\
  (forall occ_df e left,
     occupation = inr occ_df ->
     to_csv_answer os (occupation_file year) occ_df = NotWritten e left ->
     after !! industry_file year = files w !! industry_file year) /\
  ((exists e, occupation = inl e) \/ (exists e, industry = inl e) ->
   after !! occupation_file year = files w !! occupation_file year /\
   after !! industry_file year = files w !! industry_file year).
Proof.
  intros Hin after occupation industry. subst after.
  rewrite (runs_as_files _ _ _ _
             (download_occupation_industry_data_run net os irregular fos)).
  assert (Hocc : In (occupation_file year) (occupation_outputs year))
    by (left; reflexivity).
  assert (Hind : In (industry_file year) (occupation_outputs year))
    by (right; left; reflexivity).
  pose proof (run_occupation_at net os irregular fos years (files w) year _
                Hin Hocc occupation_files_distinct) as Ho.
  pose proof (run_occupation_at net os irregular fos years (files w) year _
                Hin Hind occupation_files_distinct) as Hi.
  unfold occupation_year_files in Ho, Hi.
  fold occupation industry in Ho, Hi.
  pose proof (occupation_industry_apart year) as Hne.
  unfold started.
  split; [|split].
  - intros occ_df ind_df Hmk Eo Ei Hfirst. rewrite Hmk, Ho, Hi.
    rewrite Eo, Ei, Hfirst. split.
    + rewrite after_to_csv_other by exact Hne. apply lookup_insert_eq.
    + intros Hsecond. rewrite (after_to_csv_written _ _ _ _ Hsecond).
      apply lookup_insert_eq.
  - intros occ_df e left Eo Hfirst.
    destruct (makedirs_answer os occupation_industry_dir); [reflexivity|].
    rewrite Hi, Eo, Hfirst.
    destruct industry; [reflexivity|].
    destruct left as [f|]; [|reflexivity].
    apply lookup_insert_ne. intros Heq. apply Hne. symmetry. exact Heq.
  - intros Hfail.
    destruct (makedirs_answer os occupation_industry_dir);
      [split; reflexivity|].
    rewrite Ho, Hi.
    destruct Hfail as [[e He]|[e He]]; rewrite He.
    + split; reflexivity.
    + destruct occupation; split; reflexivity.
Qed.

Definition occupation_sample : list (list scalar) :=
  [[SStr "NAME"; SStr "B24010_001E"; SStr "state"];
   [SStr "Alabama"; SStr "2000000"; SStr "01"]].

(** A server that has the occupation table of 2012 and nothing else. *)
Definition occupation_only (url : string) : response :=
  if String.eqb url (occupation_url 2012)
  then Response 200 (Some (JMatrix occupation_sample))
  else Response 404 None.

Lemma occupation_files_need_both_tables_witness :
  let after :=
    files (snd (download_occupation_industry_data occupation_only sound_disk
                  rejected no_numbers empty_world)) in
  let occupation := occupation_fetched occupation_only rejected no_numbers
                                       2012 in
  let industry := industry_fetched occupation_only rejected no_numbers 2012 in
  (forall occ_df ind_df,
     makedirs_answer sound_disk occupation_industry_dir = inr tt ->
     occupation = inr occ_df -> industry = inr ind_df ->
     to_csv_answer sound_disk (occupation_file 2012) occ_df = Written ->
     after !! occupation_file 2012 = Some (CsvFile occ_df) /\
     (to_csv_answer sound_disk (industry_file 2012) ind_df = Written ->
      after !! industry_file 2012 = Some (CsvFile ind_df))) /\
  (forall occ_df e left,
     occupation = inr occ_df ->
     to_csv_answer sound_disk (occupation_file 2012) occ_df
     = NotWritten e left ->
     after !! industry_file 2012 = files empty_world !! industry_file 2012) /\
  ((exists e, occupation = inl e) \/ (exists e, industry = inl e) ->
   after !! occupation_file 2012 = files empty_world !! occupation_file 2012 /\
   after !! industry_file 2012 = files empty_world !! industry_file 2012).
Proof.
  apply (occupation_files_need_both_tables occupation_only sound_disk
           rejected no_numbers empty_world 2012).
  vm_compute. tauto.
Defined.

Example occupation_table_alone_is_not_written :
  (exists occ_df,
     occupation_fetched occupation_only rejected no_numbers 2012
     = inr occ_df) /\
  files (snd (download_occupation_industry_data occupation_only sound_disk
                rejected no_numbers empty_world))
    !! occupation_file 2012 = None.
Proof. split; [eexists|]; vm_compute; reflexivity. Qed.

Definition industry_sample : list (list scalar) :=
  [[SStr "NAME"; SStr "B24030_001E"; SStr "state"];
   [SStr "Alabama"; SStr "1900000"; SStr "01"]].

(** A server that has the two tables of 2012. *)
Definition both_tables (url : string) : response :=
  if String.eqb url (occupation_url 2012)
  then Response 200 (Some (JMatrix occupation_sample))
  else if String.eqb url (industry_url 2012)
       then Response 200 (Some (JMatrix industry_sample))
       else Response 404 None.

(** A disk on which the industry file of 2012 cannot be written. *)
Definition no_industry_files : disk :=
  mkDisk (fun _ => inr tt)
         (fun path _ =>
            if String.eqb path (industry_file 2012)
            then NotWritten (OSError "No space left on device") None
            else Written).

(** ... leaves the occupation table of the year on its own. *)
Example occupation_file_without_industry_file :
  let after :=
    files (snd (download_occupation_industry_data both_tables
                  no_industry_files rejected no_numbers empty_world)) in
  is_Some (after !! occupation_file 2012) /\
  after !! industry_file 2012 = None.
Proof. split; [eexists|]; vm_compute; reflexivity. Qed.

(** ** The rates of [download_poverty_data] *)

Lemma poverty_table_steps (fos : string -> option float) (year : Z)
      (data : list (list scalar)) (df : DataFrame) :
  poverty_table fos year data = inr df ->
  exists df0 df1 df2 df3,
    parse_table year data = inr df0 /\
    numeric_column fos df0 (SStr "B17001_001E") = inr df1 /\
    numeric_column fos df1 (SStr "B17001_002E") = inr df2 /\
    rate_column df2 "poverty_rate" "B17001_002E" "B17001_001E" = inr df3 /\
    df = rename df3 poverty_names.
Proof.
  unfold poverty_table, mbind, result_bind.
  destruct (parse_table year data) as [e|df0]; [discriminate|].
  destruct (numeric_column fos df0 (SStr "B17001_001E")) as [e|df1] eqn:H1;
    [discriminate|].
  destruct (numeric_column fos df1 (SStr "B17001_002E")) as [e|df2] eqn:H2;
    [discriminate|].
  destruct (rate_column df2 "poverty_rate" "B17001_002E" "B17001_001E")
    as [e|df3] eqn:H3; [discriminate|].
  unfold mret, result_ret. intros H. inversion H.
  exists df0, df1, df2, df3. repeat split; assumption.
Qed.

(** A year of [download_poverty_data] is processed only if the headers of
    the response name each of the two variables B17001_001E and
    B17001_002E exactly once. *)
Theorem poverty_table_needs_its_variables
        (fos : string -> option float) (year : Z) (headers : list scalar)
        (rws : list (list scalar)) (df : DataFrame) :
  poverty_table fos year (headers :: rws) = inr df ->
  List.count_occ scalar_eq_dec headers (SStr "B17001_001E") = 1%nat /\
  List.count_occ scalar_eq_dec headers (SStr "B17001_002E") = 1%nat.
Proof.
  intros H.
  destruct (poverty_table_steps _ _ _ _ H)
    as (df0 & df1 & df2 & df3 & H0 & H1 & H2 & _).
  destruct (parse_table_from_json _ _ _ _ H0) as (Hc0 & Hwf0 & _).
  destruct (numeric_column_inv _ _ _ _ Hwf0 H1) as (Hc1 & _).
  unfold numeric_column, mbind, result_bind in H1, H2.
  destruct (getitem df0 (SStr "B17001_001E")) as [e|s1] eqn:Hg1;
    [discriminate|].
  destruct (getitem df1 (SStr "B17001_002E")) as [e|s2] eqn:Hg2;
    [discriminate|].
  split.
  - apply (getitem_once df0 _ s1 headers Hc0); [discriminate | exact Hg1].
  - apply (getitem_once df1 _ s2 headers); [congruence | discriminate
                                            | exact Hg2].
Qed.

Lemma poverty_table_needs_its_variables_witness :
  List.count_occ scalar_eq_dec (List.hd [] poverty_sample)
                 (SStr "B17001_001E") = 1%nat /\
  List.count_occ scalar_eq_dec (List.hd [] poverty_sample)
                 (SStr "B17001_002E") = 1%nat.
Proof.
  eapply (poverty_table_needs_its_variables whole_numbers 2015
            (List.hd [] poverty_sample) (List.tl poverty_sample)).
  vm_compute. reflexivity.
Defined.

(** A response without the variable B17001_001E: the year is not written. *)
Example poverty_without_total :
  poverty_table whole_numbers 2015 two_states
  = inl (KeyError (SStr "B17001_001E")).
Proof. vm_compute. reflexivity. Qed.

(** Row by row, the [poverty_rate] of the processed table is the rounded
    percentage of the two cells of the JSON row, read as numbers. *)
Lemma poverty_table_rates (fos : string -> option float) (year : Z)
      (headers : list scalar) (rws : list (list scalar)) (df : DataFrame) :
  poverty_table fos year (headers :: rws) = inr df ->
  Forall2 (fun r row =>
             cell df (SStr "poverty_rate") row
             = Some (SFloat
                       (pct_rate
                          (coerce fos (json_cell headers (SStr "B17001_002E") r))
                          (coerce fos (json_cell headers (SStr "B17001_001E") r)))))
          rws (rows df).
Proof.
  intros H.
  destruct (poverty_table_steps _ _ _ _ H)
    as (df0 & df1 & df2 & df3 & H0 & H1 & H2 & H3 & ->).
  destruct (parse_table_from_json _ _ _ _ H0) as (Hc0 & Hwf0 & _ & Hj0).
  destruct (numeric_column_inv _ _ _ _ Hwf0 H1) as (Hc1 & Hwf1 & Hk1).
  destruct (numeric_column_inv _ _ _ _ Hwf1 H2) as (Hc2 & Hwf2 & Hk2).
  pose proof (numeric_column_cells _ _ _ _ Hwf0 H1) as Hn1.
  pose proof (numeric_column_cells _ _ _ _ Hwf1 H2) as Hn2.
  unfold coerced in Hn1, Hn2.
  pose proof (rate_column_cells _ _ _ _ _ Hwf2 H3) as Hr3.
  pose proof (rename_keeps df3 poverty_names) as Hk4.
  unfold from_json in Hj0. unfold keeps in Hk1, Hk2, Hk4.
  pose proof (Forall2_compose _ _ _ _ _ Hj0 (Forall2_both _ _ _ _ Hk1 Hn1))
    as C1.
  pose proof (Forall2_compose _ _ _ _ _ C1 (Forall2_both _ _ _ _ Hk2 Hn2))
    as C2.
  pose proof (Forall2_compose _ _ _ _ _ C2 Hr3) as C3.
  pose proof (Forall2_compose _ _ _ _ _ C3 Hk4) as C4.
  eapply List.Forall2_impl; [|exact C4].
  clear. intros r row (row3 & (row2 & (row1 & (row0 & HJ & HK1 & HN1)
                                        & HK2 & HN2) & HR3) & HK4).
  destruct HN1 as (x1 & Hx1 & Hc1).
  destruct HN2 as (x2 & Hx2 & Hc2).
  destruct HR3 as (n & d & Hn & Hd & Hrate).
  rewrite HK4.
  2:{ split; [reflexivity|]. repeat constructor; simpl; discriminate. }
  rewrite Hrate. f_equal. f_equal.
  assert (Hn' : n = SFloat (coerce fos x2)) by congruence.
  assert (Hd' : d = SFloat (coerce fos x1)).
  { rewrite (HK2 (SStr "B17001_001E")) in Hd by discriminate. congruence. }
  rewrite (HK1 (SStr "B17001_002E")) in Hx2 by discriminate.
  rewrite (HJ (SStr "B17001_002E")) in Hx2 by discriminate.
  rewrite (HJ (SStr "B17001_001E")) in Hx1 by discriminate.
  unfold json_cell. rewrite Hx1, Hx2. subst n d. reflexivity.
Qed.

(** In the table [download_poverty_data] writes, the [poverty_rate] of a
    row is the rounded percentage of its two JSON cells read as numbers;
    it lies between 0 and 100 when these are valid inputs. *)
Theorem poverty_rate_of_each_row
        (fos : string -> option float) (year : Z) (headers : list scalar)
        (rws : list (list scalar)) (df : DataFrame) :
  poverty_table fos year (headers :: rws) = inr df ->
  Forall2 (fun r row =>
             let below := coerce fos (json_cell headers (SStr "B17001_002E") r) in
             let total := coerce fos (json_cell headers (SStr "B17001_001E") r) in
             cell df (SStr "poverty_rate") row
             = Some (SFloat (pct_rate below total)) /\
             (valid_inputs below total ->
              within_0_100 (pct_rate below total)))
          rws (rows df).
Proof.
  intros H. eapply List.Forall2_impl; [|exact (poverty_table_rates _ _ _ _ _ H)].
  intros r row Hrate. split; [exact Hrate | apply pct_rate_within].
Qed.

Lemma poverty_rate_of_each_row_witness :
  exists df,
    poverty_table whole_numbers 2015 poverty_sample = inr df /\
    Forall2 (fun r row =>
               let below :=
                 coerce whole_numbers
                   (json_cell (List.hd [] poverty_sample)
                              (SStr "B17001_002E") r) in
               let total :=
                 coerce whole_numbers
                   (json_cell (List.hd [] poverty_sample)
                              (SStr "B17001_001E") r) in
               cell df (SStr "poverty_rate") row
               = Some (SFloat (pct_rate below total)) /\
               (valid_inputs below total ->
                within_0_100 (pct_rate below total)))
            (List.tl poverty_sample) (rows df).
Proof.
  eexists. split; [vm_compute; reflexivity|].
  apply (poverty_rate_of_each_row whole_numbers 2015
           (List.hd [] poverty_sample) (List.tl poverty_sample)).
  vm_compute. reflexivity.
Defined.

(** A cell that is not a number: JSON [null], or a string Python does not
    read as a number. *)
Definition unreadable (fos : string -> option float) (x : scalar) : Prop :=
  x = SNull \/ exists s, x = SStr s /\ fos s = None.

Lemma pct_rate_nan_l (den : float) : pct_rate nan den = nan.
Proof. destruct den; reflexivity. Qed.

Lemma pct_rate_nan_r (num : float) : pct_rate num nan = nan.
Proof. destruct num; reflexivity. Qed.

Lemma coerce_unreadable (fos : string -> option float) (x : scalar) :
  unreadable fos x -> coerce fos x = nan.
Proof.
  intros [->|(s & -> & Hs)]; [reflexivity|]. simpl. rewrite Hs. reflexivity.
Qed.

(** A row whose total or whose count below the poverty level is missing
    from the response (JSON [null]) or is not a number gets the rate NaN:
    the row is kept and nothing is raised. *)
Theorem missing_value_gives_nan_rate
        (fos : string -> option float) (year : Z) (headers : list scalar)
        (rws : list (list scalar)) (df : DataFrame) :
  poverty_table fos year (headers :: rws) = inr df ->
  Forall2 (fun r row =>
             unreadable fos (json_cell headers (SStr "B17001_001E") r) \/
             unreadable fos (json_cell headers (SStr "B17001_002E") r) ->
             cell df (SStr "poverty_rate") row = Some (SFloat nan))
          rws (rows df).
Proof.
  intros H. eapply List.Forall2_impl; [|exact (poverty_table_rates _ _ _ _ _ H)].
  intros r row Hrate [Hu|Hu]; rewrite Hrate;
    rewrite (coerce_unreadable _ _ Hu).
  - rewrite pct_rate_nan_r. reflexivity.
  - rewrite pct_rate_nan_l. reflexivity.
Qed.

(** A response in which the total of Alaska is missing. *)
Definition poverty_with_null : list (list scalar) :=
  [[SStr "NAME"; SStr "B17001_001E"; SStr "B17001_002E"; SStr "state"];
   [SStr "Alabama"; SStr "4000"; SStr "1000"; SStr "01"];
   [SStr "Alaska"; SNull; SStr "60"; SStr "02"]].

Lemma missing_value_gives_nan_rate_witness :
  exists df,
    poverty_table whole_numbers 2015 poverty_with_null = inr df /\
    Forall2 (fun r row =>
               unreadable whole_numbers
                 (json_cell (List.hd [] poverty_with_null)
                            (SStr "B17001_001E") r) \/
               unreadable whole_numbers
                 (json_cell (List.hd [] poverty_with_null)
                            (SStr "B17001_002E") r) ->
               cell df (SStr "poverty_rate") row = Some (SFloat nan))
            (List.tl poverty_with_null) (rows df).
Proof.
  eexists. split; [vm_compute; reflexivity|].
  apply (missing_value_gives_nan_rate whole_numbers 2015
           (List.hd [] poverty_with_null) (List.tl poverty_with_null)).
  vm_compute. reflexivity.
Defined.


End DownloadRuns.

(* ===================================================================== *)
(** * Runs of the IPUMS download script                                   *)
(* ===================================================================== *)

Module IpumsRuns.

Import Frame Py Ipums.
Local Open Scope Z_scope.
Local Open Scope string_scope.

Section Service.

Variable API_KEY : string.
Variable submit_answer : Z -> result string.
Variable status_answer : Z -> Z -> result string.
Variable download_answer : Z -> result unit.
Variable process_ipums_data : string -> Z -> string -> M unit.

(** The extract of a year is neither completed nor failed, however long the
    script waits. *)
Definition pending (year : Z) : Prop :=
  forall wait_time, exists status,
    status_answer year wait_time = inr status /\
    status <> "completed" /\ status <> "failed".

Definition polls (year : Z) (n : nat) : list string :=
  List.repeat (call "extract_status" year) n.

(** While the extract is pending, the waiting loop asks for its status
    once every ten seconds until [max_wait] is reached. *)
Lemma wait_loop_pending (year : Z) (n : nat) (w : world) :
  pending year ->
  exists out,
    wait_loop status_answer n year (max_wait - 10 * Z.of_nat n) w
    = (inr (Next, max_wait),
       mkWorld (files w) out (requests w ++ polls year n)%list).
Proof.
  intros Hpending. revert w. induction n as [|n IH]; intros w.
  - exists (stdout w). cbn [wait_loop polls List.repeat].
    rewrite app_nil_r. replace (max_wait - 10 * Z.of_nat 0) with max_wait by lia.
    destruct w; reflexivity.
  - cbn [wait_loop].
    destruct (Z.ltb_spec (max_wait - 10 * Z.of_nat (S n)) max_wait)
      as [_|Hge]; [|lia].
    destruct (Hpending (max_wait - 10 * Z.of_nat (S n)))
      as (status & Hstatus & Hc & Hf).
    unfold mbind at 1, M_bind at 1, extract_status, api_call.
    rewrite Hstatus.
    unfold mbind at 1, M_bind at 1, print at 1.
    rewrite (bool_decide_eq_false_2 _ Hc), (bool_decide_eq_false_2 _ Hf).
    unfold mbind, M_bind, sleep, mret, M_ret.
    replace (max_wait - 10 * Z.of_nat (S n) + 10)
      with (max_wait - 10 * Z.of_nat n) by lia.
    match goal with
    | |- context [wait_loop status_answer n year _ ?w1] =>
        destruct (IH w1) as [out ->]
    end.
    exists out. cbn [files requests]. unfold polls.
    rewrite <- app_assoc. reflexivity.
Qed.

(** The year of a pending extract: one submission, thirty status queries,
    no download; the loop goes on with the next year. *)
Lemma year_body_timed_out (year : Z) (extract_id : string) (w : world) :
  submit_answer year = inr extract_id ->
  pending year ->
  exists out,
    year_body submit_answer status_answer download_answer process_ipums_data
              year w
    = (inr Next,
       mkWorld (files w) out
         (requests w ++ call "submit_extract" year :: polls year 30)%list).
Proof.
  intros Hsubmit Hpending. unfold year_body, rounds.
  unfold try_except, mbind, M_bind, submit_extract, api_call.
  unfold print at 1 2 3 4. cbn [files stdout requests]. rewrite Hsubmit.
  unfold print at 1 2. cbn [files stdout requests].
  match goal with
  | |- context [wait_loop status_answer 30 year 0 ?w1] =>
      destruct (wait_loop_pending year 30 w1 Hpending) as [out Hloop]
  end.
  change (max_wait - 10 * Z.of_nat 30) with 0 in Hloop. rewrite Hloop.
  change (max_wait <=? max_wait)%Z with true. cbv iota.
  unfold print, mret, M_ret. cbn [files stdout requests].
  rewrite <- (app_assoc (requests w)). eexists. reflexivity.
Qed.

(** The calls of a year that times out. *)
Definition timed_out_calls (year : Z) : list string :=
  call "submit_extract" year :: polls year 30.

Lemma for_each_flow_timed_out (ys : list Z) (w : world) :
  (forall year, exists extract_id, submit_answer year = inr extract_id) ->
  (forall year, pending year) ->
  exists out,
    for_each_flow ys
      (year_body submit_answer status_answer download_answer
                 process_ipums_data) w
    = (inr tt,
       mkWorld (files w) out
         (requests w ++ List.flat_map timed_out_calls ys)%list).
Proof.
  intros Hsubmit Hpending. revert w.
  induction ys as [|y ys IH]; intros w; cbn [for_each_flow List.flat_map].
  - exists (stdout w). rewrite app_nil_r. destruct w; reflexivity.
  - destruct (Hsubmit y) as [extract_id Hy].
    destruct (year_body_timed_out y extract_id w Hy (Hpending y)) as [out Hb].
    unfold mbind at 1, M_bind at 1. rewrite Hb.
    match goal with
    | |- context [for_each_flow ys _ ?w1] => destruct (IH w1) as [out' ->]
    end.
    exists out'. cbn [files requests]. unfold timed_out_calls.
    rewrite <- app_assoc. reflexivity.
Qed.


End Service.

(** A service that keeps every extract in its queue. *)
Definition queued (year wait_time : Z) : result string := inr "queued".


Example ninety_three_calls :
  length (requests (snd (download_ipums_data "key" extract_number queued
                           downloaded nothing_to_process start)))
  = 93%nat.
Proof. vm_compute. reflexivity. Qed.

End IpumsRuns.

(* ===================================================================== *)
(** * Runs of the visualization scripts                                   *)
(* ===================================================================== *)

Module VizRuns.

Import Frame Py Viz.
Local Open Scope Z_scope.
Local Open Scope string_scope.

(** ** Reading the CSV files *)

(** The paths [generate_map] reads. *)
Definition csv_files (w : world) : list string :=
  List.filter (glob_match input_dir "" ".csv")
              (List.map fst (map_to_list (files w))).

Lemma read_all_inv (paths : list string) (w : world)
      (df_list : list DataFrame) :
  fst (read_all paths w) = inr df_list ->
  Forall2 (fun path df => files w !! path = Some (CsvFile df)) paths df_list.
Proof.
  revert df_list. induction paths as [|f rest IH]; intros df_list.
  - cbn. intros H. inversion H. constructor.
  - cbn [read_all]. unfold mbind, M_bind, read_csv.
    destruct (files w !! f) as [[df|fig]|] eqn:Hf; try discriminate.
    pose proof (read_all_world rest w) as Hw.
    destruct (read_all rest w) as [[e|dfs] w'] eqn:Hrest; [discriminate|].
    cbn. intros H. inversion H; subst df_list. constructor; [exact Hf|].
    apply IH. reflexivity.
Qed.

Lemma read_all_ok (paths : list string) (w : world) :
  Forall (fun path => exists df, files w !! path = Some (CsvFile df)) paths ->
  exists df_list,
    read_all paths w = (inr df_list, w) /\
    Forall2 (fun path df => files w !! path = Some (CsvFile df)) paths df_list.
Proof.
  induction paths as [|f rest IH]; intros Hall.
  - exists []. split; [reflexivity | constructor].
  - inversion Hall as [|? ? [df Hf] Hrest]; subst.
    destruct (IH Hrest) as (dfs & Hread & Hdfs).
    exists (df :: dfs). split; [|constructor; assumption].
    cbn [read_all]. unfold mbind, M_bind, read_csv. rewrite Hf, Hread.
    reflexivity.
Qed.

Section Map.

Variable sort_values : DataFrame -> scalar -> result DataFrame.

(** What a run of [generate_map] comes to: an exception that leaves the
    world as it was, the warning about missing data, or the map. *)
Lemma generate_map_outcome (w : world) :
  (exists e, generate_map sort_values w = (inl e, w)) \/
  (csv_files w = [] /\
   generate_map sort_values w
   = (inr tt,
      mkWorld (files w)
        (stdout w ++ ["No data found in data/census_acs5/"])%list
        (requests w))) \/
  (exists fig df_list,
     csv_files w <> [] /\
     Forall2 (fun path df => files w !! path = Some (CsvFile df))
             (csv_files w) df_list /\
     generate_map sort_values w
     = (inr tt,
        mkWorld (<[map_file := HtmlFile fig]> (files w))
          (stdout w ++ [("Map saved to " ++ map_file)%string])%list
          (requests w))).
Proof.
  unfold generate_map, mbind, M_bind, glob. fold (csv_files w).
  pose proof (read_all_world (csv_files w) w) as Hw.
  pose proof (read_all_inv (csv_files w) w) as Hinv.
  destruct (read_all (csv_files w) w) as [[e|df_list] w1]; simpl in Hw;
    subst w1.
  { left. eauto. }
  specialize (Hinv df_list eq_refl).
  destruct df_list as [|df rest].
  { right. left. inversion Hinv. split; reflexivity. }
  unfold lift.
  destruct (concat (df :: rest)) as [e|full_df]; [left; eauto|].
  destruct (map_frame sort_values full_df) as [e|map_df]; [left; eauto|].
  destruct (choropleth map_df) as [e|fig]; [left; eauto|].
  right. right. exists fig, (df :: rest). split; [|split].
  - intros Hnil. rewrite Hnil in Hinv. inversion Hinv.
  - exact Hinv.
  - reflexivity.
Qed.

(** [generate_map] changes [docs/graph7_map.html] only when
    [data/census_acs5] holds at least one CSV file, and then every CSV file
    of that directory has been read. *)
Theorem map_is_drawn_from_the_csv_files (w : world) :
  files (snd (generate_map sort_values w)) !! map_file
  <> files w !! map_file ->
  csv_files w <> [] /\
  Forall (fun path => exists df, files w !! path = Some (CsvFile df))
         (csv_files w).
Proof.
  intros Hchanged.
  destruct (generate_map_outcome w)
    as [[e Hrun]|[[_ Hrun]|(fig & df_list & Hne & Hread & Hrun)]];
    rewrite Hrun in Hchanged.
  - exfalso. apply Hchanged. reflexivity.
  - exfalso. apply Hchanged. reflexivity.
  - split; [exact Hne|].
    clear -Hread. induction Hread; constructor; eauto.
Qed.

(** [generate_map] makes no request and changes no file other than
    [docs/graph7_map.html], whether it draws the map, warns, or raises. *)
Theorem generate_map_changes_only_the_map (w : world) :
  requests (snd (generate_map sort_values w)) = requests w /\
  forall path, path <> map_file ->
    files (snd (generate_map sort_values w)) !! path = files w !! path.
Proof.
  destruct (generate_map_outcome w)
    as [[e Hrun]|[[_ Hrun]|(fig & df_list & _ & _ & Hrun)]];
    rewrite Hrun; cbn [snd files requests]; split; try reflexivity.
  intros path Hne. apply lookup_insert_ne. congruence.
Qed.

End Map.

(** ** The columns of the concatenated frame *)

Lemma union_columns_In (dfs : list DataFrame) (acc : list scalar)
      (c : scalar) :
  In c (List.fold_left
          (fun acc df =>
             (acc ++ List.filter
                       (fun c => negb (List.existsb (scalar_eqb c) acc))
                       (columns df))%list)
          dfs acc) ->
  In c acc \/ exists df, In df dfs /\ In c (columns df).
Proof.
  revert acc. induction dfs as [|df dfs IH]; intros acc; cbn [List.fold_left].
  - tauto.
  - intros Hin. destruct (IH _ Hin) as [Hacc|(df' & Hdf' & Hc)].
    + apply in_app_or in Hacc. destruct Hacc as [Hacc|Hnew]; [tauto|].
      apply filter_In in Hnew. right. exists df. split; [left; reflexivity|].
      tauto.
    + right. exists df'. split; [right; exact Hdf' | exact Hc].
Qed.

(** A column of the concatenated frame is a column of one of the frames. *)
Lemma concat_columns (dfs : list DataFrame) (full_df : DataFrame)
      (c : scalar) :
  concat dfs = inr full_df ->
  In c (columns full_df) ->
  exists df, In df dfs /\ In c (columns df).
Proof.
  unfold concat. destruct dfs as [|df dfs]; [discriminate|].
  destruct (List.forallb _ (df :: dfs)).
  - intros H Hc. inversion H; subst full_df. exists df.
    split; [left; reflexivity | exact Hc].
  - destruct (List.forallb _ (df :: dfs)); [|discriminate].
    intros H Hc. inversion H; subst full_df. cbn [columns] in Hc.
    unfold union_columns in Hc.
    destruct (union_columns_In _ _ _ Hc) as [[]|Hex]. exact Hex.
Qed.

(** Without a NAME or State column there is no State to map. *)
Lemma with_state_code_needs_a_name (full_df : DataFrame) :
  ~ In (SStr "NAME") (columns full_df) ->
  ~ In (SStr "State") (columns full_df) ->
  with_state_code (labelled full_df) = inl (KeyError (SStr "State")).
Proof.
  intros Hname Hstate. unfold with_state_code, mbind, result_bind, getitem.
  assert (Hpos : positions (SStr "State") (columns (labelled full_df)) 0 = []).
  { apply Download.positions_nil. unfold labelled.
    rewrite Download.rename_columns. intros Hin. apply in_map_iff in Hin.
    destruct Hin as (c & Hc & Hin). unfold Download.new_name in Hc.
    destruct (assoc c _) as [c'|] eqn:Hassoc.
    - destruct (Viz.assoc_inv _ _ _ Hassoc) as (k & -> & Hk).
      simpl in Hk. destruct Hk as [Hk|[Hk|[Hk|[]]]]; inversion Hk; subst;
        try discriminate. contradiction.
    - subst c. contradiction. }
  rewrite Hpos. reflexivity.
Qed.

Section MapInputs.

Variable sort_values : DataFrame -> scalar -> result DataFrame.

(** When no CSV file of [data/census_acs5] has a NAME (or State) column,
    [generate_map] does not warn and return: it raises, [KeyError] for the
    State column or the error of [pd.concat], and writes nothing. *)
Theorem generate_map_needs_the_name_column (w : world) :
  csv_files w <> [] ->
  Forall (fun path =>
            exists df, files w !! path = Some (CsvFile df) /\
                       ~ In (SStr "NAME") (columns df) /\
                       ~ In (SStr "State") (columns df))
         (csv_files w) ->
  generate_map sort_values w = (inl (KeyError (SStr "State")), w) \/
  generate_map sort_values w = (inl ValueError, w).
Proof.
  intros Hne Hall.
  assert (Hfiles : Forall (fun path => exists df,
                             files w !! path = Some (CsvFile df))
                          (csv_files w)).
  { eapply Forall_impl; [|exact Hall]. intros path (df & Hdf & _). eauto. }
  destruct (read_all_ok _ w Hfiles) as (df_list & Hread & Hdfs).
  unfold generate_map, mbind, M_bind, glob. fold (csv_files w).
  rewrite Hread. destruct df_list as [|df rest].
  { inversion Hdfs as [Hnil|]. symmetry in Hnil. contradiction. }
  unfold lift.
  destruct (concat (df :: rest)) as [e|full_df] eqn:Hconcat.
  { right. unfold concat in Hconcat.
    destruct (List.forallb _ (df :: rest)); [discriminate|].
    destruct (List.forallb _ (df :: rest)); [discriminate|].
    inversion Hconcat. reflexivity. }
  left.
  assert (Hnone : forall c, c = SStr "NAME" \/ c = SStr "State" ->
                            ~ In c (columns full_df)).
  { intros c Hc Hin.
    destruct (concat_columns _ _ _ Hconcat Hin) as (df' & Hdf' & Hcol).
    assert (Hsome : exists path, In path (csv_files w) /\
                                 files w !! path = Some (CsvFile df')).
    { clear -Hdfs Hdf'. induction Hdfs as [|path d paths ds Hd _ IH].
      - destruct Hdf'.
      - destruct Hdf' as [->|Hin].
        + exists path. split; [left; reflexivity | exact Hd].
        + destruct (IH Hin) as (p & Hp & Hf). exists p.
          split; [right; exact Hp | exact Hf]. }
    destruct Hsome as (path & Hpath & Hf).
    rewrite Forall_forall in Hall.
    destruct (Hall path Hpath) as (df'' & Hf' & Hn & Hs).
    assert (df'' = df') by congruence. subst df''.
    destruct Hc as [->| ->]; contradiction. }
  unfold map_frame, mbind, result_bind.
  rewrite with_state_code_needs_a_name by (apply Hnone; tauto).
  reflexivity.
Qed.

(** ** The values of the map *)

Hypothesis sort_values_permutes :
  forall df label df',
    sort_values df label = inr df' ->
    columns df' = columns df /\ Permutation (rows df') (rows df).

(** Every row that [generate_map] hands to [px.choropleth] is a row of the
    input: under every label other than StateCode it holds the cell of that
    input row, so that no population, state or year is changed. *)
Theorem map_rows_are_input_rows (full_df map_df : DataFrame) :
  Download.well_formed full_df ->
  map_frame sort_values full_df = inr map_df ->
  Forall (fun row =>
            exists input,
              In input (rows full_df) /\
              forall label, label <> SStr "StateCode" ->
                cell map_df label row = cell (labelled full_df) label input)
         (rows map_df).
Proof.
  intros Hwf. unfold map_frame, mbind, result_bind.
  destruct (with_state_code (labelled full_df)) as [e|coded] eqn:Hcoded;
    [discriminate|].
  destruct (mainland coded) as [e|selected] eqn:Hsel; [discriminate|].
  intros Hsort.
  pose proof (rename_well_formed full_df
                [("B03001_005E", "Population"); ("NAME", "State");
                 ("year", "Year")] Hwf) as Hwf'.
  fold (labelled full_df) in Hwf'.
  destruct (with_state_code_inv _ _ Hwf' Hcoded) as (Hhas & Hrows & _).
  destruct (mainland_inv _ _ Hhas Hrows Hsel) as (Hcols & Hkept).
  destruct (sort_values_permutes _ _ _ Hsort) as (Hcols' & Hperm).
  assert (Hothers :
    Forall2 (fun input row =>
               forall label, label <> SStr "StateCode" ->
                 cell coded label row = cell (labelled full_df) label input)
            (rows (labelled full_df)) (rows coded)).
  { revert Hcoded. unfold with_state_code, mbind, result_bind.
    destruct (getitem (labelled full_df) (SStr "State")) as [e|state] eqn:Hg;
      [discriminate|].
    unfold mret, result_ret. intros H. inversion H; subst coded; clear H.
    destruct (Download.getitem_inv _ _ _ Hg) as [_ Hlen].
    assert (Hlen' : length (series_map us_state_to_abbrev state)
                    = length (rows (labelled full_df))).
    { unfold series_map. rewrite length_map. exact Hlen. }
    eapply List.Forall2_impl;
      [|exact (Download.setitem_others _ (SStr "StateCode") _ Hwf' Hlen')].
    intros input row [_ Ho] label Hl. rewrite !Download.cell_cell_at.
    apply Ho. exact Hl. }
  apply Forall_forall. intros row Hin.
  apply (Permutation_in _ Hperm) in Hin. rewrite Hkept in Hin.
  apply filter_In in Hin. destruct Hin as [Hin _].
  assert (Hc : columns map_df = columns coded) by congruence.
  clear -Hothers Hin Hc.
  change (rows (labelled full_df)) with (rows full_df) in Hothers.
  induction Hothers as [|input r inputs rs Hr _ IH]; [destruct Hin|].
  destruct Hin as [->|Hin].
  - exists input. split; [left; reflexivity|].
    intros label Hl. rewrite (cell_columns coded map_df) by exact Hc.
    apply Hr. exact Hl.
  - destruct (IH Hin) as (input' & Hin' & Hcells). exists input'.
    split; [right; exact Hin' | exact Hcells].
Qed.

End MapInputs.

(** ** Sample runs *)

Definition census_2010 : string :=
  "data/census_acs5/acs5_puerto_rican_pop_2010.csv".

(** A project with one downloaded table. *)
Definition one_table : world :=
  mkWorld {[ census_2010 := CsvFile sample_full_df ]} [] [].

(** A project whose only table has no NAME column. *)
Definition nameless_table : world :=
  mkWorld
    {[ census_2010 :=
         CsvFile (mkFrame [SStr "B03001_005E"; SStr "state"; SStr "year"]
                          [[SInt 847550; SInt 12; SInt 2011]]) ]} [] [].

Lemma map_is_drawn_from_the_csv_files_witness :
  csv_files one_table <> [] /\
  Forall (fun path => exists df, files one_table !! path = Some (CsvFile df))
         (csv_files one_table).
Proof.
  apply (map_is_drawn_from_the_csv_files sort_rows one_table).
  vm_compute. discriminate.
Defined.

Lemma generate_map_needs_the_name_column_witness :
  generate_map sort_rows nameless_table
  = (inl (KeyError (SStr "State")), nameless_table) \/
  generate_map sort_rows nameless_table = (inl ValueError, nameless_table).
Proof.
  apply (generate_map_needs_the_name_column sort_rows nameless_table).
  - vm_compute. discriminate.
  - assert (Hfiles : csv_files nameless_table = [census_2010])
      by (vm_compute; reflexivity).
    rewrite Hfiles. constructor; [|constructor].
    eexists. split; [vm_compute; reflexivity|].
    split; intros H; simpl in H; intuition discriminate.
Defined.

Lemma map_rows_are_input_rows_witness :
  exists map_df,
    map_frame sort_rows sample_full_df = inr map_df /\
    Forall (fun row =>
              exists input,
                In input (rows sample_full_df) /\
                forall label, label <> SStr "StateCode" ->
                  cell map_df label row
                  = cell (labelled sample_full_df) label input)
           (rows map_df).
Proof.
  eexists. split; [vm_compute; reflexivity|].
  apply (map_rows_are_input_rows sort_rows sort_rows_permutes sample_full_df).
  - repeat constructor.
  - vm_compute. reflexivity.
Defined.

(** ** [generate_improved_visualizations.py] *)

Section Improved.

(** The figures, as functions of the tables the script has read: the lines
    of each function between its reads and [fig.write_html]. *)
Variable island_born : DataFrame -> result DataFrame.
Variable merged_population : DataFrame -> list DataFrame -> result figure.
Variable state_percent_share : list DataFrame -> result figure.
Variable population_pyramid : DataFrame -> result figure.

(** What [generate_economic_scatter_plot] finds in its merged table. *)
Inductive scatter :=
| Scatter (fig : figure)
| InsufficientData
| NoUnemploymentRate.

Variable economic_scatter : DataFrame -> list DataFrame -> result scatter.

(** [int(f.split('_')[-1].replace('.csv', ''))] *)
Variable file_year : string -> result Z.

(** [for f in sorted(census_files): df = pd.read_csv(f);
    year = int(...); df['YEAR'] = year; all_census.append(df)] *)
Fixpoint read_census (paths : list string) : M (list DataFrame) :=
  match paths with
  | [] => mret []
  | f :: rest =>
      df ← read_csv f;
      year ← lift (file_year f);
      let df := setitem_scalar df (SStr "YEAR") (SInt year) in
      all_census ← read_census rest;
      mret (df :: all_census)
  end.

Definition census_dir : string := "data/census_acs5".

Definition generate_merged_population_chart : M unit :=
  let file_path := "data/usa_00001.csv" in
  df ← read_csv file_path;
  pr_yearly ← lift (island_born df);
  census_files ← glob census_dir "acs5_puerto_rican_pop_" ".csv";
  match census_files with
  | _ :: _ =>
      all_census ← read_census (sorted census_files);
      fig ← lift (merged_population pr_yearly all_census);
      write_html fig "docs/graph_merged_population.html";;
      print "Generated merged population chart (Total vs Island-Born)"
  | [] => print "Census ACS5 data not found. Skipping merged population chart."
  end.

Definition generate_state_percent_share_chart : M unit :=
  census_files ← glob census_dir "acs5_puerto_rican_pop_" ".csv";
  match census_files with
  | [] =>
      print "Census ACS5 data not found. Skipping state percent share chart."
  | _ :: _ =>
      all_census ← read_census (sorted census_files);
      fig ← lift (state_percent_share all_census);
      write_html fig "docs/graph_state_percent_share.html";;
      print "Generated state percent share chart"
  end.

Definition generate_economic_scatter_plot : M unit :=
  let combined_file := "data/puerto_rico_economic/pr_economic_combined.csv" in
  exists_file combined_file ≫= fun found : bool =>
  if negb found then
    print "Puerto Rico economic data not found. Skipping scatter plot."
  else
    pr_econ_df ← read_csv combined_file;
    pop_files ← glob "data/census_acs5" "acs5_puerto_rican_pop_" ".csv";
    match pop_files with
    | [] => print "Puerto Rican population data not found. Skipping scatter plot."
    | _ :: _ =>
        all_pop ← read_all (sorted pop_files);
        found ← lift (economic_scatter pr_econ_df all_pop);
        match found with
        | Scatter fig =>
            write_html fig "docs/graph_economic_scatter.html";;
            print "Generated economic scatter plot with regression line"
        | InsufficientData => print "Insufficient data for scatter plot"
        | NoUnemploymentRate =>
            print "Unemployment rate data not found in economic data"
        end
    end.

(** [if __name__ == "__main__": ...] *)
Definition main : M unit :=
  print "Generating improved visualizations...";;
  generate_merged_population_chart;;
  generate_state_percent_share_chart;;
  generate_population_pyramid population_pyramid;;
  generate_economic_scatter_plot;;
  print "All improved visualizations generated!".


(** Without a population table, [generate_state_percent_share_chart] warns
    and returns. *)
Lemma state_percent_share_without_data (w : world) :
  (forall path,
     glob_match census_dir "acs5_puerto_rican_pop_" ".csv" path = true ->
     files w !! path = None) ->
  generate_state_percent_share_chart w
  = (inr tt,
     mkWorld (files w)
       (stdout w
        ++ ["Census ACS5 data not found. Skipping state percent share chart."])%list
       (requests w)).
Proof.
  intros Hnone. unfold generate_state_percent_share_chart, mbind, M_bind, glob.
  rewrite filter_none; [reflexivity|].
  intros path Hin. destruct (listed_file w path Hin) as [f Hf].
  destruct (glob_match census_dir "acs5_puerto_rican_pop_" ".csv" path) eqn:Hm;
    [|reflexivity].
  rewrite (Hnone path Hm) in Hf. discriminate.
Qed.

End Improved.

Definition no_table (df : DataFrame) : result DataFrame :=
  inl (KeyError (SStr "BPL")).
Definition no_chart (df : DataFrame) (dfs : list DataFrame) : result figure :=
  inl (KeyError (SStr "YEAR")).
Definition no_share (dfs : list DataFrame) : result figure :=
  inl (KeyError (SStr "YEAR")).
Definition no_scatter (df : DataFrame) (dfs : list DataFrame)
  : result scatter := inr InsufficientData.
Definition no_year (path : string) : result Z := inl ValueError.


End VizRuns.
